(** * Cost-analysis scripts: paginated aggregation and period comparison

    A shallow embedding of the cost aggregation and comparison logic of
    [aws_cost_compare.py], [account_service_costs.py] and [aws_cost.py].

    Conventions of the embedding:
    - a Python [float] is a primitive binary64 [float]; every arithmetic
      operation of the source is the corresponding IEEE operation;
    - a Python [dict] (and [defaultdict]) is an association list in insertion
      order, because iteration order and stable sorting depend on it;
    - a Python exception is a value of [exn] carried by [result];
    - the Cost Explorer client is a script of response pages consumed one per
      call, together with the log of the requests that were sent;
    - the machine a program runs on answers whether a session can be
      created for a profile and whether a file can be opened for writing;
    - strings are sequences of ASCII characters. *)

From Stdlib Require Import ZArith List Bool String Ascii Floats Lia.
From Stdlib Require Import DecimalString Permutation Sorted.
Import ListNotations.

Set Implicit Arguments.

(** ** Python exceptions and fallible computations *)

Inductive exn : Type :=
| ValueError (msg : string)
| ZeroDivisionError
| OverflowError
| ClientError
| ProfileNotFound (profile : string)
| OSError (path : string).

Inductive result (A : Type) : Type :=
| Ok (a : A)
| Raise (e : exn).

Arguments Ok {A} a.
Arguments Raise {A} e.

Definition bind {A B : Type} (r : result A) (k : A -> result B) : result B :=
  match r with
  | Ok a => k a
  | Raise e => Raise e
  end.

Notation "'let*' x ':=' r 'in' k" := (bind r (fun x => k))
  (at level 10, x pattern, r at level 100, k at level 200).

Fixpoint mapM {A B : Type} (f : A -> result B) (l : list A) : result (list B) :=
  match l with
  | [] => Ok []
  | x :: xs =>
      let* y := f x in
      let* ys := mapM f xs in
      Ok (y :: ys)
  end.

(** ** Python dictionaries with string keys, in insertion order *)

Module PyDict.

Definition dict (V : Type) : Type := list (string * V).

Definition keys {V} (d : dict V) : list string := map fst d.

(** [d.get(k)] *)
Fixpoint get {V} (d : dict V) (k : string) : option V :=
  match d with
  | [] => None
  | (k', v) :: rest => if String.eqb k' k then Some v else get rest k
  end.

(** [d.get(k, default)] *)
Definition get_default {V} (d : dict V) (k : string) (default : V) : V :=
  match get d k with
  | Some v => v
  | None => default
  end.

(** [d[k] = v]: an existing key keeps its position, a new key goes last. *)
Fixpoint setitem {V} (d : dict V) (k : string) (v : V) : dict V :=
  match d with
  | [] => [(k, v)]
  | (k', v') :: rest =>
      if String.eqb k' k then (k', v) :: rest else (k', v') :: setitem rest k v
  end.

End PyDict.

Import PyDict.

(** ** Python floats *)

Module PyFloat.

Open Scope float_scope.

(** [a / b] on floats raises [ZeroDivisionError] when [b == 0]. *)
Definition truediv (a b : float) : result float :=
  if b =? 0 then Raise ZeroDivisionError else Ok (a / b).

(** The threshold literal [0.01]: the binary64 value nearest to 1/100. *)
Definition cent : float := 0x1.47ae147ae147bp-7.

(** [defaultdict(float)]: [d[k] += x]. *)
Definition iadd (d : dict float) (k : string) (x : float) : dict float :=
  setitem d k (get_default d k 0 + x).

(** [sum(xs)] over floats, as a left-to-right addition: the accumulator
    starts at the integer [0], which the first addition converts to [0.0].
    (From CPython 3.12 on, [sum] also compensates the rounding error of the
    additions; the totals it computes are used for TOTAL lines only.) *)
Definition fsum (xs : list float) : float := fold_left add xs 0.

(** *** Fixed-point formatting ([format(x, '+.1f')])

    The decimal string is the correctly rounded one: the exact binary value
    is scaled by ten and rounded to the nearest integer, ties to even. *)

Definition round_half_even_div (n d : Z) : Z :=
  let q := (n / d)%Z in
  let r := (n mod d)%Z in
  match (2 * r ?= d)%Z with
  | Lt => q
  | Gt => (q + 1)%Z
  | Eq => if Z.even q then q else (q + 1)%Z
  end.

(** [|x| * 10] rounded to an integer, for a finite mantissa and exponent. *)
Definition scaled_tenths (m : positive) (e : Z) : Z :=
  match e with
  | Zneg p => round_half_even_div (Zpos m * 10) (Z.pow_pos 2 p)
  | _ => (Zpos m * 10 * 2 ^ e)%Z
  end.

Definition string_of_nonneg (z : Z) : string :=
  NilZero.string_of_uint (N.to_uint (Z.to_N z)).

Definition fixed1 (t : Z) : string :=
  (string_of_nonneg (t / 10) ++ "." ++ string_of_nonneg (t mod 10))%string.

Definition sign_prefix (negative : bool) : string :=
  if negative then "-"%string else "+"%string.

Definition format_plus_1f (x : float) : string :=
  match Prim2SF x with
  | S754_nan => "+nan"%string
  | S754_infinity s => (sign_prefix s ++ "inf")%string
  | S754_zero s => (sign_prefix s ++ "0.0")%string
  | S754_finite s m e => (sign_prefix s ++ fixed1 (scaled_tenths m e))%string
  end.

End PyFloat.

Import PyFloat.

(** ** [list.sort(key=..., reverse=True)]

    Python's sort is stable, and [reverse=True] keeps the original order of
    elements with equal keys.  On keys that are totally ordered (no NaN) the
    result of a stable sort is unique; it is computed here by insertion. *)

Module PySort.

Section Descending.
Context {A : Type}.
Variable key : A -> float.

Fixpoint insert_desc (x : A) (l : list A) : list A :=
  match l with
  | [] => [x]
  | y :: ys =>
      if (key x <? key y)%float then y :: insert_desc x ys else x :: y :: ys
  end.

Definition sort_desc (l : list A) : list A := fold_right insert_desc [] l.
End Descending.

End PySort.

Import PySort.

(** ** Python strings: truthiness, [split], [strip] *)

Module PyStr.

Open Scope string_scope.

(** [bool(s)] *)
Definition truthy_str (s : string) : bool := negb (String.eqb s "").

(** [bool(t)] for a value that is [None] or a string. *)
Definition truthy (t : option string) : bool :=
  match t with
  | Some s => truthy_str s
  | None => false
  end.

(** [x or default] for a value that is [None] or a string. *)
Definition or_else (t : option string) (default : string) : string :=
  match t with
  | Some s => if truthy_str s then s else default
  | None => default
  end.

(** [s.split(sep)] for a non-empty separator.  [skip] counts the characters
    of a separator occurrence that are still to be passed over, [cur] is the
    part read so far. *)
Fixpoint split_from (sep : string) (skip : nat) (cur : string) (s : string)
    : list string :=
  match s with
  | EmptyString => [cur]
  | String c s' =>
      match skip with
      | S n => split_from sep n cur s'
      | O =>
          if prefix sep s
          then cur :: split_from sep (String.length sep - 1) "" s'
          else split_from sep 0 (cur ++ String c "") s'
      end
  end.

Definition split (s sep : string) : list string := split_from sep 0 "" s.

(** ASCII characters for which [str.isspace] holds. *)
Definition is_space (c : ascii) : bool :=
  let n := nat_of_ascii c in
  (((9 <=? n) && (n <=? 13)) || ((28 <=? n) && (n <=? 32)))%nat.

Fixpoint lstrip (s : string) : string :=
  match s with
  | String c s' => if is_space c then lstrip s' else s
  | EmptyString => EmptyString
  end.

Fixpoint rstrip (s : string) : string :=
  match s with
  | String c s' =>
      let r := rstrip s' in
      if is_space c && String.eqb r "" then "" else String c r
  | EmptyString => EmptyString
  end.

Definition strip (s : string) : string := rstrip (lstrip s).

(** [s[:n]] *)
Fixpoint prefix_chars (n : nat) (s : string) : string :=
  match n, s with
  | S n', String c s' => String c (prefix_chars n' s')
  | _, _ => EmptyString
  end.

End PyStr.

Import PyStr.

(** ** Calendar dates and [datetime.strptime(s, "%d-%m-%y")] *)

Module PyDate.

Open Scope Z_scope.

Record date : Type := { year : Z; month : Z; day : Z }.

Definition is_leap (y : Z) : bool :=
  (y mod 4 =? 0) && (negb (y mod 100 =? 0) || (y mod 400 =? 0)).

Definition days_in_month (y m : Z) : Z :=
  if m =? 2 then (if is_leap y then 29 else 28)
  else if (m =? 4) || (m =? 6) || (m =? 9) || (m =? 11) then 30
  else 31.

Definition code (c : ascii) : Z := Z.of_nat (nat_of_ascii c).

(** A character in the range [lo-hi] of a regular expression. *)
Definition between (lo hi : ascii) (c : ascii) : bool :=
  (code lo <=? code c) && (code c <=? code hi).

Definition is_digit (c : ascii) : bool := between "0" "9" c.

Definition digit (c : ascii) : Z := code c - 48.

(** [%d], the group [3[0-1]|[1-2]\d|0[1-9]|[1-9]| [1-9]], followed by the
    literal [-] of the format. *)
Definition match_day (s : string) : option (Z * string) :=
  match s with
  | String a (String "-" rest) =>
      if between "1" "9" a then Some (digit a, rest) else None
  | String a (String b (String "-" rest)) =>
      if (Ascii.eqb a "3" && between "0" "1" b)
         || (between "1" "2" a && is_digit b)
         || (Ascii.eqb a "0" && between "1" "9" b)
      then Some (10 * digit a + digit b, rest)
      else if Ascii.eqb a " " && between "1" "9" b then Some (digit b, rest)
      else None
  | _ => None
  end.

(** [%m], the group [1[0-2]|0[1-9]|[1-9]], followed by the literal [-]. *)
Definition match_month (s : string) : option (Z * string) :=
  match s with
  | String a (String "-" rest) =>
      if between "1" "9" a then Some (digit a, rest) else None
  | String a (String b (String "-" rest)) =>
      if (Ascii.eqb a "1" && between "0" "2" b)
         || (Ascii.eqb a "0" && between "1" "9" b)
      then Some (10 * digit a + digit b, rest)
      else None
  | _ => None
  end.

(** [%y], the group [\d\d]. *)
Definition match_year (s : string) : option (Z * string) :=
  match s with
  | String a (String b rest) =>
      if is_digit a && is_digit b then Some (10 * digit a + digit b, rest)
      else None
  | _ => None
  end.

(** Two-digit years: 69-99 are 1969-1999, 00-68 are 2000-2068. *)
Definition century (y : Z) : Z := if y <=? 68 then y + 2000 else y + 1900.

Definition no_match (s : string) : exn :=
  ValueError ("time data '" ++ s ++ "' does not match format '%d-%m-%y'").

Definition strptime_dmy (s : string) : result date :=
  match match_day s with
  | None => Raise (no_match s)
  | Some (d, s1) =>
      match match_month s1 with
      | None => Raise (no_match s)
      | Some (m, s2) =>
          match match_year s2 with
          | None => Raise (no_match s)
          | Some (y, rest) =>
              if String.eqb rest ""
              then
                let y' := century y in
                if d <=? days_in_month y' m
                then Ok {| year := y'; month := m; day := d |}
                else Raise (ValueError "day is out of range for month")
              else Raise (ValueError ("unconverted data remains: " ++ rest))
          end
      end
  end.

End PyDate.

Import PyDate.

(** ** The Cost Explorer client

    A response of [get_dimension_values] or [get_cost_and_usage] is a page.
    The client holds, for each call, the pages the service will answer with,
    one per call and in order, and records every request it is sent.  A call
    for which no page is left fails with [ClientError].

    The amount of a group is the float that [float(...)] reads from the
    response; the keys of a group have the shape the [GroupBy] of the request
    asks for: a service, or a linked account and a service. *)

Module CostExplorer.

Record dimension_value : Type := {
  Value : option string;
  Attributes : option (dict string)
}.

Record dimension_values_response : Type := {
  DimensionValues : list dimension_value;
  DV_NextPageToken : option string
}.

Record group (K : Type) : Type := {
  Keys : K;
  Amount : float
}.

(** [ResultsByTime] is a list of time buckets, each with its [Groups]. *)
Record cost_and_usage_response (K : Type) : Type := {
  ResultsByTime : list (list (group K));
  CU_NextPageToken : option string
}.

Inductive time_period : Type :=
| LastDays (n : nat)
| Between (start_date end_date : date).

Inductive request : Type :=
| GetDimensionValues (period : time_period) (token : option string)
| GetCostAndUsage (period : time_period) (granularity : string)
    (group_by : list string) (account_filter : option string)
    (token : option string).

Record client : Type := {
  dimension_pages : list dimension_values_response;
  service_pages : list (cost_and_usage_response string);
  account_service_pages : list (cost_and_usage_response (string * string));
  requests : list request
}.

(** [if token: kwargs["NextPageToken"] = token] *)
Definition token_kwarg (token : option string) : option string :=
  if truthy token then token else None.

(** The cursor loop shared by the paginating fetchers:
<<
    token = None
    while True:
        ... if token: kwargs["NextPageToken"] = token
        resp = call(kwargs)
        body(resp)
        token = resp.get("NextPageToken")
        if not token:
            break
>>
    It returns the state after the last body, the pages that were not
    requested, and the token arguments of the requests in order. *)
Fixpoint paginate {P S : Type} (next_token : P -> option string)
    (body : S -> P -> S) (pages : list P) (token : option string) (state : S)
    : result S * list P * list (option string) :=
  match pages with
  | [] => (Raise ClientError, [], [token_kwarg token])
  | resp :: rest =>
      let state' := body state resp in
      if truthy (next_token resp)
      then
        let '(r, unread, sent) :=
          paginate next_token body rest (next_token resp) state' in
        (r, unread, token_kwarg token :: sent)
      else (Ok state', rest, [token_kwarg token])
  end.

(** The account entries of one page of dimension values: the loop
<<
    for v in resp.get("DimensionValues", []):
        account_id = v.get("Value")
        name = None
        attrs = v.get("Attributes")
        if attrs and "description" in attrs:
            name = attrs["description"]
        if account_id:
            accounts.append((account_id, name))
>> *)
Definition description (v : dimension_value) : option string :=
  match Attributes v with
  | Some attrs =>
      match attrs with
      | [] => None
      | _ => get attrs "description"
      end
  | None => None
  end.

Definition account_entry (v : dimension_value)
    : list (string * option string) :=
  match Value v with
  | Some account_id =>
      if truthy_str account_id then [(account_id, description v)] else []
  | None => []
  end.

Definition append_accounts (accounts : list (string * option string))
    (resp : dimension_values_response) : list (string * option string) :=
  accounts ++ flat_map account_entry (DimensionValues resp).

(** The de-duplication loop
<<
    seen, dedup = set(), []
    for aid, name in accounts:
        if aid not in seen:
            dedup.append((aid, name))
            seen.add(aid)
>> *)
Fixpoint dedup_seen (seen : list string)
    (accounts : list (string * option string))
    : list (string * option string) :=
  match accounts with
  | [] => []
  | (aid, name) :: rest =>
      if existsb (String.eqb aid) seen then dedup_seen seen rest
      else (aid, name) :: dedup_seen (aid :: seen) rest
  end.

Definition dedup (accounts : list (string * option string))
    : list (string * option string) :=
  dedup_seen [] accounts.

(** The account discovery shared, line for line, by [get_linked_accounts]
    of aws_cost_compare.py (90 days) and [get_linked_accounts_ce] of
    aws_cost.py (30 days). *)
Definition linked_accounts (days : nat) (ce : client)
    : result (list (string * option string)) * client :=
  let '(r, unread, sent) :=
    paginate DV_NextPageToken append_accounts (dimension_pages ce) None [] in
  (let* accounts := r in Ok (dedup accounts),
   {| dimension_pages := unread;
      service_pages := service_pages ce;
      account_service_pages := account_service_pages ce;
      requests :=
        requests ce ++ map (GetDimensionValues (LastDays days)) sent |}).

End CostExplorer.

Import CostExplorer.

(** ** aws_cost_compare.py *)

Module AwsCostCompare.

Open Scope float_scope.

Definition parse_date_range (date_range_str : string) : result (date * date) :=
  match split date_range_str " to " with
  | [part0; part1] =>
      let* start_date := strptime_dmy (strip part0) in
      let* end_date := strptime_dmy (strip part1) in
      Ok (start_date, end_date)
  | _ =>
      Raise (ValueError ("Invalid date range format: " ++ date_range_str
                         ++ ". Expected 'dd-mm-yy to dd-mm-yy'"))
  end.

Definition get_linked_accounts (ce : client)
    : result (list (string * option string)) * client :=
  linked_accounts 90 ce.

(** The accumulation loop of [get_service_costs]:
<<
    for period in response["ResultsByTime"]:
        for group in period["Groups"]:
            service = group["Keys"][0]
            amount = float(group["Metrics"]["UnblendedCost"]["Amount"])
            totals[service] += amount
>> *)
Definition add_group (totals : dict float) (g : group string) : dict float :=
  iadd totals (Keys g) (Amount g).

Definition service_totals_of (response : cost_and_usage_response string)
    : dict float :=
  fold_left (fun totals period => fold_left add_group period totals)
            (ResultsByTime response) [].

(** [get_service_costs] sends one request and reads one response. *)
Definition get_service_costs (start_date end_date : date)
    (account_id : option string) (ce : client)
    : result (dict float) * client :=
  let sent :=
    GetCostAndUsage (Between start_date end_date) "MONTHLY" ["SERVICE"%string]
                    (if truthy account_id then account_id else None) None in
  match service_pages ce with
  | [] =>
      (Raise ClientError,
       {| dimension_pages := dimension_pages ce;
          service_pages := [];
          account_service_pages := account_service_pages ce;
          requests := requests ce ++ [sent] |})
  | response :: rest =>
      (Ok (service_totals_of response),
       {| dimension_pages := dimension_pages ce;
          service_pages := rest;
          account_service_pages := account_service_pages ce;
          requests := requests ce ++ [sent] |})
  end.

Record comparison : Type := {
  service : string;
  period1 : float;
  period2 : float;
  diff : float;
  pct_change : float
}.

(** The branch of [compare_costs] that computes [pct_change]. *)
Definition percent_change (cost1 cost2 : float) : result float :=
  if 0 <? cost1 then
    let* ratio := truediv (cost2 - cost1) cost1 in
    Ok (ratio * 100)
  else if 0 <? cost2 then Ok infinity
  else Ok 0.

(** The body of the loop of [compare_costs] for one service. *)
Definition compare_service (period1_costs period2_costs : dict float)
    (svc : string) : result comparison :=
  let cost1 := get_default period1_costs svc 0 in
  let cost2 := get_default period2_costs svc 0 in
  let diff := cost2 - cost1 in
  let* pct_change := percent_change cost1 cost2 in
  Ok {| service := svc; period1 := cost1; period2 := cost2;
        diff := diff; pct_change := pct_change |}.

Definition string_nodup : list string -> list string := nodup string_dec.

Section Comparator.

(** The iteration order of a Python [set] of strings is not specified:
    [set_iter] is the order in which the interpreter enumerates the
    elements of a set given by a duplicate-free list. *)
Variable set_iter : list string -> list string.

(** [set(period1_costs.keys()) | set(period2_costs.keys())] *)
Definition all_services (period1_costs period2_costs : dict float)
    : list string :=
  set_iter (string_nodup (keys period1_costs ++ keys period2_costs)).

Definition compare_costs (period1_costs period2_costs : dict float)
    : result (list comparison) :=
  let* comparisons :=
    mapM (compare_service period1_costs period2_costs)
         (all_services period1_costs period2_costs) in
  Ok (sort_desc (fun x => abs (diff x)) comparisons).

End Comparator.

Definition format_pct (pct : float) : string :=
  if pct =? infinity then "NEW"%string
  else if (pct =? neg_infinity) || ((pct <? 0) && (1000 <? abs pct))
  then "REMOVED"%string
  else (format_plus_1f pct ++ "%")%string.

(** [format_pct_csv] has the same body as [format_pct]. *)
Definition format_pct_csv (pct : float) : string :=
  if pct =? infinity then "NEW"%string
  else if (pct =? neg_infinity) || ((pct <? 0) && (1000 <? abs pct))
  then "REMOVED"%string
  else (format_plus_1f pct ++ "%")%string.

(** One printed line of the comparison table.  The amounts stand for their
    [.2f] renderings; the change column is the rendered text. *)
Record table_line : Type := {
  line_service : string;
  line_period1 : float;
  line_period2 : float;
  line_diff : float;
  line_change : string
}.

Record table : Type := {
  table_title : string;
  table_rows : list table_line;
  table_total : table_line
}.

(** The test of the [continue] in the loop of [print_comparison_table]. *)
Definition negligible (item : comparison) : bool :=
  (period1 item <? cent) && (period2 item <? cent).

Definition table_line_of (item : comparison) : table_line :=
  {| line_service := prefix_chars 39 (service item);
     line_period1 := period1 item;
     line_period2 := period2 item;
     line_diff := diff item;
     line_change := format_pct (pct_change item) |}.

(** The percentage of a TOTAL line:
    [((total2 - total1) / total1 * 100) if total1 > 0 else 0]. *)
Definition total_percent (total1 total2 : float) : result float :=
  if 0 <? total1 then
    let* ratio := truediv (total2 - total1) total1 in
    Ok (ratio * 100)
  else Ok 0.

(** [print_comparison_table]: the table that is written to the terminal,
    without its header lines. *)
Definition print_comparison_table (comparisons : list comparison)
    (title : string) : result table :=
  let total1 := fsum (map period1 comparisons) in
  let total2 := fsum (map period2 comparisons) in
  let total_diff := total2 - total1 in
  let* total_pct := total_percent total1 total2 in
  Ok {| table_title := title;
        table_rows :=
          map table_line_of
              (filter (fun item => negb (negligible item)) comparisons);
        table_total :=
          {| line_service := "TOTAL";
             line_period1 := total1;
             line_period2 := total2;
             line_diff := total_diff;
             line_change := format_pct total_pct |} |}.

(** *** The program

    [main] runs against a [world]: the Cost Explorer client, the lines
    written to the terminal, the files written, and the machine the
    program runs on.  Terminal lines are kept structured; [round(x, 2)] is
    kept as [Round2 x]. *)

Inductive rounded : Type := Round2 (x : float).

Record csv_row : Type := {
  account_id : string;
  account_name : string;
  csv_service : string;
  period1_cost : rounded;
  period2_cost : rounded;
  difference : rounded;
  csv_pct_change : string
}.

Inductive printed : Type :=
| ErrorLine (e : exn)
| PeriodLine (n : Z) (start_date end_date : date)
| DiscoveringLine
| FoundLine (n : nat)
| FetchingOverallLine
| FetchingAccountLine (display_name aid : string)
| FetchErrorLine (aid : string) (e : exn)
| NoCostsLine (display_name : string)
| TableLines (t : table)
| WritingLine (path : string)
| SavedLine (path : string)
| DoneLine.

(** What the machine answers: [new_session profile] is the outcome of
    [boto3.Session(profile_name=profile)], and of [boto3.Session()] for
    [None]; [open_for_writing path] is the outcome of [open(path, 'w')]. *)
Record system : Type := {
  new_session : option string -> result unit;
  open_for_writing : string -> result unit
}.

Record world : Type := {
  ce : client;
  stdout : list printed;
  files : list (string * list csv_row);
  host : system
}.

Record arguments : Type := {
  arg_period1 : string;
  arg_period2 : string;
  arg_profile : option string;
  arg_output : string
}.

Definition M (A : Type) : Type := world -> result A * world.

Definition ret {A} (a : A) : M A := fun w => (Ok a, w).

Definition lift {A} (r : result A) : M A := fun w => (r, w).

Definition seq {A B} (m : M A) (k : A -> M B) : M B :=
  fun w =>
    match m w with
    | (Ok a, w') => k a w'
    | (Raise e, w') => (Raise e, w')
    end.

(** [try: m  except Exception as e: handler(e)] *)
Definition try_except {A} (m : M A) (handler : exn -> M A) : M A :=
  fun w =>
    match m w with
    | (Ok a, w') => (Ok a, w')
    | (Raise e, w') => handler e w'
    end.

Definition print (p : printed) : M unit :=
  fun w =>
    (Ok tt,
     {| ce := ce w; stdout := stdout w ++ [p]; files := files w;
        host := host w |}).

Definition call {A} (f : client -> result A * client) : M A :=
  fun w =>
    let '(r, c) := f (ce w) in
    (r, {| ce := c; stdout := stdout w; files := files w; host := host w |}).

(** [if args.profile: session = boto3.Session(profile_name=args.profile)
    else: session = boto3.Session()] *)
Definition create_session (profile : option string) : M unit :=
  fun w =>
    (new_session (host w) (if truthy profile then profile else None), w).

(** [with open(path, 'w', newline='') as csvfile: ...]: when the file
    cannot be opened the exception of [open] is raised and nothing is
    written. *)
Definition write_csv (path : string) (rows : list csv_row) : M unit :=
  fun w =>
    match open_for_writing (host w) path with
    | Ok _ =>
        (Ok tt,
         {| ce := ce w; stdout := stdout w;
            files := files w ++ [(path, rows)]; host := host w |})
    | Raise e => (Raise e, w)
    end.

Notation "'do' x <- m ;; k" := (seq m (fun x => k))
  (at level 10, x pattern, m at level 100, k at level 200).

(** [item["period1"] >= 0.01 or item["period2"] >= 0.01] *)
Definition billable (item : comparison) : bool :=
  (cent <=? period1 item) || (cent <=? period2 item).

Definition csv_row_of (aid aname : string) (item : comparison) : csv_row :=
  {| account_id := aid;
     account_name := aname;
     csv_service := service item;
     period1_cost := Round2 (period1 item);
     period2_cost := Round2 (period2 item);
     difference := Round2 (diff item);
     csv_pct_change := format_pct_csv (pct_change item) |}.

Definition csv_total_row (aid aname : string) (comparisons : list comparison)
    : result csv_row :=
  let total1 := fsum (map period1 comparisons) in
  let total2 := fsum (map period2 comparisons) in
  let total_diff := total2 - total1 in
  let* total_pct := total_percent total1 total2 in
  Ok {| account_id := aid;
        account_name := aname;
        csv_service := "TOTAL";
        period1_cost := Round2 total1;
        period2_cost := Round2 total2;
        difference := Round2 total_diff;
        csv_pct_change := format_pct_csv total_pct |}.

Definition is_empty {V} (d : dict V) : bool :=
  match d with
  | [] => true
  | _ => false
  end.

Section Program.

Variable set_iter : list string -> list string.

(** The per-account loop of [main]. *)
Fixpoint account_loop (range1 range2 : date * date)
    (accounts : list (string * option string)) (csv_rows : list csv_row)
    : M (list csv_row) :=
  match accounts with
  | [] => ret csv_rows
  | (aid, aname) :: rest =>
      let display_name := or_else aname aid in
      do _ <- print (FetchingAccountLine display_name aid) ;;
      do fetched <-
        try_except
          (do acct_period1 <-
             call (get_service_costs (fst range1) (snd range1) (Some aid)) ;;
           do acct_period2 <-
             call (get_service_costs (fst range2) (snd range2) (Some aid)) ;;
           ret (Some (acct_period1, acct_period2)))
          (fun e => do _ <- print (FetchErrorLine aid e) ;; ret None) ;;
      match fetched with
      | None => account_loop range1 range2 rest csv_rows
      | Some (acct_period1, acct_period2) =>
          if is_empty acct_period1 && is_empty acct_period2
          then
            do _ <- print (NoCostsLine display_name) ;;
            account_loop range1 range2 rest csv_rows
          else
            do acct_comparisons <-
              lift (compare_costs set_iter acct_period1 acct_period2) ;;
            let total1 := fsum (map period1 acct_comparisons) in
            let total2 := fsum (map period2 acct_comparisons) in
            if (cent <=? total1) || (cent <=? total2)
            then
              do t <- lift (print_comparison_table acct_comparisons
                           (display_name ++ " (" ++ aid ++ ")")) ;;
              do _ <- print (TableLines t) ;;
              do total_row <-
                lift (csv_total_row aid (or_else aname "")
                        acct_comparisons) ;;
              account_loop range1 range2 rest
                (csv_rows
                   ++ map (csv_row_of aid (or_else aname ""))
                          (filter billable acct_comparisons)
                   ++ [total_row])
            else account_loop range1 range2 rest csv_rows
      end
  end.

(** What [main] does once both date ranges are parsed. *)
Definition report (args : arguments) (range1 range2 : date * date) : M Z :=
  do _ <- create_session (arg_profile args) ;;
  do _ <- print (PeriodLine 1 (fst range1) (snd range1)) ;;
  do _ <- print (PeriodLine 2 (fst range2) (snd range2)) ;;
  do _ <- print DiscoveringLine ;;
  do accounts <- call get_linked_accounts ;;
  do _ <- print (FoundLine (List.length accounts)) ;;
  do _ <- print FetchingOverallLine ;;
  do overall_period1 <-
    call (get_service_costs (fst range1) (snd range1) None) ;;
  do overall_period2 <-
    call (get_service_costs (fst range2) (snd range2) None) ;;
  do overall_comparisons <-
    lift (compare_costs set_iter overall_period1 overall_period2) ;;
  do t <- lift (print_comparison_table overall_comparisons
               "OVERALL - ALL ACCOUNTS") ;;
  do _ <- print (TableLines t) ;;
  do overall_total <-
    lift (csv_total_row "ALL" "ALL ACCOUNTS" overall_comparisons) ;;
  do csv_rows <-
    account_loop range1 range2 accounts
      (map (csv_row_of "ALL" "ALL ACCOUNTS")
           (filter billable overall_comparisons)
       ++ [overall_total]) ;;
  do _ <- print (WritingLine (arg_output args)) ;;
  do _ <- write_csv (arg_output args) csv_rows ;;
  do _ <- print (SavedLine (arg_output args)) ;;
  do _ <- print DoneLine ;;
  ret 0%Z.

(** [main]: the date ranges are parsed first, inside
    [try: ... except ValueError as e: print(f"[ERROR] {e}"); return 1]. *)
Definition main (args : arguments) : M Z :=
  match
    (let* range1 := parse_date_range (arg_period1 args) in
     let* range2 := parse_date_range (arg_period2 args) in
     Ok (range1, range2))
  with
  | Ok (range1, range2) => report args range1 range2
  | Raise (ValueError msg) =>
      do _ <- print (ErrorLine (ValueError msg)) ;; ret 1%Z
  | Raise e => lift (Raise e)
  end.

End Program.

End AwsCostCompare.

(** ** account_service_costs.py *)

Module AccountServiceCosts.

Open Scope float_scope.

(** The aggregation state of [get_account_service_costs]. *)
Record aggregation : Type := {
  costs : dict (dict float);
  account_totals : dict float;
  service_totals : dict float
}.

Definition empty_aggregation : aggregation :=
  {| costs := []; account_totals := []; service_totals := [] |}.

(** [costs[account_id][service] += amount] on a [defaultdict] of
    [defaultdict(float)]. *)
Definition iadd2 (d : dict (dict float)) (k1 k2 : string) (x : float)
    : dict (dict float) :=
  setitem d k1 (iadd (get_default d k1 []) k2 x).

(** The body of the inner loop:
<<
    account_id = group["Keys"][0]
    service = group["Keys"][1]
    amount = float(group["Metrics"]["UnblendedCost"]["Amount"])
    if amount > 0:
        costs[account_id][service] += amount
        account_totals[account_id] += amount
        service_totals[service] += amount
>> *)
Definition add_group (agg : aggregation) (g : group (string * string))
    : aggregation :=
  let account_id := fst (Keys g) in
  let service := snd (Keys g) in
  let amount := Amount g in
  if 0 <? amount then
    {| costs := iadd2 (costs agg) account_id service amount;
       account_totals := iadd (account_totals agg) account_id amount;
       service_totals := iadd (service_totals agg) service amount |}
  else agg.

Definition add_groups (agg : aggregation)
    (groups : list (group (string * string))) : aggregation :=
  fold_left add_group groups agg.

Definition add_page (agg : aggregation)
    (resp : cost_and_usage_response (string * string)) : aggregation :=
  fold_left add_groups (ResultsByTime resp) agg.

(** The body of the first loop:
<<
    account_id = v.get("Value")
    attrs = v.get("Attributes")
    if account_id:
        account_names[account_id] = attrs.get("description") if attrs else None
>> *)
Definition add_name (account_names : dict (option string))
    (v : dimension_value) : dict (option string) :=
  match Value v with
  | Some account_id =>
      if truthy_str account_id
      then setitem account_names account_id (description v)
      else account_names
  | None => account_names
  end.

Definition add_names (account_names : dict (option string))
    (resp : dimension_values_response) : dict (option string) :=
  fold_left add_name (DimensionValues resp) account_names.

Definition cost_request (token : option string) : request :=
  GetCostAndUsage (LastDays 30) "MONTHLY" ["LINKED_ACCOUNT"; "SERVICE"]%string
                  None token.

Definition get_account_service_costs (ce : client)
    : result (aggregation * dict (option string)) * client :=
  let '(names, unread_names, sent_names) :=
    paginate DV_NextPageToken add_names (dimension_pages ce) None [] in
  let name_requests := map (GetDimensionValues (LastDays 30)) sent_names in
  match names with
  | Raise e =>
      (Raise e,
       {| dimension_pages := unread_names;
          service_pages := service_pages ce;
          account_service_pages := account_service_pages ce;
          requests := requests ce ++ name_requests |})
  | Ok account_names =>
      let '(agg, unread_costs, sent_costs) :=
        paginate (@CU_NextPageToken _) add_page (account_service_pages ce)
                 None empty_aggregation in
      (let* a := agg in Ok (a, account_names),
       {| dimension_pages := unread_names;
          service_pages := service_pages ce;
          account_service_pages := unread_costs;
          requests :=
            requests ce ++ name_requests ++ map cost_request sent_costs |})
  end.

(** [truncate(s, max_len)] *)
Definition truncate (s : string) (max_len : nat) : string :=
  if (String.length s <=? max_len)%nat then s
  else (prefix_chars (max_len - 2) s ++ "..")%string.

(** A value that is the integer default [0] of [d.get(k, 0)] or a float. *)
Inductive number : Type :=
| Int (z : Z)
| Float (f : float).

Definition get_or_zero (d : dict float) (k : string) : number :=
  match get d k with
  | Some x => Float x
  | None => Int 0
  end.

(** [n >= 1] *)
Definition at_least_one (n : number) : bool :=
  match n with
  | Int z => (1 <=? z)%Z
  | Float f => 1 <=? f
  end.

(** [round(n, 2)], kept symbolic. *)
Inductive rounded : Type := Round2 (n : number).

Record arguments : Type := {
  top_services : Z;
  min_cost : float;
  output : string
}.

(** A printed table row: the amounts stand for their [,.0f] renderings and
    [None] is the dash printed for a cost below 1. *)
Record printed_row : Type := {
  row_name : string;
  row_id : string;
  row_total : float;
  row_cells : list (option number)
}.

Record printed_table : Type := {
  header_services : list string;
  body : list printed_row;
  footer_total : float;
  footer_cells : list number
}.

Inductive csv_cell : Type :=
| Text (s : string)
| Number (r : rounded).

Record report : Type := {
  printed : printed_table;
  csv_header : list string;
  csv_rows : list (list csv_cell);
  csv_total : list csv_cell
}.

(** [accounts]: the accounts of [account_totals] whose total reaches the
    minimum, sorted by total, largest first. *)
Definition retained_accounts (args : arguments) (agg : aggregation)
    : list (string * float) :=
  sort_desc snd
    (filter (fun at_ => min_cost args <=? snd at_) (account_totals agg)).

(** [service_names]: the services by total spend, all or the top N. *)
Definition service_names (args : arguments) (agg : aggregation)
    : list string :=
  let sorted_services := sort_desc snd (service_totals agg) in
  map fst
    (if (0 <? top_services args)%Z
     then firstn (Z.to_nat (top_services args)) sorted_services
     else sorted_services).

(** [grand_total = 0], then [grand_total += total] for each account. *)
Definition grand_total_of (accounts : list (string * float)) : float :=
  fold_left (fun grand_total at_ => grand_total + snd at_) accounts 0.

Definition breakdown (agg : aggregation) (account_id svc : string) : number :=
  get_or_zero (get_default (costs agg) account_id []) svc.

Definition printed_row_of (agg : aggregation)
    (account_names : dict (option string)) (services : list string)
    (at_ : string * float) : printed_row :=
  let account_id := fst at_ in
  {| row_name :=
       truncate (or_else (get_default account_names account_id None)
                         "(no name)") 20;
     row_id := account_id;
     row_total := snd at_;
     row_cells :=
       map (fun svc =>
              let svc_cost := breakdown agg account_id svc in
              if at_least_one svc_cost then Some svc_cost else None)
           services |}.

Definition csv_row_of (agg : aggregation)
    (account_names : dict (option string)) (services : list string)
    (at_ : string * float) : list csv_cell :=
  let account_id := fst at_ in
  [Text (or_else (get_default account_names account_id None) "");
   Text account_id;
   Number (Round2 (Float (snd at_)))]
  ++ map (fun svc => Number (Round2 (breakdown agg account_id svc))) services.

(** The part of [main] after the fetch.  [None] is the early return
    taken when no account reaches the minimum: nothing but a notice is
    printed and no file is written. *)
Definition build_report (args : arguments) (agg : aggregation)
    (account_names : dict (option string)) : option report :=
  let accounts := retained_accounts args agg in
  let services := service_names args agg in
  match accounts with
  | [] => None
  | _ =>
      let grand_total := grand_total_of accounts in
      Some
        {| printed :=
             {| header_services := services;
                body := map (printed_row_of agg account_names services)
                            accounts;
                footer_total := grand_total;
                footer_cells :=
                  map (get_or_zero (service_totals agg)) services |};
           csv_header :=
             ["Account"; "Account ID"; "Total"]%string ++ services;
           csv_rows := map (csv_row_of agg account_names services) accounts;
           csv_total :=
             [Text "TOTAL"; Text ""; Number (Round2 (Float grand_total))]
             ++ map (fun svc =>
                       Number (Round2 (get_or_zero (service_totals agg) svc)))
                    services |}
  end.

Definition main (args : arguments) (ce : client)
    : result (option report) * client :=
  let '(fetched, ce') := get_account_service_costs ce in
  (let* f := fetched in Ok (build_report args (fst f) (snd f)), ce').

End AccountServiceCosts.

(** ** aws_cost.py *)

Module AwsCost.

Definition get_linked_accounts_ce (ce : client)
    : result (list (string * option string)) * client :=
  linked_accounts 30 ce.

(** [int(x)] for a float: truncation toward zero; NaN and the infinities
    raise. *)
Definition int_of_float (x : float) : result Z :=
  match Prim2SF x with
  | S754_nan => Raise (ValueError "cannot convert float NaN to integer")
  | S754_infinity _ => Raise OverflowError
  | S754_zero _ => Ok 0%Z
  | S754_finite s m e =>
      Ok (cond_Zopp s
            match e with
            | Zneg p => (Zpos m / Z.pow_pos 2 p)%Z
            | _ => (Zpos m * 2 ^ e)%Z
            end)
  end.

(** [defaultdict(int)]: [totals[service] += amount]. *)
Definition iadd_int (d : dict Z) (k : string) (x : Z) : dict Z :=
  setitem d k (get_default d k 0 + x)%Z.

Definition add_group (totals : result (dict Z)) (g : group string)
    : result (dict Z) :=
  let* t := totals in
  let* amount := int_of_float (Amount g) in
  Ok (iadd_int t (Keys g) amount).

Definition service_totals_of (response : cost_and_usage_response string)
    : result (dict Z) :=
  fold_left (fun totals day => fold_left add_group day totals)
            (ResultsByTime response) (Ok []).

(** [get_aws_service_totals_last_30_days] sends one request and reads one
    response. *)
Definition get_aws_service_totals_last_30_days (ce : client)
    : result (dict Z) * client :=
  let sent := GetCostAndUsage (LastDays 30) "DAILY" ["SERVICE"%string]
                              None None in
  match service_pages ce with
  | [] =>
      (Raise ClientError,
       {| dimension_pages := dimension_pages ce;
          service_pages := [];
          account_service_pages := account_service_pages ce;
          requests := requests ce ++ [sent] |})
  | response :: rest =>
      (service_totals_of response,
       {| dimension_pages := dimension_pages ce;
          service_pages := rest;
          account_service_pages := account_service_pages ce;
          requests := requests ce ++ [sent] |})
  end.

End AwsCost.

(** * aws_cost.py: the report over the member accounts *)

Module AwsCostMain.

Import AwsCost.
Open Scope string_scope.
Open Scope list_scope.
Open Scope Z_scope.

(** ** The services the program talks to *)

(** The temporary credentials of [sts.assume_role], from which
    [boto3.Session(...)] makes the session of a member account. *)
Record credentials : Type := {
  AccessKeyId : string;
  SecretAccessKey : string;
  SessionToken : string
}.

(** An entry of [describe_regions(AllRegions=True)["Regions"]]. *)
Record region : Type := {
  RegionName : string;
  OptInStatus : option string
}.

(** What the services answer:
    - [management_ce]: the Cost Explorer of the default session;
    - [caller_identity prof]: the account of
      [boto3.Session(profile_name=prof).client("sts").get_caller_identity()];
    - [sts_assume_role role_arn]: the credentials of
      [sts.assume_role(RoleArn=role_arn, ...)];
    - [describe_regions sess]: the regions EC2 lists to a session;
    - [cost_explorer sess region]: the Cost Explorer a session opens in a
      region. *)
Record environment : Type := {
  management_ce : client;
  caller_identity : string -> result string;
  sts_assume_role : string -> result credentials;
  describe_regions : credentials -> result (list region);
  cost_explorer : credentials -> string -> client
}.

(** ** Runs: the terminal lines and the calls made for member accounts *)

Inductive line : Type :=
| StartingDiscoveryLine
| FoundAccountsLine (n : nat)
| DiscoveryFailedLine (e : exn)
| ProcessingLine (account_id : string) (account_name : option string)
| FoundCostsLine (account_name : option string) (region_name : string)
| CostLine (key : string) (value : Z).

Inductive event : Type :=
| Stdout (l : line)
| AssumeRole (role_arn : string)
| DescribeRegions (sess : credentials)
| GetCostAndUsageIn (sess : credentials) (region_name : string).

(** The events of a run, in order, and its value or its exception. *)
Definition run (A : Type) : Type := (list event * result A)%type.

Definition ret {A : Type} (a : A) : run A := ([], Ok a).

Definition raise {A : Type} (e : exn) : run A := ([], Raise e).

Definition emit (ev : event) : run unit := ([ev], Ok tt).

Definition print (l : line) : run unit := emit (Stdout l).

Definition and_then {A B : Type} (m : run A) (k : A -> run B) : run B :=
  match m with
  | (t, Ok a) => let (t', r) := k a in (t ++ t', r)
  | (t, Raise e) => (t, Raise e)
  end.

Notation "'perform' x <- m ;; k" := (and_then m (fun x => k))
  (at level 10, x pattern, m at level 100, k at level 200).

(** [for x in l: body(x)] *)
Fixpoint for_each {A : Type} (l : list A) (body : A -> run unit)
    : run unit :=
  match l with
  | [] => ret tt
  | x :: xs => perform _ <- body x ;; for_each xs body
  end.

(** ** [assume_role] *)

Definition role_arn (account_id rn : string) : string :=
  ("arn:aws:iam::" ++ account_id ++ ":role/" ++ rn)%string.

(** The role names are tried in order; a [ClientError] moves on to the next
    one, any other exception is not caught.  (The session name, which
    carries the time of the call, is left out.) *)
Fixpoint assume_role (sts : string -> result credentials)
    (account_id : string) (role_names : list string)
    : run (option credentials) :=
  match role_names with
  | [] => ret None
  | rn :: rest =>
      perform _ <- emit (AssumeRole (role_arn account_id rn)) ;;
      match sts (role_arn account_id rn) with
      | Ok creds => ret (Some creds)
      | Raise ClientError => assume_role sts account_id rest
      | Raise e => raise e
      end
  end.

(** ** [list_enabled_regions] *)

(** [sorted(l)] on strings, by insertion. *)
Fixpoint insert_sorted (x : string) (l : list string) : list string :=
  match l with
  | [] => [x]
  | y :: ys =>
      if (y <? x)%string then y :: insert_sorted x ys else x :: y :: ys
  end.

Definition sorted (l : list string) : list string :=
  fold_right insert_sorted [] l.

(** [r.get("OptInStatus") in (None, "opt-in-not-required", "opted-in")] *)
Definition enabled (r : region) : bool :=
  match OptInStatus r with
  | None => true
  | Some status =>
      String.eqb status "opt-in-not-required"
      || String.eqb status "opted-in"
  end.

Definition list_enabled_regions (env : environment) (sess : credentials)
    : result (list string) :=
  let* regions := describe_regions env sess in
  Ok (sorted (map RegionName (filter enabled regions))).

(** ** [main] *)

(** The arguments that [main] reads; [--output] and [--include-empty] are
    parsed and never used. *)
Record arguments : Type := {
  role_names : string;
  profiles : string;
  account_name : option string;
  account_id : option string
}.

(** [[r.strip() for r in s.split(",") if r.strip()]] *)
Definition comma_separated (s : string) : list string :=
  map strip (filter (fun r => truthy_str (strip r)) (PyStr.split s ",")).

(** The account discovery and its [except Exception]. *)
Definition discover (env : environment)
    : run (list (string * option string)) :=
  perform _ <- print StartingDiscoveryLine ;;
  match fst (get_linked_accounts_ce (management_ce env)) with
  | Ok accounts =>
      perform _ <- print (FoundAccountsLine (List.length accounts)) ;;
      ret accounts
  | Raise e =>
      perform _ <- print (DiscoveryFailedLine e) ;;
      ret []
  end.

(** One turn of the loop over the local profiles. *)
Definition add_profile (env : environment)
    (accounts : list (string * option string)) (prof : string)
    : list (string * option string) :=
  match caller_identity env prof with
  | Ok aid => accounts ++ [(aid, Some ("profile:" ++ prof)%string)]
  | Raise _ => accounts
  end.

(** [s.find(key) >= 0] *)
Definition found_in (key s : string) : bool :=
  match index 0 key s with
  | Some _ => true
  | None => false
  end.

(** [sorted(summary.items(), key=lambda x: x[1], reverse=True)], by
    insertion; equal values keep their order. *)
Fixpoint insert_by_value (x : string * Z) (l : list (string * Z))
    : list (string * Z) :=
  match l with
  | [] => [x]
  | y :: ys =>
      if snd x <? snd y then y :: insert_by_value x ys else x :: y :: ys
  end.

Definition sorted_by_value (l : list (string * Z)) : list (string * Z) :=
  fold_right insert_by_value [] l.

(** The body of [for region in regions], which ends in [break]. *)
Definition report_region (env : environment) (sess : credentials)
    (account_name : option string) (region_name : string) : run unit :=
  perform _ <- emit (GetCostAndUsageIn sess region_name) ;;
  match fst (get_aws_service_totals_last_30_days
               (cost_explorer env sess region_name)) with
  | Raise e => raise e
  | Ok summary =>
      let sorted_summary := sorted_by_value summary in
      let costs := existsb (fun kv => 0 <? snd kv) sorted_summary in
      if costs
      then
        perform _ <- print (FoundCostsLine account_name region_name) ;;
        for_each sorted_summary
                 (fun kv => print (CostLine (fst kv) (snd kv)))
      else ret tt
  end.

(** The body of [for account_id, account_name in dedup]. *)
Definition process_account (env : environment) (role_names : list string)
    (account : string * option string) : run unit :=
  let (account_id, account_name) := account in
  perform _ <- print (ProcessingLine account_id account_name) ;;
  perform assumed <-
    assume_role (sts_assume_role env) account_id role_names ;;
  match assumed with
  | None => ret tt
  | Some sess =>
      perform _ <- emit (DescribeRegions sess) ;;
      match list_enabled_regions env sess with
      | Raise ClientError => ret tt
      | Raise e => raise e
      | Ok [] => ret tt
      | Ok (region_name :: _) =>
          report_region env sess account_name region_name
      end
  end.

Section Main.

(** [str.lower], of which nothing is assumed. *)
Variable lower : string -> string.

(** [if args.account_id: ...] *)
Definition filter_account_id (args : arguments)
    (dedup : list (string * option string))
    : list (string * option string) :=
  match account_id args with
  | Some wanted =>
      if truthy_str wanted
      then filter (fun an => String.eqb (fst an) wanted) dedup
      else dedup
  | None => dedup
  end.

(** [if args.account_name: ...] *)
Definition filter_account_name (args : arguments)
    (dedup : list (string * option string))
    : list (string * option string) :=
  match account_name args with
  | Some wanted =>
      if truthy_str wanted
      then
        let key := lower wanted in
        filter (fun an => found_in key (lower (or_else (snd an) "")))
               dedup
      else dedup
  | None => dedup
  end.

(** The accounts that the loop of [main] goes through. *)
Definition selected_accounts (args : arguments) (env : environment)
    (accounts : list (string * option string))
    : list (string * option string) :=
  let accounts :=
    fold_left (add_profile env) (comma_separated (profiles args))
              accounts in
  filter_account_name args (filter_account_id args (dedup accounts)).

Definition main (args : arguments) (env : environment) : run unit :=
  let role_names := comma_separated (role_names args) in
  perform accounts <- discover env ;;
  for_each (selected_accounts args env accounts)
           (process_account env role_names).

End Main.

End AwsCostMain.

(** * Notions used in the statements *)

Unset Implicit Arguments.

Module Notions.

Import AwsCostCompare.
Open Scope string_scope.
Open Scope list_scope.
Open Scope float_scope.

(** *** Classes of IEEE values *)

Definition sf_is_nan (x : spec_float) : bool :=
  match x with S754_nan => true | _ => false end.

Definition sf_is_zero (x : spec_float) : bool :=
  match x with S754_zero _ => true | _ => false end.

Definition sf_finite (x : spec_float) : bool :=
  match x with S754_zero _ | S754_finite _ _ _ => true | _ => false end.

(** *** Descending order

    [a] may stand before [b] in a list sorted by descending key. *)
Definition desc {A : Type} (key : A -> float) (a b : A) : Prop :=
  (key b <=? key a) = true.

(** *** The comparator *)

(** The value every run of [percent_change] returns. *)
Definition pct_of (cost1 cost2 : float) : float :=
  if 0 <? cost1 then (cost2 - cost1) / cost1 * 100
  else if 0 <? cost2 then infinity
  else 0.

(** The row every run of [compare_service] returns. *)
Definition row_of (period1_costs period2_costs : dict float) (svc : string)
    : comparison :=
  let cost1 := get_default period1_costs svc 0 in
  let cost2 := get_default period2_costs svc 0 in
  {| service := svc; period1 := cost1; period2 := cost2;
     diff := cost2 - cost1; pct_change := pct_of cost1 cost2 |}.

Definition abs_diff (x : comparison) : float := abs (diff x).

(** Cost mappings whose amounts are numbers: no NaN, no infinity. *)
Definition finite_costs (d : dict float) : Prop :=
  Forall (fun kv => is_finite (snd kv) = true) d.

(** The rows of one service when the two periods are exchanged: the
    amounts trade places, the magnitude of the difference is kept and its
    sign is negated (a zero difference stays zero). *)
Definition swapped (r r' : comparison) : Prop :=
  service r' = service r /\
  period1 r' = period2 r /\ period2 r' = period1 r /\
  abs (diff r') = abs (diff r) /\
  (is_zero (diff r) = false -> diff r' = - diff r) /\
  (is_zero (diff r) = true -> is_zero (diff r') = true).

(** *** Pagination and the catalog *)

(** A script of pages in which every page but the last carries a cursor
    and the last carries none. *)
Fixpoint cursor_chain {P : Type} (next_token : P -> option string)
    (pages : list P) : bool :=
  match pages with
  | [] => false
  | p :: rest =>
      match rest with
      | [] => negb (truthy (next_token p))
      | _ => truthy (next_token p) && cursor_chain next_token rest
      end
  end.

(** The catalog entries of a script, in the order they are read. *)
Definition catalog_entries (pages : list dimension_values_response)
    : list (string * option string) :=
  flat_map account_entry (flat_map DimensionValues pages).

(** [names[aid] = label] for one catalog entry. *)
Definition set_entry (names : dict (option string))
    (entry : string * option string) : dict (option string) :=
  setitem names (fst entry) (snd entry).

(** The catalog of the examples: the identifier 111 on two pages, under
    two names. *)
Definition renamed_catalog : list dimension_values_response :=
  [ {| DimensionValues :=
         [ {| Value := Some "111";
              Attributes := Some [("description", "Prod")] |} ];
       DV_NextPageToken := Some "page-2" |};
    {| DimensionValues :=
         [ {| Value := Some "111";
              Attributes := Some [("description", "Prod-renamed")] |} ];
       DV_NextPageToken := None |} ].

Definition no_costs : list (cost_and_usage_response (string * string)) :=
  [ {| ResultsByTime := []; CU_NextPageToken := None |} ].

Definition renamed_client : client :=
  {| dimension_pages := renamed_catalog; service_pages := [];
     account_service_pages := no_costs; requests := [] |}.

(** *** The aggregator *)

(** What [d[k] += x] stores, from what was stored before. *)
Definition accumulate (stored : option float) (x : float) : option float :=
  Some (match stored with Some v => v | None => 0 end + x).

(** The sum, from left to right, of the contributions to one entry; no
    contribution, no entry. *)
Definition sum_or_absent (xs : list float) : option float :=
  match xs with
  | [] => None
  | _ => Some (fold_left add xs 0)
  end.

Definition lookup2 (d : dict (dict float)) (k1 k2 : string) : option float :=
  get (get_default d k1 []) k2.

(** The strictly positive amounts of a sequence of groups, for one account
    and service, for one account, for one service. *)
Definition pair_contributions (a s : string)
    (groups : list (group (string * string))) : list float :=
  map (@Amount _)
      (filter (fun g => String.eqb (fst (Keys g)) a
                        && String.eqb (snd (Keys g)) s
                        && (0 <? Amount g)) groups).

Definition account_contributions (a : string)
    (groups : list (group (string * string))) : list float :=
  map (@Amount _)
      (filter (fun g => String.eqb (fst (Keys g)) a && (0 <? Amount g))
              groups).

Definition service_contributions (s : string)
    (groups : list (group (string * string))) : list float :=
  map (@Amount _)
      (filter (fun g => String.eqb (snd (Keys g)) s && (0 <? Amount g))
              groups).

(** All amounts of a sequence of single-key groups for one service. *)
Definition all_contributions (s : string) (groups : list (group string))
    : list float :=
  map (@Amount _) (filter (fun g => String.eqb (Keys g) s) groups).

(** The pages of a script, as one sequence of groups. *)
Definition all_groups {K : Type} (pages : list (cost_and_usage_response K))
    : list (group K) :=
  flat_map (fun resp => List.concat (ResultsByTime resp)) pages.

(** Groups and one-bucket responses, for the examples. *)
Definition cost (a s : string) (x : float) : group (string * string) :=
  {| Keys := (a, s); Amount := x |}.

Definition service_cost (s : string) (x : float) : group string :=
  {| Keys := s; Amount := x |}.

Definition one_bucket {K : Type} (groups : list (group K))
    : cost_and_usage_response K :=
  {| ResultsByTime := [groups]; CU_NextPageToken := None |}.

(** The columns kept by [--top-services]: the first N when N > 0, all
    otherwise. *)
Definition top_n (args : AccountServiceCosts.arguments) {X : Type}
    (l : list X) : list X :=
  if (0 <? AccountServiceCosts.top_services args)%Z
  then firstn (Z.to_nat (AccountServiceCosts.top_services args)) l
  else l.

(** The arguments with another [--top-services], with another
    [--min-cost]. *)
Definition with_top (n : Z) (args : AccountServiceCosts.arguments)
    : AccountServiceCosts.arguments :=
  {| AccountServiceCosts.top_services := n;
     AccountServiceCosts.min_cost := AccountServiceCosts.min_cost args;
     AccountServiceCosts.output := AccountServiceCosts.output args |}.

Definition with_min (m : float) (args : AccountServiceCosts.arguments)
    : AccountServiceCosts.arguments :=
  {| AccountServiceCosts.top_services :=
       AccountServiceCosts.top_services args;
     AccountServiceCosts.min_cost := m;
     AccountServiceCosts.output := AccountServiceCosts.output args |}.

(** *** The machine *)

(** A machine on which every session can be created and every file can be
    opened for writing. *)
Definition willing : system :=
  {| new_session := fun _ => Ok tt; open_for_writing := fun _ => Ok tt |}.

(** *** Period arguments *)

(** A period argument that is not of the form 'dd-mm-yy to dd-mm-yy': the
    number of parts separated by " to " is not two, or a part, stripped of
    surrounding blanks, is not a date in the format [%d-%m-%y]. *)
Definition malformed (s : string) : Prop :=
  List.length (PyStr.split s " to ") <> 2%nat \/
  exists part e,
    In part (PyStr.split s " to ") /\ strptime_dmy (strip part) = Raise e.

End Notions.

Import Notions.

(** * Notions used in the further properties *)

Module MoreNotions.

Local Open Scope string_scope.
Local Open Scope list_scope.
Local Open Scope Z_scope.

(** *** Numbers with a clear sign bit: [+0.0], the positive finite values
    and [+infinity] *)
Definition sf_plus (x : spec_float) : bool :=
  match x with
  | S754_zero false | S754_finite false _ _ | S754_infinity false => true
  | _ => false
  end.

(** *** Dates *)

(** A calendar date that a two-digit year can denote. *)
Definition valid_date (d : date) : Prop :=
  1969 <= year d <= 2068 /\ 1 <= month d <= 12 /\
  1 <= day d <= days_in_month (year d) (month d).

Definition digit_char (n : Z) : ascii := ascii_of_nat (Z.to_nat (48 + n)).

Definition two_digits (n : Z) : string :=
  String (digit_char (n / 10)) (String (digit_char (n mod 10)) "").

(** A date written [dd-mm-yy]. *)
Definition format_dmy (d : date) : string :=
  two_digits (day d) ++ "-" ++ two_digits (month d) ++ "-"
  ++ two_digits (year d mod 100).

(** Checks run over the whole calendar, for proofs by enumeration. *)
Definition no_space (s : string) : bool :=
  forallb (fun c => negb (Ascii.eqb c " ")) (list_ascii_of_string s).

Definition date_eqb (a b : date) : bool :=
  (year a =? year b) && (month a =? month b) && (day a =? day b).

Definition reads_back (d : date) : bool :=
  match strptime_dmy (format_dmy d) with
  | Ok d' => date_eqb d' d
  | Raise _ => false
  end
  && String.eqb (strip (format_dmy d)) (format_dmy d)
  && no_space (format_dmy d).

(** *** Scripts and terminal lines of the examples and statements *)

Definition two_cost_pages
    : list (cost_and_usage_response (string * string)) :=
  [ {| ResultsByTime := [[ {| Keys := ("111", "EC2"); Amount := 100 |} ]];
       CU_NextPageToken := Some "page-2" |};
    {| ResultsByTime := [[ {| Keys := ("222", "S3"); Amount := 50 |} ]];
       CU_NextPageToken := None |} ].

(** The accounts for which aws_cost_compare.py announced a fetch, in the
    order of the announcements. *)
Definition fetch_attempts (lines : list AwsCostCompare.printed)
    : list string :=
  flat_map (fun line =>
              match line with
              | AwsCostCompare.FetchingAccountLine _ aid => [aid]
              | _ => []
              end) lines.

(** *** Steps of aws_cost_compare.py *)

(** What a step of the program may do to the world: it keeps the files,
    and it only adds lines to the terminal. *)
Definition extends (w w' : AwsCostCompare.world)
    (lines : list AwsCostCompare.printed) : Prop :=
  AwsCostCompare.files w' = AwsCostCompare.files w /\
  AwsCostCompare.stdout w' = AwsCostCompare.stdout w ++ lines /\
  AwsCostCompare.host w' = AwsCostCompare.host w.

(** The fetches that aws_cost_compare.py reported as failed: the account
    and the exception of each error line, in order. *)
Definition fetch_errors (lines : list AwsCostCompare.printed)
    : list (string * exn) :=
  flat_map (fun line =>
              match line with
              | AwsCostCompare.FetchErrorLine aid e => [(aid, e)]
              | _ => []
              end) lines.

(** The accounts that the cost responses left in the client can serve:
    each account takes two responses, one for each period. *)
Definition served (w : AwsCostCompare.world) : nat :=
  Nat.div2 (List.length (service_pages (AwsCostCompare.ce w))).

(** The session that [main] asks for. *)
Definition session_profile (args : AwsCostCompare.arguments)
    : option string :=
  if truthy (AwsCostCompare.arg_profile args)
  then AwsCostCompare.arg_profile args
  else None.

(** A machine that knows no profile, and a machine on which no file can
    be opened for writing. *)
Definition without_profiles : AwsCostCompare.system :=
  {| AwsCostCompare.new_session :=
       fun profile =>
         match profile with
         | Some name => Raise (ProfileNotFound name)
         | None => Ok tt
         end;
     AwsCostCompare.open_for_writing := fun _ => Ok tt |}.

Definition read_only : AwsCostCompare.system :=
  {| AwsCostCompare.new_session := fun _ => Ok tt;
     AwsCostCompare.open_for_writing := fun path => Raise (OSError path) |}.

(** A world with a catalog of one account and the cost responses for the
    overall comparison and for that account. *)
Definition sample_world (machine : AwsCostCompare.system)
    : AwsCostCompare.world :=
  {| AwsCostCompare.ce :=
       {| dimension_pages := renamed_catalog;
          service_pages :=
            [ one_bucket [service_cost "EC2" 10];
              one_bucket [service_cost "EC2" 15];
              one_bucket [service_cost "EC2" 10];
              one_bucket [service_cost "EC2" 15] ];
          account_service_pages := []; requests := [] |};
     AwsCostCompare.stdout := [];
     AwsCostCompare.files := [];
     AwsCostCompare.host := machine |}.

Definition sample_periods (profile : option string)
    : AwsCostCompare.arguments :=
  {| AwsCostCompare.arg_period1 := "01-11-25 to 30-11-25";
     AwsCostCompare.arg_period2 := "01-12-25 to 31-12-25";
     AwsCostCompare.arg_profile := profile;
     AwsCostCompare.arg_output := "cost_comparison.csv" |}.

(** The fetch of the two periods of one account, inside its [try]. *)
Definition fetch_pair (range1 range2 : date * date) (aid : string)
    : AwsCostCompare.M (option (dict float * dict float)) :=
  AwsCostCompare.try_except
    (AwsCostCompare.seq
       (AwsCostCompare.call
          (AwsCostCompare.get_service_costs (fst range1) (snd range1)
                                            (Some aid)))
       (fun acct_period1 =>
          AwsCostCompare.seq
            (AwsCostCompare.call
               (AwsCostCompare.get_service_costs (fst range2) (snd range2)
                                                 (Some aid)))
            (fun acct_period2 =>
               AwsCostCompare.ret (Some (acct_period1, acct_period2)))))
    (fun e =>
       AwsCostCompare.seq
         (AwsCostCompare.print (AwsCostCompare.FetchErrorLine aid e))
         (fun _ => AwsCostCompare.ret None)).

(** *** aws_cost.py *)

(** [int(x)] where it is defined. *)
Definition whole_dollars (x : float) : Z :=
  match AwsCost.int_of_float x with
  | Ok n => n
  | Raise _ => 0
  end.

(** The whole dollars of the groups of a service, added up. *)
Definition whole_dollars_of (svc : string) (groups : list (group string))
    : Z :=
  fold_right Z.add 0
    (map (fun g => whole_dollars (Amount g))
         (filter (fun g => String.eqb (Keys g) svc) groups)).

(** The accounts that a run announced, in order. *)
Definition processed (t : list AwsCostMain.event)
    : list (string * option string) :=
  flat_map (fun ev =>
              match ev with
              | AwsCostMain.Stdout (AwsCostMain.ProcessingLine aid name) =>
                  [(aid, name)]
              | _ => []
              end) t.

(** The cost queries of a run: the session and the region of each. *)
Definition cost_queries (t : list AwsCostMain.event)
    : list (AwsCostMain.credentials * string) :=
  flat_map (fun ev =>
              match ev with
              | AwsCostMain.GetCostAndUsageIn sess region_name =>
                  [(sess, region_name)]
              | _ => []
              end) t.

(** The cost lines of a run, in order. *)
Definition cost_lines (t : list AwsCostMain.event) : list (string * Z) :=
  flat_map (fun ev =>
              match ev with
              | AwsCostMain.Stdout (AwsCostMain.CostLine key value) =>
                  [(key, value)]
              | _ => []
              end) t.

(** The names of the regions that a listing reports as usable. *)
Definition enabled_names (regions : list AwsCostMain.region)
    : list string :=
  map AwsCostMain.RegionName (filter AwsCostMain.enabled regions).

(** A role name that STS refuses. *)
Definition refused (sts : string -> result AwsCostMain.credentials)
    (account_id rn : string) : Prop :=
  sts (AwsCostMain.role_arn account_id rn) = Raise ClientError.

Definition assume_role_calls (account_id : string) (rns : list string)
    : list AwsCostMain.event :=
  map (fun rn => AwsCostMain.AssumeRole (AwsCostMain.role_arn account_id rn))
      rns.

(** A Cost Explorer that answers the next cost query, with amounts that
    are numbers. *)
Definition answers_cost_query (ce : client) : Prop :=
  match service_pages ce with
  | response :: _ =>
      Forall (fun g => is_finite (Amount g) = true)
             (List.concat (ResultsByTime response))
  | [] => False
  end.

(** The entries that the profiles add to the accounts. *)
Definition profile_entry (env : AwsCostMain.environment) (prof : string)
    : list (string * option string) :=
  match AwsCostMain.caller_identity env prof with
  | Ok aid => [(aid, Some ("profile:" ++ prof)%string)]
  | Raise _ => []
  end.

(** The accounts of the catalog, or none when the discovery fails. *)
Definition discovered (env : AwsCostMain.environment)
    : list (string * option string) :=
  match fst (AwsCost.get_linked_accounts_ce
               (AwsCostMain.management_ce env)) with
  | Ok accounts => accounts
  | Raise _ => []
  end.

(** The region of a cost query is the least of the usable regions that
    EC2 lists to the session. *)
Definition least_enabled_region (env : AwsCostMain.environment)
    (query : AwsCostMain.credentials * string) : Prop :=
  exists regions,
    AwsCostMain.describe_regions env (fst query) = Ok regions /\
    In (snd query) (enabled_names regions) /\
    forall name,
      In name (enabled_names regions) ->
      (snd query <=? name)%string = true.

(** *** Examples *)

Definition sample_response : cost_and_usage_response string :=
  {| ResultsByTime :=
       [ [ {| Keys := "EC2"; Amount := 1.75%float |};
           {| Keys := "S3"; Amount := 0.5%float |} ];
         [ {| Keys := "EC2"; Amount := 2.5%float |} ] ];
     CU_NextPageToken := None |}.

Definition cents_every_day : cost_and_usage_response string :=
  {| ResultsByTime :=
       [ [ {| Keys := "S3"; Amount := 0.75%float |} ];
         [ {| Keys := "S3"; Amount := 0.75%float |} ];
         [ {| Keys := "S3"; Amount := 0.75%float |} ] ];
     CU_NextPageToken := None |}.

Definition member_credentials : AwsCostMain.credentials :=
  {| AwsCostMain.AccessKeyId := "ASIA111";
     AwsCostMain.SecretAccessKey := "secret";
     AwsCostMain.SessionToken := "token" |}.

Definition sample_regions : list AwsCostMain.region :=
  [ {| AwsCostMain.RegionName := "us-east-1";
       AwsCostMain.OptInStatus := Some "opt-in-not-required" |};
    {| AwsCostMain.RegionName := "eu-west-1";
       AwsCostMain.OptInStatus := None |};
    {| AwsCostMain.RegionName := "ap-east-1";
       AwsCostMain.OptInStatus := Some "not-opted-in" |} ].

Definition answering (response : cost_and_usage_response string)
    : client :=
  {| dimension_pages := []; service_pages := [response];
     account_service_pages := []; requests := [] |}.

(** One account in the catalog, one profile for another account; only
    the first account lets its role be assumed. *)
Definition sample_environment (response : cost_and_usage_response string)
    : AwsCostMain.environment :=
  {| AwsCostMain.management_ce :=
       {| dimension_pages :=
            [ {| DimensionValues :=
                   [ {| Value := Some "111";
                        Attributes := Some [("description", "Prod")] |} ];
                 DV_NextPageToken := None |} ];
          service_pages := []; account_service_pages := [];
          requests := [] |};
     AwsCostMain.caller_identity :=
       fun prof => if String.eqb prof "dev" then Ok "222"
                   else Raise ClientError;
     AwsCostMain.sts_assume_role :=
       fun arn =>
         if String.eqb arn
              "arn:aws:iam::111:role/OrganizationAccountAccessRole"
         then Ok member_credentials else Raise ClientError;
     AwsCostMain.describe_regions := fun _ => Ok sample_regions;
     AwsCostMain.cost_explorer := fun _ _ => answering response |}.

Definition sample_arguments : AwsCostMain.arguments :=
  {| AwsCostMain.role_names := "Audit, OrganizationAccountAccessRole";
     AwsCostMain.profiles := "dev";
     AwsCostMain.account_name := None;
     AwsCostMain.account_id := None |}.

Definition only_account_222 : AwsCostMain.arguments :=
  {| AwsCostMain.role_names := "OrganizationAccountAccessRole";
     AwsCostMain.profiles := "dev, staging";
     AwsCostMain.account_name := None;
     AwsCostMain.account_id := Some "222" |}.

End MoreNotions.

Import MoreNotions.

(** * Properties *)

(** ** Facts on binary64 comparison and subtraction *)

Module FloatFacts.

Open Scope float_scope.

Ltac cmp_cases :=
  repeat match goal with
  | |- context [Pos.compare_cont Eq ?a ?b] =>
      change (Pos.compare_cont Eq a b) with (Pos.compare a b)
  | H : context [Pos.compare_cont Eq ?a ?b] |- _ =>
      change (Pos.compare_cont Eq a b) with (Pos.compare a b) in H
  end;
  repeat match goal with
  | |- context [(?a ?= ?b)%Z] => destruct (Z.compare_spec a b)
  | H : context [(?a ?= ?b)%Z] |- _ => destruct (Z.compare_spec a b)
  | |- context [(?a ?= ?b)%positive] => destruct (Pos.compare_spec a b)
  | H : context [(?a ?= ?b)%positive] |- _ => destruct (Pos.compare_spec a b)
  end; simpl in *; subst; try congruence; try lia.

Lemma SFcompare_antisym x y :
  SFcompare y x = option_map CompOpp (SFcompare x y).
Proof.
  destruct x as [sx|sx| |sx mx ex], y as [sy|sy| |sy my ey]; simpl;
    try reflexivity; try (destruct sx; reflexivity);
    try (destruct sy; reflexivity); try (destruct sx, sy; reflexivity).
  destruct sx, sy; simpl; try reflexivity; cmp_cases.
Qed.

Lemma SFcompare_le_trans x y z c1 c2 :
  SFcompare x y = Some c1 -> SFcompare y z = Some c2 ->
  c1 <> Gt -> c2 <> Gt ->
  exists c3, SFcompare x z = Some c3 /\ c3 <> Gt.
Proof.
  intros H1 H2 N1 N2.
  destruct x as [sx|sx| |sx mx ex], y as [sy|sy| |sy my ey],
           z as [sz|sz| |sz mz ez];
    simpl in *; try discriminate;
    repeat match goal with s : bool |- _ => destruct s end;
    injection H1 as <-; injection H2 as <-; try congruence;
    try (eexists; split; [reflexivity|]; cmp_cases).
Qed.

Lemma SFcompare_defined x y :
  sf_is_nan x = false -> sf_is_nan y = false ->
  exists c, SFcompare x y = Some c.
Proof. destruct x, y; simpl; try discriminate; eauto. Qed.

Lemma SFcompare_refl x : sf_is_nan x = false -> SFcompare x x = Some Eq.
Proof.
  destruct x as [s|s| |s m e]; simpl; try discriminate; intros _;
    try (destruct s; reflexivity).
  rewrite Z.compare_refl.
  change (Pos.compare_cont Eq m m) with (Pos.compare m m).
  rewrite Pos.compare_refl. destruct s; reflexivity.
Qed.

(** *** Order facts on primitive floats *)

Lemma is_nan_spec x : is_nan x = sf_is_nan (Prim2SF x).
Proof.
  unfold is_nan. rewrite eqb_spec. unfold SFeqb.
  destruct (sf_is_nan (Prim2SF x)) eqn:E.
  - destruct (Prim2SF x); try discriminate. reflexivity.
  - rewrite SFcompare_refl by exact E. reflexivity.
Qed.

Lemma ltb_leb x y : (x <? y) = true -> (x <=? y) = true.
Proof.
  rewrite ltb_spec, leb_spec. unfold SFltb, SFleb.
  destruct (SFcompare (Prim2SF x) (Prim2SF y)) as [[]|]; congruence.
Qed.

Lemma ltb_not_leb x y : (x <? y) = true -> (y <=? x) = false.
Proof.
  rewrite ltb_spec, leb_spec. unfold SFltb, SFleb.
  rewrite (SFcompare_antisym (Prim2SF x) (Prim2SF y)).
  destruct (SFcompare (Prim2SF x) (Prim2SF y)) as [[]|]; simpl; congruence.
Qed.


Lemma ltb_not_eqb x y : (x <? y) = true -> (y =? x) = false.
Proof.
  rewrite ltb_spec, eqb_spec. unfold SFltb, SFeqb.
  rewrite (SFcompare_antisym (Prim2SF x) (Prim2SF y)).
  destruct (SFcompare (Prim2SF x) (Prim2SF y)) as [[]|]; simpl; congruence.
Qed.

Lemma not_ltb_leb x y :
  is_nan x = false -> is_nan y = false ->
  (x <? y) = false -> (y <=? x) = true.
Proof.
  rewrite !is_nan_spec, ltb_spec, leb_spec. unfold SFltb, SFleb.
  intros Hx Hy.
  rewrite (SFcompare_antisym (Prim2SF x) (Prim2SF y)).
  destruct (SFcompare_defined _ _ Hx Hy) as [c ->].
  destruct c; simpl; congruence.
Qed.

Lemma leb_trans x y z :
  (x <=? y) = true -> (y <=? z) = true -> (x <=? z) = true.
Proof.
  rewrite !leb_spec. unfold SFleb. intros Hxy Hyz.
  destruct (SFcompare (Prim2SF x) (Prim2SF y)) as [c1|] eqn:E1;
    [|discriminate].
  destruct (SFcompare (Prim2SF y) (Prim2SF z)) as [c2|] eqn:E2;
    [|discriminate].
  destruct (SFcompare_le_trans _ _ _ _ _ E1 E2) as (c3 & -> & Hc3).
  - destruct c1; congruence.
  - destruct c2; congruence.
  - destruct c3; congruence.
Qed.

(** *** Rounding never yields NaN, and commutes with negation *)

Lemma iter_pos_invariant {A} (P : A -> Prop) (f : A -> A) :
  (forall x, P x -> P (f x)) -> forall n x, P x -> P (iter_pos f n x).
Proof.
  intros Hf. induction n as [n IH|n IH|]; intros x Hx; simpl; auto.
Qed.

Lemma shr_1_nonneg mrs : (0 <= shr_m mrs)%Z -> (0 <= shr_m (shr_1 mrs))%Z.
Proof.
  destruct mrs as [m r s]; simpl. destruct m as [|p|p]; simpl; try lia.
  destruct p; simpl; lia.
Qed.

Lemma shr_fexp_nonneg pr em m e l :
  (0 <= m)%Z -> (0 <= shr_m (fst (shr_fexp pr em m e l)))%Z.
Proof.
  intros Hm. unfold shr_fexp, shr.
  assert (H0 : (0 <= shr_m (shr_record_of_loc m l))%Z).
  { destruct l as [|[]]; simpl; exact Hm. }
  destruct (fexp pr em (Zdigits2 m + e) - e)%Z; simpl; auto.
  apply iter_pos_invariant with (P := fun r => (0 <= shr_m r)%Z);
    auto using shr_1_nonneg.
Qed.

Lemma round_nearest_even_nonneg m l :
  (0 <= m)%Z -> (0 <= round_nearest_even m l)%Z.
Proof.
  intros Hm. destruct l as [|[]]; simpl; try lia. destruct (Z.even m); lia.
Qed.

Lemma binary_round_aux_not_nan pr em s m e l :
  (0 <= m)%Z -> sf_is_nan (binary_round_aux pr em s m e l) = false.
Proof.
  intros Hm. unfold binary_round_aux.
  pose proof (shr_fexp_nonneg pr em m e l Hm) as H1.
  destruct (shr_fexp pr em m e l) as [mrs' e']. simpl in H1.
  pose proof (shr_fexp_nonneg pr em _ e' loc_Exact
                (round_nearest_even_nonneg _ (loc_of_shr_record mrs') H1))
    as H2.
  destruct (shr_fexp pr em
              (round_nearest_even (shr_m mrs') (loc_of_shr_record mrs'))
              e' loc_Exact) as [mrs'' e'']. simpl in H2.
  destruct (shr_m mrs''); try lia; try reflexivity.
  destruct (e'' <=? em - pr)%Z; reflexivity.
Qed.

Lemma binary_normalize_not_nan pr em m e sz :
  sf_is_nan (binary_normalize pr em m e sz) = false.
Proof.
  unfold binary_normalize, binary_round. destruct m; try reflexivity;
  match goal with
  | |- context [shl_align ?a ?b ?c] => destruct (shl_align a b c)
  end; apply binary_round_aux_not_nan; lia.
Qed.

Lemma binary_round_aux_opp pr em s m e l :
  SFopp (binary_round_aux pr em s m e l)
  = binary_round_aux pr em (negb s) m e l.
Proof.
  unfold binary_round_aux.
  destruct (shr_fexp pr em m e l) as [mrs' e'].
  destruct (shr_fexp pr em _ e' loc_Exact) as [mrs'' e''].
  destruct (shr_m mrs''); try reflexivity.
  destruct (e'' <=? em - pr)%Z; reflexivity.
Qed.

Lemma binary_normalize_opp pr em m e sz :
  m <> 0%Z ->
  SFopp (binary_normalize pr em m e sz) = binary_normalize pr em (- m) e sz.
Proof.
  intros Hm. destruct m; try congruence; simpl; unfold binary_round;
  match goal with
  | |- context [shl_align ?a ?b ?c] => destruct (shl_align a b c)
  end; apply binary_round_aux_opp.
Qed.

Lemma SFsub_not_nan pr em x y :
  sf_finite x = true -> sf_finite y = true ->
  sf_is_nan (SFsub pr em x y) = false.
Proof.
  destruct x as [sx|sx| |sx mx ex], y as [sy|sy| |sy my ey]; simpl;
    try discriminate; intros _ _; try reflexivity.
  - destruct sx, sy; reflexivity.
  - apply binary_normalize_not_nan.
Qed.

Lemma SFsub_swap pr em x y :
  SFsub pr em y x = SFopp (SFsub pr em x y) \/
  (sf_is_zero (SFsub pr em x y) = true /\
   sf_is_zero (SFsub pr em y x) = true).
Proof.
  destruct x as [sx|sx| |sx mx ex], y as [sy|sy| |sy my ey]; simpl; auto;
    try (destruct sx, sy; simpl; auto; fail);
    try (rewrite negb_involutive; auto; fail).
  rewrite (Z.min_comm ey ex).
  set (a := cond_Zopp sx (Zpos (fst (shl_align mx ex (Z.min ex ey))))).
  set (b := cond_Zopp sy (Zpos (fst (shl_align my ey (Z.min ex ey))))).
  destruct (Z.eq_dec (a - b) 0) as [E|E].
  - right. replace (b - a)%Z with 0%Z by lia. rewrite E. simpl. auto.
  - left. rewrite binary_normalize_opp by exact E. f_equal. lia.
Qed.

(** *** Subtraction on primitive floats *)

Lemma is_zero_spec x : is_zero x = sf_is_zero (Prim2SF x).
Proof.
  unfold is_zero. rewrite eqb_spec.
  change (Prim2SF zero) with (S754_zero false).
  destruct (Prim2SF x) as [s|s| |s m e]; try reflexivity;
    destruct s; reflexivity.
Qed.

Lemma is_finite_spec x : is_finite x = sf_finite (Prim2SF x).
Proof.
  unfold is_finite, is_infinity. rewrite is_nan_spec, eqb_spec, abs_spec.
  change (Prim2SF infinity) with (S754_infinity false).
  destruct (Prim2SF x) as [s|s| |s m e]; reflexivity.
Qed.

Lemma sub_finite_not_nan a b :
  is_finite a = true -> is_finite b = true -> is_nan (a - b) = false.
Proof.
  rewrite !is_finite_spec, is_nan_spec, sub_spec. apply SFsub_not_nan.
Qed.

Lemma abs_not_nan x : is_nan x = false -> is_nan (abs x) = false.
Proof.
  rewrite !is_nan_spec, abs_spec. destruct (Prim2SF x); simpl; congruence.
Qed.

Lemma SFabs_opp x : SFabs (SFopp x) = SFabs x.
Proof. destruct x; reflexivity. Qed.

Lemma sub_swap_abs a b : abs (a - b) = abs (b - a).
Proof.
  apply Prim2SF_inj. rewrite !abs_spec, !sub_spec.
  destruct (SFsub_swap prec emax (Prim2SF b) (Prim2SF a)) as [H|[H1 H2]].
  - unfold SF64sub. rewrite H. apply SFabs_opp.
  - unfold SF64sub.
    destruct (SFsub prec emax (Prim2SF b) (Prim2SF a)); try discriminate.
    destruct (SFsub prec emax (Prim2SF a) (Prim2SF b)); try discriminate.
    reflexivity.
Qed.

Lemma sub_swap_opp a b : is_zero (b - a) = false -> a - b = - (b - a).
Proof.
  rewrite is_zero_spec, sub_spec. intros Hz.
  apply Prim2SF_inj. rewrite opp_spec, !sub_spec.
  destruct (SFsub_swap prec emax (Prim2SF b) (Prim2SF a)) as [H|[H1 H2]].
  - exact H.
  - unfold SF64sub in Hz. congruence.
Qed.

Lemma sub_swap_zero a b : is_zero (b - a) = true -> is_zero (a - b) = true.
Proof.
  rewrite !is_zero_spec, !sub_spec. intros Hz.
  destruct (SFsub_swap prec emax (Prim2SF b) (Prim2SF a)) as [H|[H1 H2]].
  - unfold SF64sub in *. rewrite H.
    destruct (SFsub prec emax (Prim2SF b) (Prim2SF a)); try discriminate.
    reflexivity.
  - exact H2.
Qed.

End FloatFacts.


(** ** Facts on the descending stable sort *)

Module SortFacts.

Import FloatFacts.
Open Scope float_scope.

Section Descending.
Context {A : Type}.
Variable key : A -> float.

Lemma insert_desc_perm x l : Permutation (insert_desc key x l) (x :: l).
Proof.
  induction l as [|y ys IH]; simpl.
  - apply Permutation_refl.
  - destruct (key x <? key y).
    + apply Permutation_trans with (y :: x :: ys).
      * apply perm_skip. exact IH.
      * apply perm_swap.
    + apply Permutation_refl.
Qed.

Lemma sort_desc_perm l : Permutation (sort_desc key l) l.
Proof.
  induction l as [|x xs IH]; simpl.
  - apply perm_nil.
  - apply Permutation_trans with (x :: sort_desc key xs).
    + apply insert_desc_perm.
    + apply perm_skip. exact IH.
Qed.

Lemma sort_desc_In x l : In x (sort_desc key l) <-> In x l.
Proof.
  split; apply Permutation_in;
    [|apply Permutation_sym]; apply sort_desc_perm.
Qed.

Lemma desc_trans a b c : desc key a b -> desc key b c -> desc key a c.
Proof. unfold desc. intros Hab Hbc. eapply leb_trans; eassumption. Qed.

Lemma insert_desc_sorted x l :
  is_nan (key x) = false ->
  Forall (fun y => is_nan (key y) = false) l ->
  StronglySorted (desc key) l ->
  StronglySorted (desc key) (insert_desc key x l).
Proof.
  intros Hx Hl Hs. induction Hs as [|y ys Hys IH Hy]; simpl.
  - constructor; constructor.
  - inversion Hl as [|? ? Hny Hnys]; subst.
    destruct (key x <? key y) eqn:E.
    + constructor.
      * apply IH. exact Hnys.
      * apply (Permutation_Forall (Permutation_sym (insert_desc_perm x ys))).
        constructor; [|exact Hy].
        unfold desc. apply ltb_leb. exact E.
    + assert (Hxy : desc key x y).
      { unfold desc. apply not_ltb_leb; assumption. }
      constructor.
      * constructor; assumption.
      * constructor; [exact Hxy|].
        eapply Forall_impl; [|exact Hy].
        intros z Hz. eapply desc_trans; eassumption.
Qed.

Lemma sort_desc_sorted l :
  Forall (fun y => is_nan (key y) = false) l ->
  StronglySorted (desc key) (sort_desc key l).
Proof.
  induction l as [|x xs IH]; intros Hl; simpl.
  - constructor.
  - inversion Hl as [|? ? Hx Hxs]; subst.
    apply insert_desc_sorted; auto.
    apply (Permutation_Forall (Permutation_sym (sort_desc_perm xs))).
    exact Hxs.
Qed.

End Descending.

End SortFacts.


(** ** The comparator *)

Module ComparatorFacts.

Import FloatFacts SortFacts AwsCostCompare.
Open Scope float_scope.

Lemma truediv_positive a b : (0 <? b) = true -> truediv a b = Ok (a / b).
Proof.
  intros Hb. unfold truediv. rewrite (ltb_not_eqb _ _ Hb). reflexivity.
Qed.

Lemma percent_change_total cost1 cost2 :
  percent_change cost1 cost2 = Ok (pct_of cost1 cost2).
Proof.
  unfold percent_change, pct_of. destruct (0 <? cost1) eqn:E1.
  - rewrite (truediv_positive _ _ E1). reflexivity.
  - destruct (0 <? cost2); reflexivity.
Qed.

Lemma compare_service_total p1 p2 svc :
  compare_service p1 p2 svc = Ok (row_of p1 p2 svc).
Proof.
  unfold compare_service, row_of. rewrite percent_change_total. reflexivity.
Qed.

Lemma mapM_total {A B : Type} (f : A -> result B) (g : A -> B) l :
  (forall x, f x = Ok (g x)) -> mapM f l = Ok (map g l).
Proof.
  intros Hf. induction l as [|x xs IH]; simpl.
  - reflexivity.
  - rewrite Hf, IH. reflexivity.
Qed.

Lemma compare_costs_total set_iter p1 p2 :
  compare_costs set_iter p1 p2
  = Ok (sort_desc abs_diff
          (map (row_of p1 p2) (all_services set_iter p1 p2))).
Proof.
  unfold compare_costs.
  rewrite (mapM_total _ (row_of p1 p2)) by apply compare_service_total.
  reflexivity.
Qed.

Lemma compare_costs_row set_iter p1 p2 r :
  In r (sort_desc abs_diff
          (map (row_of p1 p2) (all_services set_iter p1 p2))) ->
  r = row_of p1 p2 (service r).
Proof.
  rewrite sort_desc_In, in_map_iff. intros (svc & <- & _). reflexivity.
Qed.

Lemma total_percent_total total1 total2 :
  exists pct, total_percent total1 total2 = Ok pct.
Proof.
  unfold total_percent. destruct (0 <? total1) eqn:E.
  - rewrite (truediv_positive _ _ E). simpl. eauto.
  - eauto.
Qed.

Lemma print_comparison_table_rows comparisons title :
  exists t,
    print_comparison_table comparisons title = Ok t /\
    table_rows t
    = map table_line_of
          (filter (fun item => negb (negligible item)) comparisons).
Proof.
  unfold print_comparison_table.
  destruct (total_percent_total (fsum (map period1 comparisons))
                                (fsum (map period2 comparisons)))
    as [pct ->].
  simpl. eauto.
Qed.

(** A set enumerated in some order has the elements of the list it was
    built from. *)
Section SetOrder.
Variable set_iter : list string -> list string.
Hypothesis set_iter_perm : forall l, Permutation (set_iter l) l.

Lemma all_services_In p1 p2 k :
  In k (all_services set_iter p1 p2) <-> In k (keys p1) \/ In k (keys p2).
Proof.
  unfold all_services, string_nodup. split.
  - intros H. apply (Permutation_in _ (set_iter_perm _)) in H.
    apply nodup_In, in_app_or in H. exact H.
  - intros H. apply (Permutation_in _ (Permutation_sym (set_iter_perm _))).
    apply nodup_In, in_or_app. exact H.
Qed.

Lemma all_services_NoDup p1 p2 : NoDup (all_services set_iter p1 p2).
Proof.
  unfold all_services, string_nodup.
  apply (Permutation_NoDup (Permutation_sym (set_iter_perm _))).
  apply NoDup_nodup.
Qed.

Lemma services_of_rows p1 p2 :
  Permutation
    (map service
       (sort_desc abs_diff
          (map (row_of p1 p2) (all_services set_iter p1 p2))))
    (all_services set_iter p1 p2).
Proof.
  eapply Permutation_trans.
  - apply Permutation_map, sort_desc_perm.
  - rewrite map_map. simpl. rewrite map_id. apply Permutation_refl.
Qed.
End SetOrder.

(** Every key of the two mappings has its row, and no key has two. *)
Lemma rows_cover set_iter p1 p2 k :
  (forall l, Permutation (set_iter l) l) ->
  In k (keys p1) \/ In k (keys p2) ->
  In (row_of p1 p2 k)
     (sort_desc abs_diff
        (map (row_of p1 p2) (all_services set_iter p1 p2))).
Proof.
  intros Hperm H. apply sort_desc_In, in_map.
  apply (all_services_In set_iter Hperm). exact H.
Qed.

Lemma rows_services set_iter p1 p2 :
  (forall l, Permutation (set_iter l) l) ->
  NoDup (map service
           (sort_desc abs_diff
              (map (row_of p1 p2) (all_services set_iter p1 p2)))) /\
  forall k,
    In k (map service
            (sort_desc abs_diff
               (map (row_of p1 p2) (all_services set_iter p1 p2)))) <->
    In k (keys p1) \/ In k (keys p2).
Proof.
  intros Hperm. pose proof (services_of_rows set_iter p1 p2) as P. split.
  - apply (Permutation_NoDup (Permutation_sym P)).
    apply all_services_NoDup. exact Hperm.
  - intros k. rewrite <- (all_services_In set_iter Hperm). split.
    + apply Permutation_in. exact P.
    + apply Permutation_in, Permutation_sym. exact P.
Qed.

Lemma get_default_finite d k :
  finite_costs d -> is_finite (get_default d k 0) = true.
Proof.
  unfold get_default. intros Hd.
  induction Hd as [|[k' v] rest Hv _ IH]; simpl.
  - reflexivity.
  - destruct (String.eqb k' k); [exact Hv|exact IH].
Qed.

Lemma row_of_diff_not_nan p1 p2 svc :
  finite_costs p1 -> finite_costs p2 ->
  is_nan (abs_diff (row_of p1 p2 svc)) = false.
Proof.
  intros H1 H2. unfold abs_diff, row_of. simpl.
  apply abs_not_nan, sub_finite_not_nan; apply get_default_finite; assumption.
Qed.

End ComparatorFacts.


Module ComparatorSpec.

Import FloatFacts SortFacts AwsCostCompare ComparatorFacts.
Open Scope string_scope.
Open Scope float_scope.

Lemma rows_shape set_iter p1 p2 r :
  In r (sort_desc abs_diff
          (map (row_of p1 p2) (all_services set_iter p1 p2))) ->
  period1 r = get_default p1 (service r) 0 /\
  period2 r = get_default p2 (service r) 0 /\
  diff r = period2 r - period1 r /\
  pct_change r = pct_of (period1 r) (period2 r).
Proof.
  intros Hr. rewrite (compare_costs_row set_iter p1 p2 r Hr).
  repeat split.
Qed.

Lemma singleton_services set_iter (k : string) (a b : float) :
  (forall l, Permutation (set_iter l) l) ->
  all_services set_iter [(k, a)] [(k, b)] = [k].
Proof.
  intros Hperm. unfold all_services, string_nodup. simpl.
  destruct (string_dec k k) as [_|N]; [|congruence].
  destruct (in_dec string_dec k [k]) as [_|N]; [|simpl in N; tauto].
  apply Permutation_length_1_inv, Permutation_sym, Hperm.
Qed.

(** C1 (amended): a zero prior-period amount never raises in the comparator
    or in the table printer.  The comparator returns exactly one row for
    each key of the two mappings, with the amounts the mappings hold for
    the key (0.0 for an absent key).  A key with period1 = 0 and
    period2 = 20 has a row marked "NEW" and a printed line marked "NEW";
    a key with period1 = 20 and period2 = 0 has a row with the percent
    change -100.0 and a printed line marked "-100.0%"; a key with
    period1 = 0 and period2 = 0 has a negligible row, and no printed line
    has both amounts 0. *)
Theorem zero_prior_amount_never_faults
    (set_iter : list string -> list string)
    (set_iter_perm : forall l, Permutation (set_iter l) l)
    (p1 p2 : dict float) (title : string) :
  exists rows t,
    compare_costs set_iter p1 p2 = Ok rows /\
    print_comparison_table rows title = Ok t /\
    NoDup (map service rows) /\
    (forall k, In k (map service rows) <->
               In k (keys p1) \/ In k (keys p2)) /\
    (forall r, In r rows ->
               period1 r = get_default p1 (service r) 0 /\
               period2 r = get_default p2 (service r) 0) /\
    (forall k, In k (keys p1) \/ In k (keys p2) ->
               get_default p1 k 0 = 0 -> get_default p2 k 0 = 20 ->
               exists r line,
                 In r rows /\ service r = k /\
                 period1 r = 0 /\ period2 r = 20 /\
                 format_pct (pct_change r) = "NEW" /\
                 In line (table_rows t) /\
                 line_service line = prefix_chars 39 k /\
                 line_change line = "NEW") /\
    (forall k, In k (keys p1) \/ In k (keys p2) ->
               get_default p1 k 0 = 20 -> get_default p2 k 0 = 0 ->
               exists r line,
                 In r rows /\ service r = k /\
                 period1 r = 20 /\ period2 r = 0 /\
                 pct_change r = (-100)%float /\
                 format_pct (pct_change r) = "-100.0%" /\
                 In line (table_rows t) /\
                 line_service line = prefix_chars 39 k /\
                 line_change line = "-100.0%") /\
    (forall k, In k (keys p1) \/ In k (keys p2) ->
               get_default p1 k 0 = 0 -> get_default p2 k 0 = 0 ->
               exists r,
                 In r rows /\ service r = k /\
                 period1 r = 0 /\ period2 r = 0 /\
                 negligible r = true) /\
    (forall r, In r rows -> period1 r = 0 -> period2 r = 20 ->
               format_pct (pct_change r) = "NEW") /\
    (forall r, In r rows -> period1 r = 20 -> period2 r = 0 ->
               pct_change r = (-100)%float /\
               format_pct (pct_change r) = "-100.0%") /\
    (forall r, In r rows -> period1 r = 0 -> period2 r = 0 ->
               negligible r = true) /\
    (forall line, In line (table_rows t) ->
                  ~ (line_period1 line = 0 /\ line_period2 line = 0)).
Proof.
  destruct (print_comparison_table_rows
              (sort_desc abs_diff
                 (map (row_of p1 p2) (all_services set_iter p1 p2))) title)
    as (t & Ht & Hrows).
  destruct (rows_services set_iter p1 p2 set_iter_perm) as [Hnodup Hkeys].
  assert (Hline : forall k,
             In k (keys p1) \/ In k (keys p2) ->
             negligible (row_of p1 p2 k) = false ->
             In (table_line_of (row_of p1 p2 k)) (table_rows t)).
  { intros k Hk Hn. rewrite Hrows. apply in_map. apply filter_In.
    split; [apply rows_cover; assumption|]. rewrite Hn. reflexivity. }
  eexists. exists t. split; [apply compare_costs_total|].
  split; [exact Ht|]. split; [exact Hnodup|]. split; [exact Hkeys|].
  split; [|split; [|split; [|split; [|split; [|split; [|split]]]]]].
  - intros r Hr. destruct (rows_shape _ _ _ _ Hr) as (H1 & H2 & _).
    auto.
  - intros k Hk H1 H2.
    exists (row_of p1 p2 k), (table_line_of (row_of p1 p2 k)).
    split; [apply rows_cover; assumption|].
    split; [reflexivity|]. split; [exact H1|]. split; [exact H2|].
    assert (F : format_pct (pct_change (row_of p1 p2 k)) = "NEW").
    { unfold row_of. simpl. rewrite H1, H2. vm_compute. reflexivity. }
    split; [exact F|]. split; [|split; [reflexivity|exact F]].
    apply Hline; [exact Hk|]. unfold negligible, row_of. simpl.
    rewrite H1, H2. vm_compute. reflexivity.
  - intros k Hk H1 H2.
    exists (row_of p1 p2 k), (table_line_of (row_of p1 p2 k)).
    split; [apply rows_cover; assumption|].
    split; [reflexivity|]. split; [exact H1|]. split; [exact H2|].
    assert (F : pct_change (row_of p1 p2 k) = (-100)%float /\
                format_pct (pct_change (row_of p1 p2 k)) = "-100.0%").
    { unfold row_of. simpl. rewrite H1, H2. split; vm_compute; reflexivity. }
    destruct F as [F1 F2].
    split; [exact F1|]. split; [exact F2|].
    split; [|split; [reflexivity|exact F2]].
    apply Hline; [exact Hk|]. unfold negligible, row_of. simpl.
    rewrite H1, H2. vm_compute. reflexivity.
  - intros k Hk H1 H2. exists (row_of p1 p2 k).
    split; [apply rows_cover; assumption|].
    split; [reflexivity|]. split; [exact H1|]. split; [exact H2|].
    unfold negligible, row_of. simpl. rewrite H1, H2.
    vm_compute. reflexivity.
  - intros r Hr H1 H2.
    destruct (rows_shape _ _ _ _ Hr) as (_ & _ & _ & ->).
    rewrite H1, H2. vm_compute. reflexivity.
  - intros r Hr H1 H2.
    destruct (rows_shape _ _ _ _ Hr) as (_ & _ & _ & ->).
    rewrite H1, H2. split; vm_compute; reflexivity.
  - intros r _ H1 H2. unfold negligible. rewrite H1, H2.
    vm_compute. reflexivity.
  - intros line Hline' [H1 H2]. rewrite Hrows in Hline'.
    apply in_map_iff in Hline'. destruct Hline' as (r & <- & Hr).
    apply filter_In in Hr. destruct Hr as [_ Hneg].
    simpl in H1, H2. unfold negligible in Hneg. rewrite H1, H2 in Hneg.
    vm_compute in Hneg. discriminate.
Qed.

Lemma zero_prior_amount_witness :
  (forall l : list string, Permutation ((fun l => l) l) l) /\
  exists rows t,
    compare_costs (fun l => l)
                  [("Started", 0); ("Stopped", 20); ("Idle", 0)]
                  [("Started", 20); ("Stopped", 0); ("Idle", 0)]
    = Ok rows /\
    print_comparison_table rows "OVERALL - ALL ACCOUNTS" = Ok t /\
    map (fun r => (service r, format_pct (pct_change r))) rows
    = [("Started", "NEW"); ("Stopped", "-100.0%"); ("Idle", "+0.0%")] /\
    map (fun line => (line_service line, line_change line)) (table_rows t)
    = [("Started", "NEW"); ("Stopped", "-100.0%")].
Proof.
  split; [intros l; apply Permutation_refl|].
  destruct (zero_prior_amount_never_faults
              (fun l => l) (fun l => Permutation_refl l)
              [("Started", 0); ("Stopped", 20); ("Idle", 0)]
              [("Started", 20); ("Stopped", 0); ("Idle", 0)]
              "OVERALL - ALL ACCOUNTS")
    as (rows & t & H1 & H2 & _).
  exists rows, t. split; [exact H1|]. split; [exact H2|].
  vm_compute in H1. injection H1 as <-.
  vm_compute in H2. injection H2 as <-.
  split; vm_compute; reflexivity.
Defined.

(** C1, as stated, fails: a service that costs 20 in period 1 and 0 in
    period 2 is printed with "-100.0%", not with "REMOVED". *)
Lemma removed_marker_counterexample :
  exists rows t,
    compare_costs (fun l => l) [("EC2", 20)] [("EC2", 0)] = Ok rows /\
    map (fun r => (period1 r, period2 r)) rows = [(20, 0)] /\
    print_comparison_table rows "OVERALL - ALL ACCOUNTS" = Ok t /\
    map line_change (table_rows t) = ["-100.0%"] /\
    map line_change (table_rows t) <> ["REMOVED"].
Proof.
  eexists. eexists. split; [vm_compute; reflexivity|].
  split; [reflexivity|]. split; [vm_compute; reflexivity|].
  split; [reflexivity|]. simpl. discriminate.
Qed.



Lemma row_of_swapped p1 p2 svc : swapped (row_of p1 p2 svc) (row_of p2 p1 svc).
Proof.
  unfold swapped, row_of. simpl. repeat split.
  - apply sub_swap_abs.
  - apply sub_swap_opp.
  - apply sub_swap_zero.
Qed.

(** C8: exchanging the two periods keeps the magnitude of every row's
    difference and negates its sign.  Comparing (10, 15) gives diff +5 and
    "+50.0%"; comparing (15, 10) gives diff -5 and "-33.3%". *)
Theorem swapping_periods_negates_diff
    (set_iter : list string -> list string)
    (set_iter_perm : forall l, Permutation (set_iter l) l)
    (p1 p2 : dict float) :
  exists rows rows',
    compare_costs set_iter p1 p2 = Ok rows /\
    compare_costs set_iter p2 p1 = Ok rows' /\
    (forall r, In r rows -> exists r', In r' rows' /\ swapped r r') /\
    compare_costs set_iter [("EC2", 10)] [("EC2", 15)]
    = Ok [ {| service := "EC2"; period1 := 10; period2 := 15;
              diff := 5; pct_change := 50 |} ] /\
    format_pct 50 = "+50.0%" /\
    (exists pct,
       compare_costs set_iter [("EC2", 15)] [("EC2", 10)]
       = Ok [ {| service := "EC2"; period1 := 15; period2 := 10;
                 diff := -5; pct_change := pct |} ] /\
       format_pct pct = "-33.3%").
Proof.
  eexists. eexists.
  split; [apply compare_costs_total|].
  split; [apply compare_costs_total|].
  split; [|split; [|split]].
  - intros r Hr. rewrite (compare_costs_row set_iter p1 p2 r Hr).
    exists (row_of p2 p1 (service r)). split; [|apply row_of_swapped].
    apply sort_desc_In, in_map.
    apply sort_desc_In, in_map_iff in Hr. destruct Hr as (svc & <- & Hsvc).
    simpl. apply (all_services_In set_iter set_iter_perm) in Hsvc.
    apply (all_services_In set_iter set_iter_perm). tauto.
  - rewrite compare_costs_total, singleton_services by exact set_iter_perm.
    vm_compute. reflexivity.
  - vm_compute. reflexivity.
  - eexists. rewrite compare_costs_total, singleton_services
      by exact set_iter_perm.
    split; vm_compute; reflexivity.
Qed.

Lemma swapping_periods_witness :
  (forall l : list string, Permutation ((fun l => l) l) l) /\
  exists rows rows',
    compare_costs (fun l => l) [("EC2", 10); ("S3", 4)]
                  [("EC2", 15); ("RDS", 7)] = Ok rows /\
    compare_costs (fun l => l) [("EC2", 15); ("RDS", 7)]
                  [("EC2", 10); ("S3", 4)] = Ok rows' /\
    (forall r, In r rows -> exists r', In r' rows' /\ swapped r r').
Proof.
  split.
  - intros l. apply Permutation_refl.
  - destruct (swapping_periods_negates_diff
                (fun l => l) (fun l => Permutation_refl l)
                [("EC2", 10); ("S3", 4)] [("EC2", 15); ("RDS", 7)])
      as (rows & rows' & H1 & H2 & H3 & _).
    exists rows, rows'. auto.
Defined.

(** C9: on cost mappings with finite amounts, the comparator returns
    exactly one row for each key of the union of the two key sets and no
    other row; the amounts of a row are those of the two mappings (0.0 for
    an absent key), its difference is period2 minus period1, and the rows
    are sorted by descending absolute difference. *)
Theorem compare_costs_rows_sorted
    (set_iter : list string -> list string)
    (set_iter_perm : forall l, Permutation (set_iter l) l)
    (p1 p2 : dict float) :
  finite_costs p1 -> finite_costs p2 ->
  exists rows,
    compare_costs set_iter p1 p2 = Ok rows /\
    NoDup (map service rows) /\
    (forall k, In k (map service rows) <-> In k (keys p1) \/ In k (keys p2)) /\
    (forall r, In r rows ->
               period1 r = get_default p1 (service r) 0 /\
               period2 r = get_default p2 (service r) 0 /\
               diff r = period2 r - period1 r) /\
    StronglySorted (fun a b => (abs (diff b) <=? abs (diff a)) = true) rows.
Proof.
  intros Hf1 Hf2. eexists. split; [apply compare_costs_total|].
  pose proof (services_of_rows set_iter p1 p2) as Hperm.
  split; [|split; [|split]].
  - apply (Permutation_NoDup (Permutation_sym Hperm)).
    apply all_services_NoDup. exact set_iter_perm.
  - intros k. rewrite <- (all_services_In set_iter set_iter_perm). split.
    + apply Permutation_in. exact Hperm.
    + apply Permutation_in, Permutation_sym. exact Hperm.
  - intros r Hr. destruct (rows_shape _ _ _ _ Hr) as (H1 & H2 & H3 & _).
    auto.
  - apply (sort_desc_sorted abs_diff). apply Forall_forall.
    intros r Hr. apply in_map_iff in Hr. destruct Hr as (svc & <- & _).
    apply row_of_diff_not_nan; assumption.
Qed.

Lemma compare_costs_rows_sorted_witness :
  (forall l : list string, Permutation ((fun l => l) l) l) /\
  finite_costs [("EC2", 10); ("S3", 4)] /\
  finite_costs [("EC2", 15); ("RDS", 7)] /\
  exists rows,
    compare_costs (fun l => l) [("EC2", 10); ("S3", 4)]
                  [("EC2", 15); ("RDS", 7)] = Ok rows /\
    map service rows = ["RDS"; "EC2"; "S3"] /\
    StronglySorted (fun a b => (abs (diff b) <=? abs (diff a)) = true) rows.
Proof.
  assert (F1 : finite_costs [("EC2", 10); ("S3", 4)]).
  { repeat constructor. }
  assert (F2 : finite_costs [("EC2", 15); ("RDS", 7)]).
  { repeat constructor. }
  split; [intros l; apply Permutation_refl|].
  split; [exact F1|]. split; [exact F2|].
  destruct (compare_costs_rows_sorted
              (fun l => l) (fun l => Permutation_refl l)
              [("EC2", 10); ("S3", 4)] [("EC2", 15); ("RDS", 7)] F1 F2)
    as (rows & H1 & _ & _ & _ & H5).
  exists rows. split; [exact H1|]. split; [|exact H5].
  vm_compute in H1. injection H1 as <-. reflexivity.
Defined.

End ComparatorSpec.


(** ** Facts on dictionaries *)

Module DictFacts.

Section Dict.
Context {V : Type}.
Implicit Types (d : dict V) (k : string) (v : V).

Lemma get_setitem d k v k' :
  get (setitem d k v) k' = if String.eqb k k' then Some v else get d k'.
Proof.
  induction d as [|[k0 v0] rest IH]; simpl.
  - reflexivity.
  - destruct (String.eqb k0 k) eqn:E0; simpl.
    + apply String.eqb_eq in E0. subst k0.
      destruct (String.eqb k k'); reflexivity.
    + rewrite IH. destruct (String.eqb k0 k') eqn:E1; [|reflexivity].
      apply String.eqb_eq in E1. subst k0.
      rewrite String.eqb_sym, E0. reflexivity.
Qed.

Lemma get_default_setitem d k v k' default :
  get_default (setitem d k v) k' default
  = if String.eqb k k' then v else get_default d k' default.
Proof.
  unfold get_default. rewrite get_setitem.
  destruct (String.eqb k k'); reflexivity.
Qed.

Lemma keys_setitem_In d k v k' :
  In k' (keys (setitem d k v)) <-> k' = k \/ In k' (keys d).
Proof.
  induction d as [|[k0 v0] rest IH]; simpl.
  - intuition.
  - destruct (String.eqb k0 k) eqn:E0; simpl.
    + apply String.eqb_eq in E0. subst k0. intuition.
    + unfold keys in IH. rewrite IH. intuition.
Qed.

Lemma keys_setitem_NoDup d k v :
  NoDup (keys d) -> NoDup (keys (setitem d k v)).
Proof.
  induction d as [|[k0 v0] rest IH]; simpl; intros Hd.
  - constructor; [simpl; tauto|constructor].
  - inversion Hd as [|? ? Hk0 Hrest]; subst.
    destruct (String.eqb k0 k) eqn:E0; simpl.
    + constructor; assumption.
    + constructor; [|apply IH; exact Hrest].
      intros Hin. apply keys_setitem_In in Hin. destruct Hin as [->|Hin].
      * rewrite String.eqb_refl in E0. discriminate.
      * apply Hk0. exact Hin.
Qed.

Lemma get_In d k v : NoDup (keys d) -> In (k, v) d -> get d k = Some v.
Proof.
  induction d as [|[k0 v0] rest IH]; simpl; intros Hd Hin.
  - contradiction.
  - inversion Hd as [|? ? Hk0 Hrest]; subst.
    destruct Hin as [E|Hin].
    + injection E as -> ->. rewrite String.eqb_refl. reflexivity.
    + destruct (String.eqb k0 k) eqn:E0.
      * apply String.eqb_eq in E0. subst k0. exfalso. apply Hk0.
        apply (in_map fst) in Hin. exact Hin.
      * apply IH; assumption.
Qed.

Lemma get_Some_In d k v : get d k = Some v -> In (k, v) d.
Proof.
  induction d as [|[k0 v0] rest IH]; simpl; intros H.
  - discriminate.
  - destruct (String.eqb k0 k) eqn:E0.
    + apply String.eqb_eq in E0. injection H as ->. subst. auto.
    + auto.
Qed.

Lemma get_None_keys d k : get d k = None <-> ~ In k (keys d).
Proof.
  induction d as [|[k0 v0] rest IH]; simpl.
  - intuition.
  - destruct (String.eqb k0 k) eqn:E0.
    + apply String.eqb_eq in E0. subst. split; [discriminate|intuition].
    + apply String.eqb_neq in E0. unfold keys in IH. rewrite IH. intuition.
Qed.
End Dict.

End DictFacts.


(** ** Pagination and the account catalog *)

Module PaginationFacts.

Import DictFacts.
Open Scope list_scope.

Lemma token_kwarg_truthy t : truthy t = true -> token_kwarg t = t.
Proof. unfold token_kwarg. intros ->. reflexivity. Qed.

(** On a chain the loop reads every page of the chain and no page after
    it; the first request carries no cursor and each later request carries
    the cursor of the page before. *)
Lemma paginate_chain {P S : Type} (next_token : P -> option string)
    (body : S -> P -> S) (pages extra : list P) :
  cursor_chain next_token pages = true ->
  forall token state,
    paginate next_token body (pages ++ extra) token state
    = (Ok (fold_left body pages state), extra,
       token_kwarg token :: map next_token (removelast pages)).
Proof.
  induction pages as [|p rest IH]; intros Hchain token state.
  - discriminate.
  - destruct rest as [|q rest'].
    + simpl in Hchain. apply negb_true_iff in Hchain.
      simpl. rewrite Hchain. reflexivity.
    + change (cursor_chain next_token (p :: q :: rest'))
        with (truthy (next_token p) && cursor_chain next_token (q :: rest'))
        in Hchain.
      apply andb_true_iff in Hchain. destruct Hchain as [Hp Hrest].
      change ((p :: q :: rest') ++ extra)%list
        with (p :: ((q :: rest') ++ extra))%list.
      cbn [paginate]. rewrite Hp.
      rewrite (IH Hrest (next_token p) (body state p)).
      rewrite (token_kwarg_truthy _ Hp). reflexivity.
Qed.

Lemma append_accounts_fold pages accounts :
  fold_left append_accounts pages accounts
  = accounts ++ catalog_entries pages.
Proof.
  revert accounts. induction pages as [|p rest IH]; intros accounts.
  - simpl. rewrite app_nil_r. reflexivity.
  - simpl. rewrite IH. unfold append_accounts, catalog_entries. simpl.
    rewrite flat_map_app, app_assoc. reflexivity.
Qed.

(** *** First-seen de-duplication *)

Lemma dedup_seen_get seen accounts aid :
  get (dedup_seen seen accounts) aid
  = if existsb (String.eqb aid) seen then None else get accounts aid.
Proof.
  revert seen. induction accounts as [|[a n] rest IH]; intros seen; simpl.
  - destruct (existsb (String.eqb aid) seen); reflexivity.
  - destruct (existsb (String.eqb a) seen) eqn:Ea.
    + rewrite IH. destruct (existsb (String.eqb aid) seen) eqn:Es;
        [reflexivity|].
      destruct (String.eqb a aid) eqn:E; [|reflexivity].
      apply String.eqb_eq in E. subst. congruence.
    + simpl. destruct (String.eqb a aid) eqn:E.
      * apply String.eqb_eq in E. subst. rewrite Ea. reflexivity.
      * rewrite IH. simpl. rewrite (String.eqb_sym aid a), E. reflexivity.
Qed.

Lemma dedup_seen_keys seen accounts aid :
  In aid (map fst (dedup_seen seen accounts)) ->
  existsb (String.eqb aid) seen = false /\ In aid (map fst accounts).
Proof.
  intros Hin.
  destruct (get (dedup_seen seen accounts) aid) eqn:G.
  - rewrite dedup_seen_get in G.
    destruct (existsb (String.eqb aid) seen); [discriminate|].
    split; [reflexivity|].
    apply get_Some_In in G. apply (in_map fst) in G. exact G.
  - apply get_None_keys in G. contradiction.
Qed.

Lemma dedup_seen_NoDup seen accounts :
  NoDup (map fst (dedup_seen seen accounts)).
Proof.
  revert seen. induction accounts as [|[a n] rest IH]; intros seen; simpl.
  - constructor.
  - destruct (existsb (String.eqb a) seen) eqn:Ea.
    + apply IH.
    + simpl. constructor; [|apply IH].
      intros Hin. apply dedup_seen_keys in Hin. destruct Hin as [Hs _].
      simpl in Hs. rewrite String.eqb_refl in Hs. discriminate.
Qed.

(** *** Last-written labels of the name dictionary *)

Lemma add_name_entries names v :
  AccountServiceCosts.add_name names v
  = fold_left set_entry (account_entry v) names.
Proof.
  unfold AccountServiceCosts.add_name, account_entry.
  destruct (Value v) as [aid|]; [|reflexivity].
  destruct (truthy_str aid); reflexivity.
Qed.

Lemma add_names_entries pages names :
  fold_left AccountServiceCosts.add_names pages names
  = fold_left set_entry (catalog_entries pages) names.
Proof.
  revert names. induction pages as [|p rest IH]; intros names.
  - reflexivity.
  - simpl. rewrite IH. unfold catalog_entries. simpl.
    rewrite flat_map_app, fold_left_app. f_equal.
    unfold AccountServiceCosts.add_names.
    generalize (DimensionValues p). intros vs. revert names.
    induction vs as [|v vs IHvs]; intros names; simpl.
    + reflexivity.
    + rewrite fold_left_app, <- add_name_entries. apply IHvs.
Qed.

Lemma set_entries_get entries names aid :
  get (fold_left set_entry entries names) aid
  = match get (rev entries) aid with
    | Some label => Some label
    | None => get names aid
    end.
Proof.
  revert names. induction entries as [|[a n] rest IH]; intros names.
  - reflexivity.
  - simpl. rewrite IH. unfold set_entry. simpl.
    rewrite get_setitem.
    assert (Happ : forall (l1 l2 : dict (option string)),
               get (l1 ++ l2)%list aid
               = match get l1 aid with
                 | Some x => Some x
                 | None => get l2 aid
                 end).
    { induction l1 as [|[k0 v0] l1 IH1]; intros l2; simpl.
      - reflexivity.
      - destruct (String.eqb k0 aid); [reflexivity|apply IH1]. }
    rewrite Happ. simpl.
    destruct (get (rev rest) aid); [reflexivity|].
    destruct (String.eqb a aid); reflexivity.
Qed.

Lemma set_entries_NoDup entries names :
  NoDup (keys names) -> NoDup (keys (fold_left set_entry entries names)).
Proof.
  revert names. induction entries as [|e rest IH]; intros names Hn; simpl.
  - exact Hn.
  - apply IH. unfold set_entry. apply keys_setitem_NoDup. exact Hn.
Qed.

End PaginationFacts.


Module FetcherSpec.

Import DictFacts PaginationFacts.
Open Scope string_scope.
Open Scope list_scope.

Lemma linked_accounts_chain days ce pages extra :
  dimension_pages ce = pages ++ extra ->
  cursor_chain DV_NextPageToken pages = true ->
  linked_accounts days ce
  = (Ok (dedup (catalog_entries pages)),
     {| dimension_pages := extra;
        service_pages := service_pages ce;
        account_service_pages := account_service_pages ce;
        requests :=
          requests ce
          ++ map (GetDimensionValues (LastDays days))
                 (None :: map DV_NextPageToken (removelast pages)) |}).
Proof.
  intros Hpages Hchain. unfold linked_accounts.
  rewrite Hpages, (paginate_chain _ _ _ _ Hchain).
  rewrite append_accounts_fold. reflexivity.
Qed.

(** On scripts that are chains, [get_account_service_costs] reads every
    page of both chains, none after them, and aggregates all their groups. *)
Lemma get_account_service_costs_chain ce dpages dextra cpages cextra :
  dimension_pages ce = dpages ++ dextra ->
  cursor_chain DV_NextPageToken dpages = true ->
  account_service_pages ce = cpages ++ cextra ->
  cursor_chain (@CU_NextPageToken _) cpages = true ->
  AccountServiceCosts.get_account_service_costs ce
  = (Ok (fold_left AccountServiceCosts.add_page cpages
                   AccountServiceCosts.empty_aggregation,
         fold_left AccountServiceCosts.add_names dpages []),
     {| dimension_pages := dextra;
        service_pages := service_pages ce;
        account_service_pages := cextra;
        requests :=
          requests ce
          ++ map (GetDimensionValues (LastDays 30))
                 (None :: map DV_NextPageToken (removelast dpages))
          ++ map AccountServiceCosts.cost_request
                 (None :: map (@CU_NextPageToken _) (removelast cpages)) |}).
Proof.
  intros Hd Hdc Hc Hcc. unfold AccountServiceCosts.get_account_service_costs.
  rewrite Hd, (paginate_chain _ _ _ _ Hdc).
  rewrite Hc, (paginate_chain _ _ _ _ Hcc). reflexivity.
Qed.

(** C4, at the input on which it fails: [get_service_costs] sends a single
    request and reads a single page whatever cursor that page carries.  On
    a first page with a cursor and the service EC2, followed by a last page
    with the service S3, it returns the totals of the first page only and
    leaves the second page unrequested. *)
Theorem get_service_costs_reads_one_page
    (d1 d2 : date) (account : option string)
    (dims : list dimension_values_response)
    (first : cost_and_usage_response string)
    (rest : list (cost_and_usage_response string))
    (pairs : list (cost_and_usage_response (string * string)))
    (sent : list request) :
  AwsCostCompare.get_service_costs d1 d2 account
    {| dimension_pages := dims; service_pages := first :: rest;
       account_service_pages := pairs; requests := sent |}
  = (Ok (AwsCostCompare.service_totals_of first),
     {| dimension_pages := dims; service_pages := rest;
        account_service_pages := pairs;
        requests :=
          sent ++ [GetCostAndUsage (Between d1 d2) "MONTHLY" ["SERVICE"]
                     (if truthy account then account else None) None] |})
  /\
  (let page1 :=
     {| ResultsByTime := [[ {| Keys := "EC2"; Amount := 100 |} ]];
        CU_NextPageToken := Some "page-2" |} in
   let page2 :=
     {| ResultsByTime := [[ {| Keys := "S3"; Amount := 50 |} ]];
        CU_NextPageToken := None |} in
   cursor_chain (@CU_NextPageToken _) [page1; page2] = true /\
   exists ce',
     AwsCostCompare.get_service_costs d1 d2 None
       {| dimension_pages := []; service_pages := [page1; page2];
          account_service_pages := []; requests := [] |}
     = (Ok [("EC2", 100%float)], ce') /\
     service_pages ce' = [page2] /\
     List.length (requests ce') = 1%nat).
Proof.
  split; [reflexivity|].
  split; [reflexivity|]. eexists. split; [reflexivity|].
  split; reflexivity.
Qed.

(** C5 (amended): on a catalog script that is a chain, the account list of
    [get_linked_accounts] and of [get_linked_accounts_ce] has one entry for
    each identifier of the script, with the label seen first; the name
    dictionary of [get_account_service_costs] has one entry for each
    identifier, with the label seen last. *)
Theorem catalog_merge_keeps_one_entry
    (ce : client)
    (pages extra : list dimension_values_response)
    (cpages cextra : list (cost_and_usage_response (string * string))) :
  dimension_pages ce = pages ++ extra ->
  cursor_chain DV_NextPageToken pages = true ->
  account_service_pages ce = cpages ++ cextra ->
  cursor_chain (@CU_NextPageToken _) cpages = true ->
  exists accounts ce1 ce2 agg names ce3,
    AwsCostCompare.get_linked_accounts ce = (Ok accounts, ce1) /\
    AwsCost.get_linked_accounts_ce ce = (Ok accounts, ce2) /\
    NoDup (map fst accounts) /\
    (forall aid, get accounts aid = get (catalog_entries pages) aid) /\
    AccountServiceCosts.get_account_service_costs ce
    = (Ok (agg, names), ce3) /\
    NoDup (keys names) /\
    (forall aid, get names aid = get (rev (catalog_entries pages)) aid).
Proof.
  intros Hd Hdc Hc Hcc.
  do 6 eexists.
  split; [apply (linked_accounts_chain 90 ce pages extra Hd Hdc)|].
  split; [apply (linked_accounts_chain 30 ce pages extra Hd Hdc)|].
  split; [apply dedup_seen_NoDup|].
  split; [intros aid; apply (dedup_seen_get [] _ aid)|].
  split; [apply (get_account_service_costs_chain ce _ _ _ _ Hd Hdc Hc Hcc)|].
  rewrite add_names_entries. split.
  - apply set_entries_NoDup. constructor.
  - intros aid. rewrite set_entries_get. simpl.
    destruct (get (rev (catalog_entries pages)) aid); reflexivity.
Qed.

Lemma catalog_merge_witness :
  dimension_pages renamed_client = renamed_catalog ++ [] /\
  cursor_chain DV_NextPageToken renamed_catalog = true /\
  account_service_pages renamed_client = no_costs ++ [] /\
  cursor_chain (@CU_NextPageToken _) no_costs = true /\
  exists accounts ce1,
    AwsCostCompare.get_linked_accounts renamed_client = (Ok accounts, ce1) /\
    NoDup (map fst accounts) /\
    get accounts "111" = Some (Some "Prod").
Proof.
  split; [reflexivity|]. split; [reflexivity|].
  split; [reflexivity|]. split; [reflexivity|].
  destruct (catalog_merge_keeps_one_entry
              renamed_client renamed_catalog [] no_costs []
              eq_refl eq_refl eq_refl eq_refl)
    as (accounts & ce1 & _ & _ & _ & _ & H1 & _ & H3 & H4 & _).
  exists accounts, ce1. split; [exact H1|]. split; [exact H3|].
  rewrite H4. reflexivity.
Defined.

(** C5, as stated, fails for the name dictionary of
    [get_account_service_costs]: the identifier 111 is seen first as "Prod"
    and the single entry kept for it is labelled "Prod-renamed". *)
Lemma first_seen_label_counterexample :
  get (catalog_entries renamed_catalog) "111" = Some (Some "Prod") /\
  exists agg ce',
    AccountServiceCosts.get_account_service_costs renamed_client
    = (Ok (agg, [("111", Some "Prod-renamed")]), ce').
Proof.
  split; [reflexivity|]. eexists. eexists. reflexivity.
Qed.

End FetcherSpec.


(** ** The aggregator *)

Module AggregatorFacts.

Import DictFacts AccountServiceCosts.
Open Scope string_scope.
Open Scope list_scope.
Open Scope float_scope.

Lemma accumulate_fold xs v :
  fold_left accumulate xs (Some v) = Some (fold_left add xs v).
Proof.
  revert v. induction xs as [|x xs IH]; intros v; simpl.
  - reflexivity.
  - apply IH.
Qed.

Lemma accumulate_from_nothing xs :
  fold_left accumulate xs None = sum_or_absent xs.
Proof.
  destruct xs as [|x xs]; simpl.
  - reflexivity.
  - apply accumulate_fold.
Qed.

Lemma get_iadd d k x k' :
  get (iadd d k x) k'
  = if String.eqb k k' then accumulate (get d k) x else get d k'.
Proof.
  unfold iadd. rewrite get_setitem.
  destruct (String.eqb k k'); [|reflexivity].
  unfold accumulate, get_default. destruct (get d k); reflexivity.
Qed.

Lemma lookup2_iadd2 d a s x a' s' :
  lookup2 (iadd2 d a s x) a' s'
  = if String.eqb a a' && String.eqb s s'
    then accumulate (lookup2 d a s) x
    else lookup2 d a' s'.
Proof.
  unfold lookup2, iadd2. rewrite get_default_setitem.
  destruct (String.eqb a a') eqn:Ea; simpl.
  - apply String.eqb_eq in Ea. subst a'. rewrite get_iadd.
    destruct (String.eqb s s') eqn:Es; [|reflexivity].
    apply String.eqb_eq in Es. subst s'. reflexivity.
  - reflexivity.
Qed.

Lemma keys_iadd_NoDup d k x : NoDup (keys d) -> NoDup (keys (iadd d k x)).
Proof. apply keys_setitem_NoDup. Qed.

(** *** The state of [get_account_service_costs] after a sequence of groups *)

Lemma costs_after groups agg a s :
  lookup2 (costs (add_groups agg groups)) a s
  = fold_left accumulate (pair_contributions a s groups)
              (lookup2 (costs agg) a s).
Proof.
  unfold add_groups, pair_contributions. revert agg.
  induction groups as [|g gs IH]; intros agg; simpl.
  - reflexivity.
  - rewrite IH. unfold add_group.
    destruct (0 <? Amount g) eqn:Ep; simpl.
    + rewrite lookup2_iadd2, andb_true_r.
      destruct (String.eqb (fst (Keys g)) a) eqn:Ea; simpl;
        [|reflexivity].
      destruct (String.eqb (snd (Keys g)) s) eqn:Es; simpl;
        [|reflexivity].
      apply String.eqb_eq in Ea, Es. subst. reflexivity.
    + rewrite andb_false_r. reflexivity.
Qed.

Lemma account_totals_after groups agg a :
  get (account_totals (add_groups agg groups)) a
  = fold_left accumulate (account_contributions a groups)
              (get (account_totals agg) a).
Proof.
  unfold add_groups, account_contributions. revert agg.
  induction groups as [|g gs IH]; intros agg; simpl.
  - reflexivity.
  - rewrite IH. unfold add_group.
    destruct (0 <? Amount g) eqn:Ep; simpl.
    + rewrite get_iadd, andb_true_r.
      destruct (String.eqb (fst (Keys g)) a) eqn:Ea; simpl;
        [|reflexivity].
      apply String.eqb_eq in Ea. subst. reflexivity.
    + rewrite andb_false_r. reflexivity.
Qed.

Lemma service_totals_after groups agg s :
  get (service_totals (add_groups agg groups)) s
  = fold_left accumulate (service_contributions s groups)
              (get (service_totals agg) s).
Proof.
  unfold add_groups, service_contributions. revert agg.
  induction groups as [|g gs IH]; intros agg; simpl.
  - reflexivity.
  - rewrite IH. unfold add_group.
    destruct (0 <? Amount g) eqn:Ep; simpl.
    + rewrite get_iadd, andb_true_r.
      destruct (String.eqb (snd (Keys g)) s) eqn:Es; simpl;
        [|reflexivity].
      apply String.eqb_eq in Es. subst. reflexivity.
    + rewrite andb_false_r. reflexivity.
Qed.

Lemma totals_NoDup groups agg :
  NoDup (keys (account_totals agg)) -> NoDup (keys (service_totals agg)) ->
  NoDup (keys (account_totals (add_groups agg groups))) /\
  NoDup (keys (service_totals (add_groups agg groups))).
Proof.
  unfold add_groups. revert agg.
  induction groups as [|g gs IH]; intros agg Ha Hs; simpl.
  - auto.
  - apply IH; unfold add_group; destruct (0 <? Amount g); simpl;
      auto using keys_iadd_NoDup.
Qed.

(** A total that is stored is the sum of a non-empty list of
    contributions. *)
Lemma stored_total xs total :
  sum_or_absent xs = Some total -> total = fold_left add xs 0.
Proof.
  destruct xs; simpl; [discriminate|]. intros H. injection H as <-.
  reflexivity.
Qed.

Lemma fold_left_concat {A B : Type} (f : A -> B -> A) (ls : list (list B)) a :
  fold_left (fun acc l => fold_left f l acc) ls a = fold_left f (List.concat ls) a.
Proof.
  revert a. induction ls as [|l ls IH]; intros a; simpl.
  - reflexivity.
  - rewrite IH, fold_left_app. reflexivity.
Qed.

Lemma add_pages_groups pages agg :
  fold_left add_page pages agg = add_groups agg (all_groups pages).
Proof.
  unfold add_groups, all_groups. revert agg.
  induction pages as [|p rest IH]; intros agg; simpl.
  - reflexivity.
  - rewrite IH, fold_left_app. f_equal.
    unfold add_page, add_groups. apply fold_left_concat.
Qed.

(** *** The totals of [get_service_costs] *)

Lemma service_costs_after groups totals s :
  get (fold_left AwsCostCompare.add_group groups totals) s
  = fold_left accumulate (all_contributions s groups) (get totals s).
Proof.
  unfold all_contributions. revert totals.
  induction groups as [|g gs IH]; intros totals; simpl.
  - reflexivity.
  - rewrite IH. unfold AwsCostCompare.add_group. rewrite get_iadd.
    destruct (String.eqb (Keys g) s) eqn:Es; simpl; [|reflexivity].
    apply String.eqb_eq in Es. subst. reflexivity.
Qed.

End AggregatorFacts.


Module AggregatorSpec.

Import DictFacts SortFacts PaginationFacts FetcherSpec.
Import AccountServiceCosts AggregatorFacts.
Open Scope string_scope.
Open Scope list_scope.
Open Scope float_scope.

(** On scripts that are chains, the aggregation that
    [get_account_service_costs] returns is the one of the groups of all
    pages, in order. *)
Lemma fetch_aggregates_all_pages ce dpages dextra cpages cextra :
  dimension_pages ce = dpages ++ dextra ->
  cursor_chain DV_NextPageToken dpages = true ->
  account_service_pages ce = cpages ++ cextra ->
  cursor_chain (@CU_NextPageToken _) cpages = true ->
  fst (get_account_service_costs ce)
  = Ok (add_groups empty_aggregation (all_groups cpages),
        fold_left add_names dpages []).
Proof.
  intros Hd Hdc Hc Hcc.
  rewrite (get_account_service_costs_chain ce _ _ _ _ Hd Hdc Hc Hcc).
  simpl. rewrite add_pages_groups. reflexivity.
Qed.

(** C2 (amended): after any sequence of fetched groups, the amount that
    [get_account_service_costs] stores for an account and service is the
    sum, in arrival order, of the strictly positive amounts of that pair;
    zero and negative amounts are dropped, and a pair without a positive
    amount has no entry: 5.0, -1.0, 3.0 give 8.0.  [get_service_costs]
    stores the sum of all amounts of a service, negative ones included
    (5.0, -1.0, 3.0 give 7.0), and [get_aws_service_totals_last_30_days]
    the sum of the amounts truncated to integers (7). *)
Theorem stored_amount_sums_positive_contributions
    (groups : list (group (string * string))) (a s : string)
    (response : cost_and_usage_response string) (svc : string) :
  lookup2 (costs (add_groups empty_aggregation groups)) a s
  = sum_or_absent (pair_contributions a s groups) /\
  lookup2
    (costs (add_groups empty_aggregation
              [cost "A" "Svc1" 5; cost "A" "Svc1" (-1); cost "A" "Svc1" 3]))
    "A" "Svc1"
  = Some 8 /\
  get (AwsCostCompare.service_totals_of response) svc
  = sum_or_absent
      (all_contributions svc (List.concat (ResultsByTime response))) /\
  AwsCostCompare.service_totals_of
    (one_bucket [service_cost "Svc1" 5; service_cost "Svc1" (-1);
                 service_cost "Svc1" 3])
  = [("Svc1", 7)] /\
  AwsCost.service_totals_of
    (one_bucket [service_cost "Svc1" 5; service_cost "Svc1" (-1);
                 service_cost "Svc1" 3])
  = Ok [("Svc1", 7%Z)].
Proof.
  split; [|split; [|split; [|split]]].
  - rewrite costs_after. apply accumulate_from_nothing.
  - vm_compute. reflexivity.
  - unfold AwsCostCompare.service_totals_of. rewrite fold_left_concat.
    rewrite service_costs_after. apply accumulate_from_nothing.
  - vm_compute. reflexivity.
  - vm_compute. reflexivity.
Qed.

(** C2, as stated, fails for [get_service_costs]: the contributions
    5.0, -1.0, 3.0 to one service are stored as 7.0, the refund being
    subtracted, not as 8.0. *)
Lemma refund_is_subtracted_counterexample :
  exists ce',
    AwsCostCompare.get_service_costs
      {| year := 2025; month := 1; day := 1 |}
      {| year := 2025; month := 1; day := 31 |} None
      {| dimension_pages := [];
         service_pages :=
           [one_bucket [service_cost "Svc1" 5; service_cost "Svc1" (-1);
                        service_cost "Svc1" 3]];
         account_service_pages := []; requests := [] |}
    = (Ok [("Svc1", 7)], ce') /\
    (7 =? 8) = false.
Proof. eexists. split; reflexivity. Qed.

(** *** The report of account_service_costs.py *)

Lemma map_top_n args {X Y : Type} (f : X -> Y) l :
  map f (top_n args l) = top_n args (map f l).
Proof.
  unfold top_n. destruct (0 <? top_services args)%Z; [|reflexivity].
  symmetry. apply firstn_map.
Qed.

Lemma service_names_top_n args agg :
  service_names args agg = top_n args (service_names (with_top 0 args) agg).
Proof.
  unfold service_names at 1. fold (top_n args (sort_desc snd (service_totals agg))).
  apply map_top_n.
Qed.

Lemma top_n_In args {X : Type} (x : X) l : In x (top_n args l) -> In x l.
Proof.
  unfold top_n. destruct (0 <? top_services args)%Z; [|auto].
  generalize (Z.to_nat (top_services args)). intros n. revert l.
  induction n as [|n IH]; intros [|y l]; simpl; try tauto.
  intros [->|H]; auto.
Qed.

Lemma service_names_In args agg svc :
  In svc (service_names args agg) -> In svc (keys (service_totals agg)).
Proof.
  rewrite service_names_top_n. intros H. apply top_n_In in H.
  unfold service_names in H. simpl in H.
  apply in_map_iff in H. destruct H as (st & <- & H).
  apply sort_desc_In in H. apply in_map. exact H.
Qed.

Lemma retained_accounts_In args agg at_ :
  In at_ (retained_accounts args agg) -> In at_ (account_totals agg).
Proof.
  unfold retained_accounts. rewrite sort_desc_In, filter_In. tauto.
Qed.

Lemma grand_total_of_sum accounts :
  grand_total_of accounts = fold_left add (map snd accounts) 0.
Proof.
  unfold grand_total_of. generalize 0. induction accounts as [|x xs IH];
    intros acc; simpl; [reflexivity|apply IH].
Qed.

Lemma Forall2_map_same {X Y Z : Type} (R : Y -> Z -> Prop)
    (f : X -> Y) (g : X -> Z) l :
  (forall x, In x l -> R (f x) (g x)) -> Forall2 R (map f l) (map g l).
Proof.
  induction l as [|x xs IH]; intros H; simpl; constructor.
  - apply H. simpl. auto.
  - apply IH. intros y Hy. apply H. simpl. auto.
Qed.

Lemma retained_total groups at_ args :
  In at_ (retained_accounts args (add_groups empty_aggregation groups)) ->
  snd at_ = fold_left add (account_contributions (fst at_) groups) 0.
Proof.
  intros H. apply retained_accounts_In in H. destruct at_ as [aid total].
  apply get_In in H.
  - rewrite account_totals_after, accumulate_from_nothing in H.
    apply stored_total in H. exact H.
  - apply (totals_NoDup groups empty_aggregation); constructor.
Qed.

Lemma service_total groups svc args :
  In svc (service_names args (add_groups empty_aggregation groups)) ->
  get_or_zero (service_totals (add_groups empty_aggregation groups)) svc
  = Float (fold_left add (service_contributions svc groups) 0).
Proof.
  intros H. apply service_names_In in H. unfold get_or_zero.
  destruct (get (service_totals (add_groups empty_aggregation groups)) svc)
    as [total|] eqn:G.
  - rewrite service_totals_after, accumulate_from_nothing in G.
    apply stored_total in G. rewrite G. reflexivity.
  - apply get_None_keys in G. contradiction.
Qed.

(** C3 (amended): the grand total of a report is the sum, in row order, of
    the totals of the accounts that pass the minimum filter, whatever the
    top-N setting; each service total shown is the sum of the positive
    amounts of that service over all accounts, whatever the minimum; the
    CSV total row carries the same values.  The minimum filter does lower
    the grand total, which therefore need not equal the sum of the service
    totals. *)
Theorem grand_total_sums_retained_accounts
    (groups : list (group (string * string)))
    (names : dict (option string)) (args : arguments) :
  match build_report args (add_groups empty_aggregation groups) names with
  | Some r =>
      footer_total (printed r)
      = fold_left add (map row_total (body (printed r))) 0 /\
      (forall n,
          grand_total_of
            (retained_accounts (with_top n args)
               (add_groups empty_aggregation groups))
          = footer_total (printed r)) /\
      footer_cells (printed r)
      = map (fun svc =>
               Float (fold_left add (service_contributions svc groups) 0))
            (header_services (printed r)) /\
      (forall m,
          service_names (with_min m args)
            (add_groups empty_aggregation groups)
          = header_services (printed r)) /\
      csv_total r
      = [Text "TOTAL"; Text "";
         Number (Round2 (Float (footer_total (printed r))))]
        ++ map (fun c => Number (Round2 c)) (footer_cells (printed r))
  | None =>
      retained_accounts args (add_groups empty_aggregation groups) = []
  end.
Proof.
  unfold build_report.
  set (agg := add_groups empty_aggregation groups).
  destruct (retained_accounts args agg) as [|at_ rest] eqn:Hacc;
    [reflexivity|].
  cbn [printed footer_total body footer_cells header_services csv_total].
  split; [|split; [|split; [|split]]].
  - rewrite grand_total_of_sum, map_map. reflexivity.
  - intros n. change (retained_accounts (with_top n args) agg)
      with (retained_accounts args agg).
    rewrite Hacc. reflexivity.
  - apply map_ext_in. intros svc Hsvc.
    apply (service_total groups svc args Hsvc).
  - intros m. reflexivity.
  - rewrite map_map. reflexivity.
Qed.

(** C3, as stated, fails: with account 111 spending 0.5 on EC2 and account
    222 spending 100 on S3, the default minimum of 1 drops account 111;
    the grand total is 100 while the service totals are 100 and 0.5, and
    without the filter the grand total is 100.5. *)
Lemma grand_total_counterexample :
  exists r r0,
    build_report
      {| top_services := 0; min_cost := 1; output := "out.csv" |}
      (add_groups empty_aggregation
         [cost "111" "EC2" 0.5; cost "222" "S3" 100]) []
    = Some r /\
    footer_total (printed r) = 100 /\
    footer_cells (printed r) = [Float 100; Float 0.5] /\
    (100 + 0.5 =? 100) = false /\
    build_report
      {| top_services := 0; min_cost := 0; output := "out.csv" |}
      (add_groups empty_aggregation
         [cost "111" "EC2" 0.5; cost "222" "S3" 100]) []
    = Some r0 /\
    footer_total (printed r0) = 100.5.
Proof.
  eexists. eexists. split; [vm_compute; reflexivity|].
  split; [reflexivity|]. split; [reflexivity|]. split; [reflexivity|].
  split; [vm_compute; reflexivity|]. reflexivity.
Qed.

(** Rounding alone separates the two sums as well: with no account
    filtered out and no truncation, amounts 0.1 and 0.2 of account A on
    EC2 and S3 and 0.4 of account B on EC2 give a grand total that differs
    from the sum of the service totals 0.5 and 0.2 in the last bit. *)
Example grand_total_rounding :
  exists r,
    build_report
      {| top_services := 0; min_cost := 0; output := "out.csv" |}
      (add_groups empty_aggregation
         [cost "A" "EC2" 0x1.999999999999ap-4;
          cost "A" "S3" 0x1.999999999999ap-3;
          cost "B" "EC2" 0x1.999999999999ap-2]) []
    = Some r /\
    map row_id (body (printed r)) = ["B"; "A"] /\
    footer_cells (printed r) = [Float 0.5; Float 0x1.999999999999ap-3] /\
    (footer_total (printed r) =? 0.5 + 0x1.999999999999ap-3) = false.
Proof.
  eexists. split; [vm_compute; reflexivity|].
  split; [reflexivity|]. split; reflexivity.
Qed.

(** C6: for every account of the report and every top-N setting, the
    printed total and the exported total are the account's full spend, the
    sum of all its positive amounts over all services.  Against the report
    without truncation, the top-N report has the same accounts, names and
    totals and the same grand total; its service columns, on screen and in
    the CSV file, are the first N of the untruncated ones. *)
Theorem account_total_is_full_spend
    (groups : list (group (string * string)))
    (names : dict (option string)) (args : arguments) :
  match build_report args (add_groups empty_aggregation groups) names,
        build_report (with_top 0 args)
                     (add_groups empty_aggregation groups) names
  with
  | Some r, Some r0 =>
      Forall (fun row =>
                row_total row
                = fold_left add (account_contributions (row_id row) groups) 0)
             (body (printed r)) /\
      Forall2 (fun row line =>
                 exists name,
                   firstn 3 line
                   = [Text name; Text (row_id row);
                      Number (Round2 (Float (row_total row)))])
              (body (printed r)) (csv_rows r) /\
      header_services (printed r) = top_n args (header_services (printed r0)) /\
      Forall2 (fun row row0 =>
                 row_name row = row_name row0 /\
                 row_id row = row_id row0 /\
                 row_total row = row_total row0 /\
                 row_cells row = top_n args (row_cells row0))
              (body (printed r)) (body (printed r0)) /\
      Forall2 (fun line line0 =>
                 line = firstn 3 line0 ++ top_n args (skipn 3 line0))
              (csv_rows r) (csv_rows r0) /\
      footer_total (printed r) = footer_total (printed r0)
  | None, None =>
      retained_accounts args (add_groups empty_aggregation groups) = []
  | _, _ => False
  end.
Proof.
  unfold build_report.
  set (agg := add_groups empty_aggregation groups).
  change (retained_accounts (with_top 0 args) agg)
    with (retained_accounts args agg).
  pose proof (retained_total groups) as Htotal. fold agg in Htotal.
  specialize (fun at_ => Htotal at_ args).
  rewrite (service_names_top_n args agg).
  generalize dependent (retained_accounts args agg).
  intros accounts Htotal.
  destruct accounts as [|at_ rest]; [reflexivity|].
  cbn [printed footer_total body header_services csv_rows].
  set (accounts := at_ :: rest) in *.
  split; [|split; [|split; [|split; [|split]]]].
  - apply Forall_forall. intros row Hrow. apply in_map_iff in Hrow.
    destruct Hrow as (x & <- & Hx). simpl. apply Htotal. exact Hx.
  - apply Forall2_map_same. intros x _. eexists. reflexivity.
  - reflexivity.
  - apply Forall2_map_same. intros x _. unfold printed_row_of. simpl.
    repeat split. rewrite map_top_n. reflexivity.
  - apply Forall2_map_same. intros x _. unfold csv_row_of. simpl.
    rewrite map_top_n. reflexivity.
  - reflexivity.
Qed.

End AggregatorSpec.


(** ** The date ranges of aws_cost_compare.py *)

Module ProgramSpec.

Import AwsCostCompare.
Open Scope string_scope.
Open Scope list_scope.

Lemma strptime_dmy_raises s e :
  strptime_dmy s = Raise e -> exists msg, e = ValueError msg.
Proof.
  unfold strptime_dmy, no_match.
  destruct (match_day s) as [[d s1]|]; [|intros H; injection H as <-; eauto].
  destruct (match_month s1) as [[m s2]|];
    [|intros H; injection H as <-; eauto].
  destruct (match_year s2) as [[y rest]|];
    [|intros H; injection H as <-; eauto].
  destruct (String.eqb rest ""); [|intros H; injection H as <-; eauto].
  destruct (d <=? days_in_month (century y) m)%Z; [discriminate|].
  intros H; injection H as <-; eauto.
Qed.

Lemma parse_date_range_raises s e :
  parse_date_range s = Raise e -> exists msg, e = ValueError msg.
Proof.
  unfold parse_date_range.
  destruct (PyStr.split s " to ") as [|p0 [|p1 [|p2 rest]]];
    try (intros H; injection H as <-; eauto; fail).
  destruct (strptime_dmy (strip p0)) as [d0|e0] eqn:E0; simpl.
  - destruct (strptime_dmy (strip p1)) as [d1|e1] eqn:E1; simpl.
    + discriminate.
    + intros H; injection H as <-. eapply strptime_dmy_raises; eassumption.
  - intros H; injection H as <-. eapply strptime_dmy_raises; eassumption.
Qed.

(** [parse_date_range] raises exactly on the malformed arguments. *)
Lemma parse_date_range_fails_iff s :
  malformed s <-> exists msg, parse_date_range s = Raise (ValueError msg).
Proof.
  unfold malformed, parse_date_range. split.
  - intros [Hlen|(part & e & Hin & Hpart)].
    + destruct (PyStr.split s " to ") as [|p0 [|p1 [|p2 rest]]];
        eauto. simpl in Hlen. congruence.
    + destruct (PyStr.split s " to ") as [|p0 [|p1 [|p2 rest]]];
        eauto.
      destruct (strptime_dmy (strip p0)) as [d0|e0] eqn:E0; simpl.
      * destruct (strptime_dmy (strip p1)) as [d1|e1] eqn:E1; simpl.
        -- simpl in Hin. destruct Hin as [<-|[<-|[]]]; congruence.
        -- destruct (strptime_dmy_raises _ _ E1) as [msg ->]. eauto.
      * destruct (strptime_dmy_raises _ _ E0) as [msg ->]. eauto.
  - intros [msg H].
    destruct (PyStr.split s " to ") as [|p0 [|p1 [|p2 rest]]];
      try (left; simpl; congruence).
    right.
    destruct (strptime_dmy (strip p0)) as [d0|e0] eqn:E0; simpl in H.
    + destruct (strptime_dmy (strip p1)) as [d1|e1] eqn:E1; simpl in H.
      * discriminate.
      * exists p1, e1. simpl. auto.
    + exists p0, e0. simpl. auto.
Qed.

(** With well-formed periods [main] does reach the client: on a catalog of
    one account and five cost pages it sends one catalog request and four
    cost requests, and returns 0. *)
Example main_runs_the_report :
  let page (groups : list (group string)) :=
    {| ResultsByTime := [groups]; CU_NextPageToken := None |} in
  let w :=
    {| ce :=
         {| dimension_pages :=
              [ {| DimensionValues :=
                     [ {| Value := Some "111"; Attributes := None |} ];
                   DV_NextPageToken := None |} ];
            service_pages :=
              [ page [ {| Keys := "EC2"; Amount := 10 |} ];
                page [ {| Keys := "EC2"; Amount := 15 |} ];
                page [ {| Keys := "EC2"; Amount := 10 |} ];
                page [ {| Keys := "EC2"; Amount := 15 |} ] ];
            account_service_pages := []; requests := [] |};
       stdout := []; files := []; host := willing |} in
  let run :=
    main (fun l => l)
      {| arg_period1 := "01-11-25 to 30-11-25";
         arg_period2 := "01-12-25 to 31-12-25";
         arg_profile := None; arg_output := "cost_comparison.csv" |} w in
  fst run = Ok 0%Z /\
  List.length (requests (ce (snd run))) = 5%nat /\
  map fst (files (snd run)) = ["cost_comparison.csv"].
Proof. vm_compute. repeat split. Qed.

(** C7: when a period argument is malformed, [main] prints the error of
    the parser and returns 1, the exit code of the program; it leaves the
    Cost Explorer client untouched, so no request has been sent, and it
    writes no file. *)
Theorem malformed_period_aborts
    (set_iter : list string -> list string) (args : arguments) (w : world) :
  malformed (arg_period1 args) \/ malformed (arg_period2 args) ->
  exists msg,
    (parse_date_range (arg_period1 args) = Raise (ValueError msg) \/
     parse_date_range (arg_period2 args) = Raise (ValueError msg)) /\
    main set_iter args w
    = (Ok 1%Z,
       {| ce := ce w;
          stdout := stdout w ++ [ErrorLine (ValueError msg)];
          files := files w; host := host w |}).
Proof.
  intros H. unfold main.
  destruct (parse_date_range (arg_period1 args)) as [range1|e1] eqn:E1.
  - destruct H as [H|H].
    + apply parse_date_range_fails_iff in H. destruct H as [msg H].
      congruence.
    + apply parse_date_range_fails_iff in H. destruct H as [msg H].
      rewrite H. simpl. exists msg. split; [auto|reflexivity].
  - destruct (parse_date_range_raises _ _ E1) as [msg ->].
    simpl. exists msg. split; [auto|reflexivity].
Qed.

Lemma malformed_period_witness :
  malformed "01-01-2025 to 31-01-2025" /\
  exists msg,
    main (fun l => l)
      {| arg_period1 := "01-11-25 to 30-11-25";
         arg_period2 := "01-01-2025 to 31-01-2025";
         arg_profile := None; arg_output := "cost_comparison.csv" |}
      {| ce := {| dimension_pages := []; service_pages := [];
                  account_service_pages := []; requests := [] |};
         stdout := []; files := []; host := willing |}
    = (Ok 1%Z,
       {| ce := {| dimension_pages := []; service_pages := [];
                   account_service_pages := []; requests := [] |};
          stdout := [ErrorLine (ValueError msg)]; files := [];
          host := willing |}).
Proof.
  assert (M : malformed "01-01-2025 to 31-01-2025").
  { right. exists "01-01-2025". eexists. split.
    - simpl. left. reflexivity.
    - reflexivity. }
  split; [exact M|].
  destruct (malformed_period_aborts
              (fun l => l)
              {| arg_period1 := "01-11-25 to 30-11-25";
                 arg_period2 := "01-01-2025 to 31-01-2025";
                 arg_profile := None; arg_output := "cost_comparison.csv" |}
              {| ce := {| dimension_pages := []; service_pages := [];
                          account_service_pages := []; requests := [] |};
                 stdout := []; files := []; host := willing |}
              (or_intror M)) as (msg & _ & Hmain).
  exists msg. exact Hmain.
Defined.

End ProgramSpec.

(** * Further properties *)

(** ** More facts on binary64 arithmetic *)

Module FloatFacts2.

Import FloatFacts.
Open Scope float_scope.

Lemma leb_ltb_negb x y :
  is_nan x = false -> is_nan y = false -> (x <=? y) = negb (y <? x).
Proof.
  rewrite !is_nan_spec, ltb_spec, leb_spec. unfold SFltb, SFleb.
  intros Hx Hy. rewrite (SFcompare_antisym (Prim2SF x) (Prim2SF y)).
  destruct (SFcompare_defined _ _ Hx Hy) as [c ->]. destruct c; reflexivity.
Qed.

Lemma is_finite_not_nan x : is_finite x = true -> is_nan x = false.
Proof.
  rewrite is_finite_spec, is_nan_spec. destruct (Prim2SF x); simpl; congruence.
Qed.

(** A finite amount minus itself is [+0.0]. *)
Lemma sub_diag x : is_finite x = true -> (x - x)%float = 0%float.
Proof.
  rewrite is_finite_spec. intros Hx. apply Prim2SF_inj.
  rewrite sub_spec. change (Prim2SF 0) with (S754_zero false).
  destruct (Prim2SF x) as [s|s| |s m e]; try discriminate.
  - destruct s; reflexivity.
  - unfold SF64sub, SFsub. rewrite Z.sub_diag. reflexivity.
Qed.

(** The sign of a strictly positive float is clear. *)
Lemma positive_spec x :
  (0 <? x) = true ->
  (exists m e, Prim2SF x = S754_finite false m e) \/
  Prim2SF x = S754_infinity false.
Proof.
  rewrite ltb_spec. change (Prim2SF 0) with (S754_zero false).
  unfold SFltb. destruct (Prim2SF x) as [s|s| |s m e]; simpl;
    try discriminate; destruct s; try discriminate; eauto.
Qed.

Lemma zero_ratio_percent x :
  is_finite x = true -> (0 <? x) = true -> (0 / x * 100)%float = 0%float.
Proof.
  rewrite is_finite_spec. intros Hf Hp. apply Prim2SF_inj.
  rewrite mul_spec, div_spec.
  destruct (positive_spec x Hp) as [(m & e & E)|E]; rewrite E in *;
    [|discriminate].
  reflexivity.
Qed.

(** *** Sums of positive amounts *)

Lemma binary_round_aux_plus pr em m e l :
  (0 <= m)%Z -> sf_plus (binary_round_aux pr em false m e l) = true.
Proof.
  intros Hm. unfold binary_round_aux.
  pose proof (shr_fexp_nonneg pr em m e l Hm) as H1.
  destruct (shr_fexp pr em m e l) as [mrs' e']. simpl in H1.
  pose proof (shr_fexp_nonneg pr em _ e' loc_Exact
                (round_nearest_even_nonneg _ (loc_of_shr_record mrs') H1))
    as H2.
  destruct (shr_fexp pr em
              (round_nearest_even (shr_m mrs') (loc_of_shr_record mrs'))
              e' loc_Exact) as [mrs'' e'']. simpl in H2.
  destruct (shr_m mrs''); try lia; try reflexivity.
  destruct (e'' <=? em - pr)%Z; reflexivity.
Qed.

Lemma SFadd_plus pr em x y :
  sf_plus x = true -> sf_plus y = true -> sf_plus (SFadd pr em x y) = true.
Proof.
  destruct x as [sx|sx| |sx mx ex], y as [sy|sy| |sy my ey]; simpl;
    try discriminate; destruct sx, sy; try discriminate; intros _ _;
    try reflexivity.
  unfold binary_normalize. simpl.
  unfold binary_round.
  match goal with
  | |- context [shl_align ?a ?b ?c] => destruct (shl_align a b c)
  end. apply binary_round_aux_plus. lia.
Qed.

Lemma positive_plus x : (0 <? x) = true -> sf_plus (Prim2SF x) = true.
Proof.
  intros H. destruct (positive_spec x H) as [(m & e & ->)| ->]; reflexivity.
Qed.

Lemma plus_not_nan x : sf_plus (Prim2SF x) = true -> is_nan x = false.
Proof.
  rewrite is_nan_spec. destruct (Prim2SF x); simpl; congruence.
Qed.

Lemma sum_of_positives_plus xs v :
  Forall (fun x => (0 <? x) = true) xs ->
  sf_plus (Prim2SF v) = true ->
  sf_plus (Prim2SF (fold_left add xs v)) = true.
Proof.
  intros H. revert v. induction H as [|x xs Hx _ IH]; intros v Hv; simpl.
  - exact Hv.
  - apply IH. rewrite add_spec. apply SFadd_plus; [exact Hv|].
    apply positive_plus. exact Hx.
Qed.

End FloatFacts2.

(** ** More on the comparator *)

Module ComparatorExtras.

Import FloatFacts FloatFacts2 SortFacts AwsCostCompare ComparatorFacts.
Open Scope string_scope.
Open Scope float_scope.

Lemma format_plus_1f_sign x :
  exists sign digits,
    format_plus_1f x = String sign digits /\ (sign = "+"%char \/ sign = "-"%char).
Proof.
  unfold format_plus_1f.
  destruct (Prim2SF x) as [s|s| |s m e]; try destruct s; simpl; eauto.
Qed.

(** X1: [format_pct] prints "NEW" exactly for +infinity, "REMOVED" exactly
    for -infinity and for changes below -1000%, and in every other case a
    text that starts with a sign and ends with the percent character. *)
Theorem format_pct_markers (pct : float) :
  (format_pct pct = "NEW" <-> (pct =? infinity) = true) /\
  (format_pct pct = "REMOVED" <->
     (pct =? infinity) = false /\
     ((pct =? neg_infinity) || ((pct <? 0) && (1000 <? abs pct))) = true) /\
  (format_pct pct = "NEW" \/ format_pct pct = "REMOVED" \/
   exists sign digits,
     format_pct pct = String sign (digits ++ "%") /\
     (sign = "+"%char \/ sign = "-"%char)).
Proof.
  unfold format_pct.
  destruct (format_plus_1f_sign pct) as (sign & digits & E & Hsign).
  destruct (pct =? infinity).
  - repeat split; auto; try discriminate. intros [H _]. discriminate.
  - destruct ((pct =? neg_infinity) || ((pct <? 0) && (1000 <? abs pct))).
    + repeat split; auto; discriminate.
    + rewrite E. simpl. repeat split; try discriminate.
      * destruct Hsign as [-> | ->]; discriminate.
      * destruct Hsign as [-> | ->]; discriminate.
      * intros [_ H]. discriminate.
      * right. right. eauto.
Qed.

Lemma pct_of_diag c : is_finite c = true -> pct_of c c = 0.
Proof.
  intros Hc. unfold pct_of. destruct (0 <? c) eqn:E; [|reflexivity].
  rewrite (sub_diag c Hc). apply zero_ratio_percent; assumption.
Qed.

(** X2: comparing a cost mapping with finite amounts against itself gives
    exactly one row for each service of the mapping, and every row has the
    amount of the mapping in both periods, the difference 0.0 and the
    percent change 0.0, printed "+0.0%". *)
Theorem comparing_a_period_with_itself
    (set_iter : list string -> list string)
    (set_iter_perm : forall l, Permutation (set_iter l) l)
    (p : dict float) :
  finite_costs p ->
  exists rows,
    compare_costs set_iter p p = Ok rows /\
    NoDup (map service rows) /\
    (forall k, In k (map service rows) <-> In k (keys p)) /\
    (forall k, In k (keys p) ->
               exists r,
                 In r rows /\ service r = k /\
                 period1 r = get_default p k 0 /\
                 period2 r = get_default p k 0 /\
                 diff r = 0 /\ pct_change r = 0 /\
                 format_pct (pct_change r) = "+0.0%") /\
    forall r, In r rows ->
      period1 r = get_default p (service r) 0 /\
      period1 r = period2 r /\ diff r = 0 /\ pct_change r = 0 /\
      format_pct (pct_change r) = "+0.0%".
Proof.
  intros Hp. eexists. split; [apply compare_costs_total|].
  destruct (rows_services set_iter p p set_iter_perm) as [Hnodup Hkeys].
  assert (Z : forall k,
             diff (row_of p p k) = 0 /\ pct_change (row_of p p k) = 0 /\
             format_pct (pct_change (row_of p p k)) = "+0.0%").
  { intros k. unfold row_of. simpl.
    pose proof (get_default_finite p k Hp) as Hc.
    rewrite (sub_diag _ Hc), (pct_of_diag _ Hc). repeat split. }
  split; [exact Hnodup|]. split; [|split].
  - intros k. rewrite Hkeys. tauto.
  - intros k Hk. exists (row_of p p k).
    split; [apply rows_cover; auto|].
    split; [reflexivity|]. split; [reflexivity|]. split; [reflexivity|].
    apply Z.
  - intros r Hr. rewrite (compare_costs_row set_iter p p r Hr).
    split; [reflexivity|]. split; [reflexivity|]. apply Z.
Qed.

Lemma comparing_a_period_with_itself_witness :
  (forall l : list string, Permutation ((fun l => l) l) l) /\
  finite_costs [("EC2", 10); ("S3", 0.5)] /\
  exists rows,
    compare_costs (fun l => l) [("EC2", 10); ("S3", 0.5)]
                  [("EC2", 10); ("S3", 0.5)] = Ok rows /\
    map service rows = ["EC2"; "S3"] /\
    map pct_change rows = [0; 0].
Proof.
  assert (F : finite_costs [("EC2", 10); ("S3", 0.5)]).
  { repeat constructor. }
  split; [intros l; apply Permutation_refl|]. split; [exact F|].
  destruct (comparing_a_period_with_itself
              (fun l => l) (fun l => Permutation_refl l) _ F)
    as (rows & H1 & _).
  exists rows. split; [exact H1|].
  vm_compute in H1. injection H1 as <-. split; reflexivity.
Defined.

Lemma billable_not_negligible r :
  is_nan (period1 r) = false -> is_nan (period2 r) = false ->
  billable r = negb (negligible r).
Proof.
  intros H1 H2. unfold billable, negligible.
  rewrite !leb_ltb_negb by (assumption || reflexivity).
  rewrite negb_andb. reflexivity.
Qed.

(** X3: for cost mappings with finite amounts, the rows exported to the CSV
    file are those printed in the table, in the same order and with the
    same change text: the table's test "not both below 0.01" and the
    export's test "one at least 0.01" select the same rows. *)
Theorem table_and_csv_list_the_same_rows
    (set_iter : list string -> list string) (p1 p2 : dict float)
    (aid aname title : string) :
  finite_costs p1 -> finite_costs p2 ->
  exists rows t,
    compare_costs set_iter p1 p2 = Ok rows /\
    print_comparison_table rows title = Ok t /\
    map line_service (table_rows t)
    = map (fun row => prefix_chars 39 (csv_service row))
          (map (csv_row_of aid aname) (filter billable rows)) /\
    map line_change (table_rows t)
    = map csv_pct_change
          (map (csv_row_of aid aname) (filter billable rows)).
Proof.
  intros H1 H2.
  destruct (print_comparison_table_rows
              (sort_desc abs_diff
                 (map (row_of p1 p2) (all_services set_iter p1 p2))) title)
    as (t & Ht & Hrows).
  eexists. exists t. split; [apply compare_costs_total|].
  split; [exact Ht|]. rewrite Hrows, !map_map.
  assert (Hf : filter billable
                 (sort_desc abs_diff
                    (map (row_of p1 p2) (all_services set_iter p1 p2)))
               = filter (fun item => negb (negligible item))
                   (sort_desc abs_diff
                      (map (row_of p1 p2) (all_services set_iter p1 p2)))).
  { apply filter_ext_in. intros r Hr.
    rewrite (compare_costs_row set_iter p1 p2 r Hr).
    apply billable_not_negligible; simpl;
      apply is_finite_not_nan, get_default_finite; assumption. }
  rewrite Hf. split; reflexivity.
Qed.

Lemma table_and_csv_witness :
  finite_costs [("EC2", 10); ("S3", 0.001953125)] /\
  finite_costs [("EC2", 15); ("S3", 0.00390625)] /\
  exists rows t,
    compare_costs (fun l => l) [("EC2", 10); ("S3", 0.001953125)]
                  [("EC2", 15); ("S3", 0.00390625)] = Ok rows /\
    print_comparison_table rows "OVERALL - ALL ACCOUNTS" = Ok t /\
    map line_service (table_rows t) = ["EC2"] /\
    map csv_service
        (map (csv_row_of "ALL" "ALL ACCOUNTS") (filter billable rows))
    = ["EC2"].
Proof.
  assert (F1 : finite_costs [("EC2", 10); ("S3", 0.001953125)]).
  { repeat constructor. }
  assert (F2 : finite_costs [("EC2", 15); ("S3", 0.00390625)]).
  { repeat constructor. }
  split; [exact F1|]. split; [exact F2|].
  destruct (table_and_csv_list_the_same_rows
              (fun l => l) _ _ "ALL" "ALL ACCOUNTS"
              "OVERALL - ALL ACCOUNTS" F1 F2)
    as (rows & t & H1 & H2 & _).
  exists rows, t. split; [exact H1|]. split; [exact H2|].
  vm_compute in H1. injection H1 as <-.
  vm_compute in H2. injection H2 as <-. split; reflexivity.
Defined.

End ComparatorExtras.

(** ** Dates and period arguments *)

Module DateExtras.

Import AwsCostCompare.
Open Scope list_scope.
Open Scope string_scope.
Open Scope Z_scope.

Lemma between_code lo hi c :
  between lo hi c = true -> code lo <= code c <= code hi.
Proof. unfold between. rewrite andb_true_iff, !Z.leb_le. tauto. Qed.

Lemma code_values :
  code "0" = 48 /\ code "1" = 49 /\ code "2" = 50 /\ code "3" = 51 /\
  code "9" = 57.
Proof. repeat split. Qed.

Ltac codes :=
  destruct code_values as (C0 & C1 & C2 & C3 & C9);
  unfold digit in *; rewrite ?C0, ?C1, ?C2, ?C3, ?C9 in *.

Ltac split_bits :=
  repeat match goal with
  | H : context [match ?b with true => _ | false => _ end] |- _ =>
      is_var b; destruct b
  end.

Ltac ranges :=
  repeat match goal with
  | H : _ && _ = true |- _ => apply andb_true_iff in H; destruct H
  | H : _ || _ = true |- _ => apply orb_true_iff in H; destruct H
  | H : between _ _ _ = true |- _ => apply between_code in H
  | H : is_digit _ = true |- _ => apply between_code in H
  | H : Ascii.eqb _ _ = true |- _ => apply Ascii.eqb_eq in H; subst
  end.

Local Opaque Z.mul.

Lemma match_day_range s d rest :
  match_day s = Some (d, rest) -> 1 <= d <= 31.
Proof.
  unfold match_day. intros H.
  destruct s as [|a [|b s2]]; try discriminate.
  destruct b as [b0 b1 b2 b3 b4 b5 b6 b7].
  destruct s2 as [|c s3];
    [split_bits; try discriminate|
     destruct c as [c0 c1 c2 c3 c4 c5 c6 c7]; split_bits; try discriminate].
  all: repeat match goal with
       | H : (if ?x then _ else _) = Some _ |- _ =>
           destruct x eqn:?; try discriminate
       end.
  all: injection H as <- _; ranges; codes; lia.
Qed.

Lemma match_month_range s m rest :
  match_month s = Some (m, rest) -> 1 <= m <= 12.
Proof.
  unfold match_month. intros H.
  destruct s as [|a [|b s2]]; try discriminate.
  destruct b as [b0 b1 b2 b3 b4 b5 b6 b7].
  destruct s2 as [|c s3];
    [split_bits; try discriminate|
     destruct c as [c0 c1 c2 c3 c4 c5 c6 c7]; split_bits; try discriminate].
  all: repeat match goal with
       | H : (if ?x then _ else _) = Some _ |- _ =>
           destruct x eqn:?; try discriminate
       end.
  all: injection H as <- _; ranges; codes; lia.
Qed.

Lemma match_year_range s y rest :
  match_year s = Some (y, rest) -> 0 <= y <= 99.
Proof.
  unfold match_year. intros H.
  destruct s as [|a [|b s2]]; try discriminate.
  destruct (is_digit a && is_digit b) eqn:E; try discriminate.
  injection H as <- _. ranges. codes. lia.
Qed.

Local Transparent Z.mul.

Lemma strptime_dmy_valid s d : strptime_dmy s = Ok d -> valid_date d.
Proof.
  unfold strptime_dmy, valid_date.
  destruct (match_day s) as [[dd s1]|] eqn:Ed; [|discriminate].
  destruct (match_month s1) as [[mm s2]|] eqn:Em; [|discriminate].
  destruct (match_year s2) as [[yy rest]|] eqn:Ey; [|discriminate].
  destruct (String.eqb rest ""); [|discriminate].
  destruct (dd <=? days_in_month (century yy) mm) eqn:El; [|discriminate].
  intros H. injection H as <-. simpl.
  apply match_day_range in Ed. apply match_month_range in Em.
  apply match_year_range in Ey. apply Z.leb_le in El.
  unfold century in *. destruct (yy <=? 68) eqn:E68.
  - apply Z.leb_le in E68. lia.
  - apply Z.leb_gt in E68. lia.
Qed.

(** X4: the two dates of a period argument that [parse_date_range]
    accepts are calendar dates: the month is between 1 and 12, the day
    exists in that month of that year (29 February only in leap years),
    and the year lies between 1969 and 2068. *)
Theorem parsed_dates_are_calendar_dates (s : string) (d1 d2 : date) :
  parse_date_range s = Ok (d1, d2) -> valid_date d1 /\ valid_date d2.
Proof.
  unfold parse_date_range.
  destruct (PyStr.split s " to ") as [|p0 [|p1 [|p2 rest]]];
    try discriminate.
  destruct (strptime_dmy (strip p0)) as [a|] eqn:E0; [|discriminate].
  destruct (strptime_dmy (strip p1)) as [b|] eqn:E1; [|discriminate].
  simpl. intros H. injection H as <- <-.
  split; eapply strptime_dmy_valid; eassumption.
Qed.

Lemma parsed_dates_witness :
  parse_date_range "29-02-24 to  1-3-24 "
  = Ok ({| year := 2024; month := 2; day := 29 |},
        {| year := 2024; month := 3; day := 1 |}) /\
  valid_date {| year := 2024; month := 2; day := 29 |} /\
  valid_date {| year := 2024; month := 3; day := 1 |}.
Proof.
  split; [reflexivity|].
  apply (parsed_dates_are_calendar_dates "29-02-24 to  1-3-24 ").
  reflexivity.
Defined.

(** *** Reading back a written date *)

Lemma forallb_seq (f : nat -> bool) (n k : nat) :
  forallb f (List.seq 0 n) = true -> (k < n)%nat -> f k = true.
Proof.
  intros H Hk. rewrite forallb_forall in H. apply H, in_seq. lia.
Qed.

(** The whole calendar from 1969 to 2068, checked date by date. *)
Lemma calendar_checked :
  forallb
    (fun y =>
       forallb
         (fun m =>
            forallb
              (fun d =>
                 reads_back {| year := 1969 + Z.of_nat y;
                               month := 1 + Z.of_nat m;
                               day := 1 + Z.of_nat d |})
              (List.seq 0 (Z.to_nat
                             (days_in_month (1969 + Z.of_nat y)
                                            (1 + Z.of_nat m)))))
         (List.seq 0 12))
    (List.seq 0 100)
  = true.
Proof. vm_compute. reflexivity. Qed.

Lemma valid_date_reads_back d : valid_date d -> reads_back d = true.
Proof.
  intros (Hy & Hm & Hd). destruct d as [y m dd]. simpl in Hy, Hm, Hd.
  pose proof (forallb_seq _ _ (Z.to_nat (y - 1969)) calendar_checked
                ltac:(lia)) as H1.
  pose proof (forallb_seq _ _ (Z.to_nat (m - 1)) H1 ltac:(lia)) as H2.
  replace (1969 + Z.of_nat (Z.to_nat (y - 1969))) with y in H2 by lia.
  replace (1 + Z.of_nat (Z.to_nat (m - 1))) with m in H2 by lia.
  pose proof (forallb_seq _ _ (Z.to_nat (dd - 1)) H2 ltac:(lia)) as H3.
  cbv beta in H3.
  replace (1 + Z.of_nat (Z.to_nat (dd - 1))) with dd in H3 by lia.
  exact H3.
Qed.

Lemma append_empty_r (s : string) : s ++ "" = s.
Proof. induction s as [|c s IH]; simpl; [|rewrite IH]; reflexivity. Qed.

Lemma append_assoc3 (a b c : string) : (a ++ b) ++ c = a ++ (b ++ c).
Proof. induction a as [|x a IH]; simpl; [|rewrite IH]; reflexivity. Qed.

Lemma prefix_other_head (a c : ascii) (s1 s2 : string) :
  Ascii.eqb c a = false -> prefix (String a s1) (String c s2) = false.
Proof.
  intros H. cbn [prefix]. destruct (ascii_dec a c) as [E|_]; [|reflexivity].
  subst c. rewrite Ascii.eqb_refl in H. discriminate.
Qed.

Lemma split_from_no_space b cur :
  no_space b = true -> split_from " to " 0 cur b = [cur ++ b].
Proof.
  unfold no_space. revert cur. induction b as [|c b IH]; intros cur Hb.
  - simpl. f_equal. symmetry. apply append_empty_r.
  - simpl in Hb. apply andb_true_iff in Hb. destruct Hb as [Hc Hb].
    apply negb_true_iff in Hc.
    cbn [split_from].
    rewrite (prefix_other_head _ _ _ _ Hc).
    rewrite IH by exact Hb. f_equal. apply append_assoc3.
Qed.

Lemma split_written_range a b :
  no_space a = true -> no_space b = true ->
  PyStr.split (a ++ " to " ++ b) " to " = [a; b].
Proof.
  intros Ha Hb. unfold PyStr.split.
  assert (G : forall cur,
             split_from " to " 0 cur (a ++ " to " ++ b) = [cur ++ a; b]).
  { unfold no_space in Ha. induction a as [|c a IH]; intros cur.
    - rewrite append_empty_r. simpl.
      rewrite (split_from_no_space b "" Hb).
      replace (prefix "" b) with true by (destruct b; reflexivity).
      reflexivity.
    - simpl in Ha. apply andb_true_iff in Ha. destruct Ha as [Hc Ha].
      apply negb_true_iff in Hc.
      change (String c a ++ " to " ++ b) with (String c (a ++ " to " ++ b)).
      cbn [split_from].
      rewrite (prefix_other_head _ _ _ _ Hc).
      rewrite IH by exact Ha. f_equal. apply append_assoc3. }
  apply (G "").
Qed.

(** X5: every calendar date from 1969 to 2068 written [dd-mm-yy] is read
    back as itself: a period argument made of two such dates joined by
    " to " parses to exactly these two dates, in either order (the start
    is not required to precede the end). *)
Theorem written_period_reads_back (d1 d2 : date) :
  valid_date d1 -> valid_date d2 ->
  parse_date_range (format_dmy d1 ++ " to " ++ format_dmy d2)
  = Ok (d1, d2).
Proof.
  intros H1 H2.
  apply valid_date_reads_back in H1, H2. unfold reads_back in H1, H2.
  apply andb_true_iff in H1, H2. destruct H1 as [H1 N1], H2 as [H2 N2].
  apply andb_true_iff in H1, H2. destruct H1 as [P1 S1], H2 as [P2 S2].
  apply String.eqb_eq in S1, S2.
  unfold parse_date_range. rewrite (split_written_range _ _ N1 N2).
  rewrite S1, S2.
  destruct (strptime_dmy (format_dmy d1)) as [a|]; [|discriminate].
  destruct (strptime_dmy (format_dmy d2)) as [b|]; [|discriminate].
  simpl.
  assert (E : forall x y, date_eqb x y = true -> x = y).
  { intros [y1 m1 dd1] [y2 m2 dd2]. unfold date_eqb. simpl.
    rewrite !andb_true_iff, !Z.eqb_eq. intros [[-> ->] ->]. reflexivity. }
  rewrite (E _ _ P1), (E _ _ P2). reflexivity.
Qed.

Lemma written_period_witness :
  valid_date {| year := 2025; month := 12; day := 31 |} /\
  valid_date {| year := 1999; month := 2; day := 28 |} /\
  parse_date_range "31-12-25 to 28-02-99"
  = Ok ({| year := 2025; month := 12; day := 31 |},
        {| year := 1999; month := 2; day := 28 |}).
Proof.
  assert (V1 : valid_date {| year := 2025; month := 12; day := 31 |}).
  { repeat split; apply Z.leb_le; reflexivity. }
  assert (V2 : valid_date {| year := 1999; month := 2; day := 28 |}).
  { repeat split; apply Z.leb_le; reflexivity. }
  split; [exact V1|]. split; [exact V2|].
  exact (written_period_reads_back _ _ V1 V2).
Defined.

End DateExtras.

(** ** More on the fetchers *)

Module FetcherExtras.

Import DictFacts PaginationFacts FetcherSpec AggregatorFacts.
Open Scope string_scope.
Open Scope list_scope.

Lemma service_keys groups totals k :
  In k (keys (fold_left AwsCostCompare.add_group groups totals)) <->
  In k (keys totals) \/ exists g, In g groups /\ Keys g = k.
Proof.
  revert totals. induction groups as [|g gs IH]; intros totals; simpl.
  - split; [auto|]. intros [H|(g & [] & _)]. exact H.
  - rewrite IH. unfold AwsCostCompare.add_group, iadd.
    rewrite keys_setitem_In. split.
    + intros [[->|H]|(g' & Hg' & E)]; eauto.
    + intros [H|(g' & [->|Hg'] & E)]; eauto.
Qed.

Lemma service_keys_NoDup groups totals :
  NoDup (keys totals) ->
  NoDup (keys (fold_left AwsCostCompare.add_group groups totals)).
Proof.
  revert totals. induction groups as [|g gs IH]; intros totals H; simpl.
  - exact H.
  - apply IH. unfold AwsCostCompare.add_group, iadd.
    apply keys_setitem_NoDup. exact H.
Qed.

(** X6: [get_service_costs] fails with the client's error when no response
    is available; otherwise it returns one entry for each distinct service
    of the response and for no other key, the empty mapping exactly when
    the response has no group, and in both cases it has sent exactly one
    request. *)
Theorem get_service_costs_one_entry_per_service
    (d1 d2 : date) (account : option string) (ce : client) :
  List.length (requests (snd (AwsCostCompare.get_service_costs d1 d2 account ce)))
  = S (List.length (requests ce)) /\
  match service_pages ce with
  | [] =>
      fst (AwsCostCompare.get_service_costs d1 d2 account ce)
      = Raise ClientError
  | response :: _ =>
      exists totals,
        fst (AwsCostCompare.get_service_costs d1 d2 account ce) = Ok totals /\
        NoDup (keys totals) /\
        (forall k, In k (keys totals) <->
                   exists g, In g (List.concat (ResultsByTime response))
                             /\ Keys g = k) /\
        (totals = [] <-> List.concat (ResultsByTime response) = [])
  end.
Proof.
  unfold AwsCostCompare.get_service_costs.
  destruct (service_pages ce) as [|response rest]; simpl.
  - split; [|reflexivity]. rewrite length_app. simpl. lia.
  - split; [rewrite length_app; simpl; lia|].
    eexists. split; [reflexivity|].
    unfold AwsCostCompare.service_totals_of. rewrite fold_left_concat.
    assert (K : forall k,
               In k (keys (fold_left AwsCostCompare.add_group
                             (List.concat (ResultsByTime response)) [])) <->
               exists g, In g (List.concat (ResultsByTime response))
                         /\ Keys g = k).
    { intros k. rewrite service_keys. simpl. tauto. }
    split; [apply service_keys_NoDup; constructor|]. split; [exact K|].
    split.
    + intros E. destruct (List.concat (ResultsByTime response)) as [|g gs];
        [reflexivity|].
      exfalso. specialize (K (Keys g)). rewrite E in K. simpl in K.
      apply K. exists g. simpl. auto.
    + intros ->. reflexivity.
Qed.

(** X7: on a catalog and a cost script that are chains,
    [get_account_service_costs] requests the cost pages until the cursor
    is absent: its aggregation is the one of the groups of all pages of
    the chain in order, the pages after the chain are left unrequested,
    the first cost request carries no cursor and each later one carries
    the cursor of the page before. *)
Theorem cost_pages_are_read_to_the_end
    (ce : client)
    (dpages dextra : list dimension_values_response)
    (cpages cextra : list (cost_and_usage_response (string * string))) :
  dimension_pages ce = dpages ++ dextra ->
  cursor_chain DV_NextPageToken dpages = true ->
  account_service_pages ce = cpages ++ cextra ->
  cursor_chain (@CU_NextPageToken _) cpages = true ->
  exists names ce',
    AccountServiceCosts.get_account_service_costs ce
    = (Ok (AccountServiceCosts.add_groups
             AccountServiceCosts.empty_aggregation (all_groups cpages),
           names), ce') /\
    account_service_pages ce' = cextra /\
    dimension_pages ce' = dextra /\
    requests ce'
    = requests ce
      ++ map (GetDimensionValues (LastDays 30))
             (None :: map DV_NextPageToken (removelast dpages))
      ++ map AccountServiceCosts.cost_request
             (None :: map (@CU_NextPageToken _) (removelast cpages)).
Proof.
  intros Hd Hdc Hc Hcc.
  rewrite (get_account_service_costs_chain ce _ _ _ _ Hd Hdc Hc Hcc).
  rewrite add_pages_groups. eexists. eexists. repeat split.
Qed.

Lemma cost_pages_witness :
  cursor_chain DV_NextPageToken renamed_catalog = true /\
  cursor_chain (@CU_NextPageToken _) two_cost_pages = true /\
  exists names ce',
    AccountServiceCosts.get_account_service_costs
      {| dimension_pages := renamed_catalog; service_pages := [];
         account_service_pages := two_cost_pages; requests := [] |}
    = (Ok (AccountServiceCosts.add_groups
             AccountServiceCosts.empty_aggregation
             (all_groups two_cost_pages), names), ce') /\
    account_service_pages ce' = [].
Proof.
  split; [reflexivity|]. split; [reflexivity|].
  destruct (cost_pages_are_read_to_the_end
              {| dimension_pages := renamed_catalog; service_pages := [];
                 account_service_pages := two_cost_pages; requests := [] |}
              renamed_catalog [] two_cost_pages []
              eq_refl eq_refl eq_refl eq_refl)
    as (names & ce' & H1 & H2 & _).
  exists names, ce'. split; assumption.
Defined.

Lemma paginate_exhausted {P S : Type} (next_token : P -> option string)
    (body : S -> P -> S) (pages : list P) :
  Forall (fun p => truthy (next_token p) = true) pages ->
  forall token state,
    paginate next_token body pages token state
    = (Raise ClientError, [],
       token_kwarg token :: map next_token pages).
Proof.
  induction 1 as [|p rest Hp _ IH]; intros token state.
  - reflexivity.
  - cbn [paginate]. rewrite Hp, IH, (token_kwarg_truthy _ Hp). reflexivity.
Qed.

(** X8: when every page of the catalog script carries a cursor, so that
    the service fails on the request after the last page, the account
    fetchers raise that failure and return no partial catalog;
    they have sent one request per page and the failed one. *)
Theorem truncated_catalog_raises (days : nat) (ce : client) :
  Forall (fun p => truthy (DV_NextPageToken p) = true) (dimension_pages ce) ->
  fst (linked_accounts days ce) = Raise ClientError /\
  List.length (requests (snd (linked_accounts days ce)))
  = (List.length (requests ce) + S (List.length (dimension_pages ce)))%nat /\
  fst (AccountServiceCosts.get_account_service_costs ce)
  = Raise ClientError /\
  account_service_pages
    (snd (AccountServiceCosts.get_account_service_costs ce))
  = account_service_pages ce.
Proof.
  intros H. unfold linked_accounts,
    AccountServiceCosts.get_account_service_costs.
  rewrite !(paginate_exhausted _ _ _ H). simpl.
  repeat split. rewrite length_app. simpl. rewrite !length_map. reflexivity.
Qed.

Lemma truncated_catalog_witness :
  Forall (fun p => truthy (DV_NextPageToken p) = true)
         [ {| DimensionValues := [ {| Value := Some "111";
                                      Attributes := None |} ];
              DV_NextPageToken := Some "page-2" |} ] /\
  fst (linked_accounts 90
         {| dimension_pages :=
              [ {| DimensionValues := [ {| Value := Some "111";
                                           Attributes := None |} ];
                   DV_NextPageToken := Some "page-2" |} ];
            service_pages := []; account_service_pages := [];
            requests := [] |})
  = Raise ClientError.
Proof.
  assert (F : Forall (fun p => truthy (DV_NextPageToken p) = true)
                [ {| DimensionValues := [ {| Value := Some "111";
                                             Attributes := None |} ];
                     DV_NextPageToken := Some "page-2" |} ]).
  { repeat constructor. }
  split; [exact F|].
  exact (proj1 (truncated_catalog_raises 90
                  {| dimension_pages :=
                       [ {| DimensionValues :=
                              [ {| Value := Some "111";
                                   Attributes := None |} ];
                            DV_NextPageToken := Some "page-2" |} ];
                     service_pages := []; account_service_pages := [];
                     requests := [] |} F)).
Defined.

(** X9: on a catalog script that is a chain, the accounts that
    [get_linked_accounts] returns are the dimension values with a
    non-empty identifier: an entry without identifier or with the empty
    one is skipped, and an entry without attributes, with empty attributes
    or without a description is kept with no name. *)
Theorem catalog_keeps_identified_entries
    (ce : client) (pages extra : list dimension_values_response) :
  dimension_pages ce = pages ++ extra ->
  cursor_chain DV_NextPageToken pages = true ->
  exists accounts,
    fst (AwsCostCompare.get_linked_accounts ce) = Ok accounts /\
    (forall aid,
        In aid (map fst accounts) <->
        aid <> "" /\
        exists v, In v (flat_map DimensionValues pages)
                  /\ Value v = Some aid) /\
    (forall aid name,
        In (aid, name) accounts ->
        exists v, In v (flat_map DimensionValues pages) /\
                  Value v = Some aid /\ name = description v) /\
    (forall v, Attributes v = None \/ Attributes v = Some [] ->
               description v = None).
Proof.
  intros Hd Hc. unfold AwsCostCompare.get_linked_accounts.
  rewrite (linked_accounts_chain 90 ce pages extra Hd Hc). simpl.
  eexists. split; [reflexivity|].
  assert (E : forall aid name,
             In (aid, name) (catalog_entries pages) <->
             aid <> "" /\
             exists v, In v (flat_map DimensionValues pages) /\
                       Value v = Some aid /\ name = description v).
  { intros aid name. unfold catalog_entries. rewrite in_flat_map. split.
    - intros (v & Hv & Hin). unfold account_entry in Hin.
      destruct (Value v) as [a|] eqn:Ev; [|contradiction].
      destruct (truthy_str a) eqn:Et; [|contradiction].
      destruct Hin as [Hin|[]]. injection Hin as -> <-.
      split; [|eauto]. intros ->. discriminate.
    - intros (Hne & v & Hv & Ev & ->). exists v. split; [exact Hv|].
      unfold account_entry. rewrite Ev.
      replace (truthy_str aid) with true; [simpl; auto|].
      unfold truthy_str. symmetry. apply negb_true_iff.
      apply String.eqb_neq. exact Hne. }
  split; [|split].
  - intros aid. unfold dedup. split.
    + intros Hin. apply dedup_seen_keys in Hin. destruct Hin as [_ Hin].
      apply in_map_iff in Hin. destruct Hin as ([a n] & <- & Hin).
      apply E in Hin. destruct Hin as (Hne & v & Hv & Ev & _). eauto.
    + intros (Hne & v & Hv & Ev).
      assert (Hin : In (aid, description v) (catalog_entries pages)).
      { apply E. eauto. }
      destruct (get (dedup_seen [] (catalog_entries pages)) aid) eqn:G.
      * apply get_Some_In in G. apply (in_map fst) in G. exact G.
      * rewrite dedup_seen_get in G. simpl in G.
        apply get_None_keys in G. exfalso. apply G.
        apply (in_map fst) in Hin. exact Hin.
  - intros aid name Hin.
    assert (Hin' : In (aid, name) (catalog_entries pages)).
    { assert (G : get (dedup (catalog_entries pages)) aid = Some name).
      { apply get_In; [apply dedup_seen_NoDup|exact Hin]. }
      unfold dedup in G. rewrite dedup_seen_get in G. simpl in G.
      apply get_Some_In in G. exact G. }
    apply E in Hin'. destruct Hin' as (_ & v & Hv & Ev & ->). eauto.
  - intros v [H|H]; unfold description; rewrite H; reflexivity.
Qed.

Lemma catalog_entries_witness :
  cursor_chain DV_NextPageToken renamed_catalog = true /\
  exists accounts,
    fst (AwsCostCompare.get_linked_accounts renamed_client) = Ok accounts /\
    map fst accounts = ["111"].
Proof.
  split; [reflexivity|].
  destruct (catalog_keeps_identified_entries
              renamed_client renamed_catalog [] eq_refl eq_refl)
    as (accounts & H1 & _).
  exists accounts. split; [exact H1|].
  vm_compute in H1. injection H1 as <-. reflexivity.
Defined.

End FetcherExtras.

(** ** More on the program of aws_cost_compare.py *)

Module ProgramExtras.

Import FloatFacts SortFacts AwsCostCompare ComparatorFacts.
Import PaginationFacts FetcherSpec.
Open Scope string_scope.
Open Scope list_scope.

Lemma extends_refl w : extends w w [].
Proof.
  split; [reflexivity|]. split; [|reflexivity].
  rewrite app_nil_r. reflexivity.
Qed.

Lemma extends_trans w1 w2 w3 l1 l2 :
  extends w1 w2 l1 -> extends w2 w3 l2 -> extends w1 w3 (l1 ++ l2).
Proof.
  intros (F1 & S1 & H1) (F2 & S2 & H2). split; [congruence|].
  split; [|congruence]. rewrite S2, S1, app_assoc. reflexivity.
Qed.

Lemma print_extends p w :
  exists w', print p w = (Ok tt, w') /\ extends w w' [p] /\ ce w' = ce w.
Proof. eexists. repeat split. Qed.

(** The fetch of one account takes the next two cost responses; when
    fewer than two are left it fails, reports the failure and leaves no
    response. *)
Lemma fetch_pair_outcome range1 range2 aid w :
  exists fetched w' lines,
    fetch_pair range1 range2 aid w = (Ok fetched, w') /\
    extends w w' lines /\ fetch_attempts lines = [] /\
    ((exists p1 p2,
         service_pages (ce w) = p1 :: p2 :: service_pages (ce w') /\
         fetched <> None /\ fetch_errors lines = []) \/
     (served w = 0%nat /\ service_pages (ce w') = [] /\
      fetched = None /\ fetch_errors lines = [(aid, ClientError)])).
Proof.
  unfold fetch_pair, try_except, seq, call, ret, print, get_service_costs,
    served.
  destruct (service_pages (ce w)) as [|p1 [|p2 rest]]; simpl.
  - do 3 eexists. split; [reflexivity|].
    split; [repeat split; reflexivity|]. split; [reflexivity|].
    right. repeat split.
  - do 3 eexists. split; [reflexivity|].
    split; [repeat split; reflexivity|]. split; [reflexivity|].
    right. repeat split.
  - exists (Some (service_totals_of p1, service_totals_of p2)).
    eexists. exists []. split; [reflexivity|].
    split; [repeat split; simpl; rewrite ?app_nil_r; reflexivity|].
    split; [reflexivity|].
    left. exists p1, p2. simpl. repeat split. discriminate.
Qed.

Lemma tables_never_raise comparisons title :
  exists t, print_comparison_table comparisons title = Ok t.
Proof.
  destruct (print_comparison_table_rows comparisons title) as (t & H & _).
  eauto.
Qed.

Lemma total_rows_never_raise aid aname comparisons :
  exists row, csv_total_row aid aname comparisons = Ok row.
Proof.
  unfold csv_total_row.
  destruct (total_percent_total (fsum (map period1 comparisons))
                                (fsum (map period2 comparisons)))
    as [pct ->].
  simpl. eauto.
Qed.

Lemma total_row_account aid aname comparisons row :
  csv_total_row aid aname comparisons = Ok row -> account_id row = aid.
Proof.
  unfold csv_total_row. destruct (total_percent _ _); [|discriminate].
  simpl. intros H. injection H as <-. reflexivity.
Qed.

Lemma account_loop_unfold set_iter range1 range2 aid aname rest csv_rows :
  account_loop set_iter range1 range2 ((aid, aname) :: rest) csv_rows
  = seq (print (FetchingAccountLine (or_else aname aid) aid))
      (fun _ =>
         seq (fetch_pair range1 range2 aid)
           (fun fetched =>
              match fetched with
              | None => account_loop set_iter range1 range2 rest csv_rows
              | Some (acct_period1, acct_period2) =>
                  if is_empty acct_period1 && is_empty acct_period2
                  then
                    seq (print (NoCostsLine (or_else aname aid)))
                      (fun _ =>
                         account_loop set_iter range1 range2 rest csv_rows)
                  else
                    seq (lift (compare_costs set_iter acct_period1
                                             acct_period2))
                      (fun acct_comparisons =>
                         if ((cent <=? fsum (map period1 acct_comparisons))
                             || (cent <=? fsum (map period2 acct_comparisons)))%float
                         then
                           seq (lift (print_comparison_table
                                        acct_comparisons
                                        (or_else aname aid ++ " (" ++ aid
                                         ++ ")")%string))
                             (fun t =>
                                seq (print (TableLines t))
                                  (fun _ =>
                                     seq (lift (csv_total_row aid
                                                  (or_else aname "")
                                                  acct_comparisons))
                                       (fun total_row =>
                                          account_loop set_iter range1
                                            range2 rest
                                            (csv_rows
                                             ++ map (csv_row_of aid
                                                       (or_else aname ""))
                                                  (filter billable
                                                     acct_comparisons)
                                             ++ [total_row]))))
                         else
                           account_loop set_iter range1 range2 rest csv_rows)
              end)).
Proof. reflexivity. Qed.

Lemma account_loop_runs
    (set_iter : list string -> list string) (range1 range2 : date * date)
    (accounts : list (string * option string)) :
  forall (csv_rows : list csv_row) (w : world),
  exists new_rows w' lines,
    account_loop set_iter range1 range2 accounts csv_rows w
    = (Ok (csv_rows ++ new_rows), w') /\
    extends w w' lines /\
    fetch_attempts lines = map fst accounts /\
    fetch_errors lines
    = map (fun account => (fst account, ClientError))
          (skipn (served w) accounts) /\
    Forall (fun row =>
              In (account_id row) (map fst (firstn (served w) accounts)))
           new_rows.
Proof.
  induction accounts as [|[aid aname] rest IH]; intros csv_rows w.
  - exists [], w, []. rewrite !app_nil_r, skipn_nil.
    split; [reflexivity|]. split; [apply extends_refl|]. repeat split.
    constructor.
  - rewrite account_loop_unfold. unfold seq at 1.
    destruct (print_extends (FetchingAccountLine (or_else aname aid) aid) w)
      as (w0 & -> & E0 & C0).
    unfold seq at 1.
    destruct (fetch_pair_outcome range1 range2 aid w0)
      as (fetched & w1 & l1 & -> & E1 & A1 & O).
    destruct O as [(p1 & p2 & Hp & Hf & X1)|(Hs & Hp & -> & X1)].
    + (* the two responses were there *)
      assert (Sw : served w = S (served w1)).
      { unfold served. rewrite <- C0, Hp. reflexivity. }
      rewrite Sw. cbn [skipn firstn map fst].
      assert (Done : forall rows w2 l2,
                 extends w1 w2 l2 -> ce w2 = ce w1 ->
                 fetch_attempts l2 = [] -> fetch_errors l2 = [] ->
                 Forall (fun row => account_id row = aid) rows ->
                 exists new_rows w' lines,
                   account_loop set_iter range1 range2 rest
                                (csv_rows ++ rows) w2
                   = (Ok (csv_rows ++ new_rows), w') /\
                   extends w w' lines /\
                   fetch_attempts lines = aid :: map fst rest /\
                   fetch_errors lines
                   = map (fun account => (fst account, ClientError))
                         (skipn (served w1) rest) /\
                   Forall (fun row =>
                             In (account_id row)
                                (aid :: map fst (firstn (served w1) rest)))
                          new_rows).
      { intros rows w2 l2 E2 C2 A2 X2 R2.
        destruct (IH (csv_rows ++ rows) w2)
          as (nr & w' & l3 & -> & E3 & A3 & X3 & R3).
        assert (Sw2 : served w2 = served w1).
        { unfold served. rewrite C2. reflexivity. }
        rewrite Sw2 in X3, R3.
        exists (rows ++ nr), w',
          ([FetchingAccountLine (or_else aname aid) aid]
           ++ l1 ++ l2 ++ l3).
        split; [rewrite app_assoc; reflexivity|].
        split.
        { apply (extends_trans _ _ _ _ _ E0).
          apply (extends_trans _ _ _ _ _ E1).
          apply (extends_trans _ _ _ _ _ E2). exact E3. }
        split.
        { unfold fetch_attempts in *. rewrite !flat_map_app, A1, A2, A3.
          reflexivity. }
        split.
        { unfold fetch_errors in *. rewrite !flat_map_app, X1, X2, X3.
          reflexivity. }
        apply Forall_app. split.
        - eapply Forall_impl; [|exact R2]. intros row ->. left.
          reflexivity.
        - eapply Forall_impl; [|exact R3]. intros row H. right. exact H. }
      assert (Done0 : forall w2 l2,
                 extends w1 w2 l2 -> ce w2 = ce w1 ->
                 fetch_attempts l2 = [] -> fetch_errors l2 = [] ->
                 exists new_rows w' lines,
                   account_loop set_iter range1 range2 rest csv_rows w2
                   = (Ok (csv_rows ++ new_rows), w') /\
                   extends w w' lines /\
                   fetch_attempts lines = aid :: map fst rest /\
                   fetch_errors lines
                   = map (fun account => (fst account, ClientError))
                         (skipn (served w1) rest) /\
                   Forall (fun row =>
                             In (account_id row)
                                (aid :: map fst (firstn (served w1) rest)))
                          new_rows).
      { intros w2 l2 E2 C2 A2 X2.
        specialize (Done [] w2 l2 E2 C2 A2 X2 (Forall_nil _)).
        rewrite app_nil_r in Done. exact Done. }
      destruct fetched as [[acct_period1 acct_period2]|]; [|congruence].
      destruct (is_empty acct_period1 && is_empty acct_period2).
      * unfold seq at 1.
        destruct (print_extends (NoCostsLine (or_else aname aid)) w1)
          as (w2 & -> & E2 & C2).
        apply (Done0 _ _ E2 C2); reflexivity.
      * unfold seq at 1, lift at 1. rewrite compare_costs_total.
        match goal with
        | |- context [if ?c then _ else _] => destruct c
        end.
        -- unfold seq at 1, lift at 1.
           match goal with
           | |- context [print_comparison_table ?c ?t] =>
               destruct (tables_never_raise c t) as [t0 ->]
           end.
           unfold seq at 1.
           destruct (print_extends (TableLines t0) w1)
             as (w2 & -> & E2 & C2).
           unfold seq at 1, lift at 1.
           match goal with
           | |- context [csv_total_row ?a ?n ?c] =>
               destruct (total_rows_never_raise a n c) as [row Hrow];
               rewrite Hrow
           end.
           apply (Done _ _ _ E2 C2); try reflexivity.
           apply Forall_app. split.
           ++ apply Forall_forall. intros r Hr. apply in_map_iff in Hr.
              destruct Hr as (item & <- & _). reflexivity.
           ++ constructor; [|constructor].
              apply (total_row_account _ _ _ _ Hrow).
        -- apply (Done0 _ _ (extends_refl w1)); reflexivity.
    + (* fewer than two responses were left *)
      assert (Sw : served w = 0%nat).
      { unfold served in *. rewrite <- C0. exact Hs. }
      assert (Sw1 : served w1 = 0%nat).
      { unfold served. rewrite Hp. reflexivity. }
      rewrite Sw. cbn [skipn firstn map fst].
      destruct (IH csv_rows w1) as (nr & w' & l3 & -> & E3 & A3 & X3 & R3).
      rewrite Sw1 in X3, R3. cbn [skipn firstn map] in X3, R3.
      exists nr, w',
        ([FetchingAccountLine (or_else aname aid) aid] ++ l1 ++ l3).
      split; [reflexivity|]. split.
      { apply (extends_trans _ _ _ _ _ E0).
        apply (extends_trans _ _ _ _ _ E1). exact E3. }
      split.
      { unfold fetch_attempts in *. rewrite !flat_map_app, A1, A3.
        reflexivity. }
      split.
      { unfold fetch_errors in *. rewrite !flat_map_app, X1, X3.
        reflexivity. }
      exact R3.
Qed.

(** X10: the per-account loop of [main] never raises, whatever the client
    answers.  Every account is announced, in order.  The accounts for
    which the two cost responses are there are served; for every account
    after them the fetch fails, the failure is printed as an error line
    naming the account and the exception, and the loop goes on to the
    next account: the error lines are those of exactly these accounts, in
    order.  The rows collected before are kept, in front of the new ones;
    every new row belongs to an account that was served; no file is
    written. *)
Theorem account_loop_isolates_failures
    (set_iter : list string -> list string) (range1 range2 : date * date)
    (accounts : list (string * option string)) (csv_rows : list csv_row)
    (w : world) :
  exists new_rows w' lines,
    account_loop set_iter range1 range2 accounts csv_rows w
    = (Ok (csv_rows ++ new_rows), w') /\
    files w' = files w /\
    stdout w' = stdout w ++ lines /\
    fetch_attempts lines = map fst accounts /\
    fetch_errors lines
    = map (fun account => (fst account, ClientError))
          (skipn (served w) accounts) /\
    Forall (fun row =>
              In (account_id row) (map fst (firstn (served w) accounts)))
           new_rows.
Proof.
  destruct (account_loop_runs set_iter range1 range2 accounts csv_rows w)
    as (new_rows & w' & lines & H & (F & S & _) & A & X & R).
  exists new_rows, w', lines. repeat split; assumption.
Qed.

(** What [main] does up to the opening of the output file. *)
Lemma report_reaches_the_file
    (set_iter : list string -> list string) (args : arguments) (w : world)
    (range1 range2 : date * date)
    (pages extra : list dimension_values_response)
    (p1 p2 : cost_and_usage_response string)
    (rest : list (cost_and_usage_response string)) :
  new_session (host w) (session_profile args) = Ok tt ->
  dimension_pages (ce w) = pages ++ extra ->
  cursor_chain DV_NextPageToken pages = true ->
  service_pages (ce w) = p1 :: p2 :: rest ->
  exists rows w1 lines total,
    report set_iter args range1 range2 w
    = seq (write_csv (arg_output args) rows)
          (fun _ =>
             seq (print (SavedLine (arg_output args)))
                 (fun _ => seq (print DoneLine) (fun _ => ret 0%Z))) w1 /\
    extends w w1 (lines ++ [WritingLine (arg_output args)]) /\
    In total rows /\ account_id total = "ALL" /\
    csv_service total = "TOTAL".
Proof.
  intros Hn Hd Hc Hs. unfold report.
  unfold seq at 1, create_session at 1. fold (session_profile args).
  rewrite Hn.
  unfold seq at 1, print at 1. unfold seq at 1, print at 1.
  unfold seq at 1, print at 1. unfold seq at 1, call at 1.
  cbn [ce stdout files host]. unfold get_linked_accounts.
  rewrite (linked_accounts_chain 90 (ce w) pages extra Hd Hc).
  unfold seq at 1, print at 1. unfold seq at 1, print at 1.
  unfold seq at 1, call at 1. cbn [ce stdout files host].
  unfold get_service_costs at 1. cbn [service_pages]. rewrite Hs.
  unfold seq at 1, call at 1. cbn [ce stdout files host].
  unfold get_service_costs at 1. cbn [service_pages].
  unfold seq at 1, lift at 1. rewrite compare_costs_total.
  unfold seq at 1, lift at 1.
  match goal with
  | |- context [print_comparison_table ?c ?t] =>
      destruct (tables_never_raise c t) as [t0 ->]
  end.
  unfold seq at 1, print at 1. cbn [ce stdout files host].
  unfold seq at 1, lift at 1.
  match goal with
  | |- context [csv_total_row ?a ?n ?c] =>
      destruct (total_rows_never_raise a n c) as [total Htotal];
      rewrite Htotal
  end.
  unfold seq at 1.
  match goal with
  | |- context [account_loop ?s ?r1 ?r2 ?a ?c ?w0] =>
      destruct (account_loop_runs s r1 r2 a c w0)
        as (new_rows & w1 & lines & -> & (F & S & H) & _)
  end.
  unfold seq at 1.
  destruct (print_extends (WritingLine (arg_output args)) w1)
    as (w2 & -> & (F2 & S2 & H2) & _).
  cbn [ce stdout files host] in F, S, H. rewrite <- !app_assoc in S.
  match type of S with
  | _ = _ ++ ?printed_lines =>
      eexists; exists w2, printed_lines, total
  end.
  split; [reflexivity|]. split.
  - split; [congruence|]. split; [|congruence].
    rewrite S2, S. symmetry. apply app_assoc.
  - split.
    + apply in_or_app. left. apply in_or_app. right. simpl. auto.
    + unfold csv_total_row in Htotal.
      destruct (total_percent _ _); [|discriminate].
      simpl in Htotal. injection Htotal as <-. split; reflexivity.
Qed.

(** X11: with two well-formed periods, a session that can be created, an
    output file that can be opened for writing, a catalog script that is a
    chain and two cost responses for the overall comparison, [main]
    returns 0 whatever happens in the per-account fetches.  It writes
    exactly one file, under the [--output] name, and that file holds the
    overall TOTAL row. *)
Theorem main_completes
    (set_iter : list string -> list string) (args : arguments) (w : world)
    (range1 range2 : date * date)
    (pages extra : list dimension_values_response)
    (p1 p2 : cost_and_usage_response string)
    (rest : list (cost_and_usage_response string)) :
  parse_date_range (arg_period1 args) = Ok range1 ->
  parse_date_range (arg_period2 args) = Ok range2 ->
  new_session (host w) (session_profile args) = Ok tt ->
  open_for_writing (host w) (arg_output args) = Ok tt ->
  dimension_pages (ce w) = pages ++ extra ->
  cursor_chain DV_NextPageToken pages = true ->
  service_pages (ce w) = p1 :: p2 :: rest ->
  exists rows w',
    main set_iter args w = (Ok 0%Z, w') /\
    files w' = files w ++ [(arg_output args, rows)] /\
    exists row,
      In row rows /\ account_id row = "ALL" /\ csv_service row = "TOTAL".
Proof.
  intros H1 H2 Hn Ho Hd Hc Hs. unfold main. rewrite H1, H2. simpl.
  destruct (report_reaches_the_file set_iter args w range1 range2
              pages extra p1 p2 rest Hn Hd Hc Hs)
    as (rows & w1 & lines & total & -> & (F & _ & H) & T).
  unfold seq at 1, write_csv at 1. rewrite H, Ho.
  exists rows. eexists. split; [reflexivity|]. simpl.
  split; [rewrite F; reflexivity|]. exists total. exact T.
Qed.

Lemma main_completes_witness :
  cursor_chain DV_NextPageToken renamed_catalog = true /\
  exists rows w',
    main (fun l => l) (sample_periods None) (sample_world willing)
    = (Ok 0%Z, w') /\
    files w' = [("cost_comparison.csv", rows)].
Proof.
  split; [reflexivity|].
  destruct (main_completes
              (fun l => l) (sample_periods None) (sample_world willing)
              _ _ renamed_catalog [] _ _ _
              eq_refl eq_refl eq_refl eq_refl eq_refl eq_refl eq_refl)
    as (rows & w' & H1 & H2 & _).
  exists rows, w'. split; assumption.
Defined.

(** X27: when the session cannot be created, [main] passes the exception
    on before it prints a line or sends a request: the world is left as
    it was. *)
Theorem session_failure_stops_main
    (set_iter : list string -> list string) (args : arguments) (w : world)
    (range1 range2 : date * date) (e : exn) :
  parse_date_range (arg_period1 args) = Ok range1 ->
  parse_date_range (arg_period2 args) = Ok range2 ->
  new_session (host w) (session_profile args) = Raise e ->
  main set_iter args w = (Raise e, w).
Proof.
  intros H1 H2 Hn. unfold main. rewrite H1, H2. simpl.
  unfold report. unfold seq at 1, create_session at 1.
  fold (session_profile args). rewrite Hn. reflexivity.
Qed.

Lemma session_failure_witness :
  new_session (host (sample_world without_profiles))
              (session_profile (sample_periods (Some "audit")))
  = Raise (ProfileNotFound "audit") /\
  main (fun l => l) (sample_periods (Some "audit"))
       (sample_world without_profiles)
  = (Raise (ProfileNotFound "audit"), sample_world without_profiles).
Proof.
  split; [reflexivity|].
  apply (session_failure_stops_main
           (fun l => l) (sample_periods (Some "audit"))
           (sample_world without_profiles)
           ({| year := 2025; month := 11; day := 1 |},
            {| year := 2025; month := 11; day := 30 |})
           ({| year := 2025; month := 12; day := 1 |},
            {| year := 2025; month := 12; day := 31 |})
           (ProfileNotFound "audit")); reflexivity.
Defined.

(** X28: when the output file cannot be opened for writing, [main] passes
    the exception of [open] on after all the fetches: no file is written,
    and the last line printed is the one that announces the writing. *)
Theorem unwritable_output_stops_main
    (set_iter : list string -> list string) (args : arguments) (w : world)
    (range1 range2 : date * date)
    (pages extra : list dimension_values_response)
    (p1 p2 : cost_and_usage_response string)
    (rest : list (cost_and_usage_response string)) (e : exn) :
  parse_date_range (arg_period1 args) = Ok range1 ->
  parse_date_range (arg_period2 args) = Ok range2 ->
  new_session (host w) (session_profile args) = Ok tt ->
  open_for_writing (host w) (arg_output args) = Raise e ->
  dimension_pages (ce w) = pages ++ extra ->
  cursor_chain DV_NextPageToken pages = true ->
  service_pages (ce w) = p1 :: p2 :: rest ->
  exists w' lines,
    main set_iter args w = (Raise e, w') /\
    files w' = files w /\
    stdout w' = stdout w ++ lines ++ [WritingLine (arg_output args)].
Proof.
  intros H1 H2 Hn Ho Hd Hc Hs. unfold main. rewrite H1, H2. simpl.
  destruct (report_reaches_the_file set_iter args w range1 range2
              pages extra p1 p2 rest Hn Hd Hc Hs)
    as (rows & w1 & lines & total & -> & (F & S & H) & _).
  unfold seq at 1, write_csv at 1. rewrite H, Ho.
  exists w1, lines. split; [reflexivity|]. split; assumption.
Qed.

Lemma unwritable_output_witness :
  open_for_writing (host (sample_world read_only))
                   (arg_output (sample_periods None))
  = Raise (OSError "cost_comparison.csv") /\
  exists w' lines,
    main (fun l => l) (sample_periods None) (sample_world read_only)
    = (Raise (OSError "cost_comparison.csv"), w') /\
    files w' = [] /\
    stdout w' = lines ++ [WritingLine "cost_comparison.csv"].
Proof.
  split; [reflexivity|].
  destruct (unwritable_output_stops_main
              (fun l => l) (sample_periods None) (sample_world read_only)
              _ _ renamed_catalog [] _ _ _
              (OSError "cost_comparison.csv")
              eq_refl eq_refl eq_refl eq_refl eq_refl eq_refl eq_refl)
    as (w' & lines & H1 & H2 & H3).
  exists w', lines. repeat split; assumption.
Defined.

End ProgramExtras.

(** ** More on the report of account_service_costs.py *)

Module AggregatorExtras.

Import FloatFacts FloatFacts2 DictFacts SortFacts.
Import AccountServiceCosts AggregatorFacts AggregatorSpec.
Open Scope string_scope.
Open Scope list_scope.
Open Scope float_scope.

(** *** [truncate] *)

Lemma prefix_chars_length n s :
  String.length (prefix_chars n s) = Nat.min n (String.length s).
Proof.
  revert s. induction n as [|n IH]; intros [|c s]; simpl; auto.
Qed.

Lemma append_length (a b : string) :
  String.length (a ++ b)%string = (String.length a + String.length b)%nat.
Proof. induction a as [|c a IH]; simpl; auto. Qed.

(** X12: for a width of at least 2, [truncate] returns a text that fits
    the width: a text that fits already is returned unchanged, and a longer
    one is cut to the width exactly, its last two characters replaced by
    two dots. *)
Theorem truncate_fits (s : string) (max_len : nat) :
  (2 <= max_len)%nat ->
  (String.length (truncate s max_len) <= max_len)%nat /\
  ((String.length s <= max_len)%nat -> truncate s max_len = s) /\
  ((max_len < String.length s)%nat ->
   String.length (truncate s max_len) = max_len /\
   truncate s max_len = (prefix_chars (max_len - 2) s ++ "..")%string).
Proof.
  intros Hm. unfold truncate.
  destruct (String.length s <=? max_len)%nat eqn:E.
  - apply Nat.leb_le in E. split; [exact E|]. split; [reflexivity|].
    intros H. lia.
  - apply Nat.leb_gt in E.
    assert (L : String.length (prefix_chars (max_len - 2) s ++ "..")%string
                = max_len).
    { rewrite append_length, prefix_chars_length. simpl. lia. }
    split; [lia|]. split; [intros H; lia|]. intros _. split; [exact L|].
    reflexivity.
Qed.

Lemma truncate_fits_witness :
  (2 <= 12)%nat /\
  truncate "Amazon Elastic Compute Cloud - Compute" 12 = "Amazon Ela.." /\
  truncate "Amazon S3" 12 = "Amazon S3".
Proof.
  split; [lia|].
  destruct (truncate_fits "Amazon Elastic Compute Cloud - Compute" 12
              ltac:(lia)) as (_ & _ & H).
  destruct (truncate_fits "Amazon S3" 12 ltac:(lia)) as (_ & H' & _).
  split.
  - assert (L : (12 < String.length
                        "Amazon Elastic Compute Cloud - Compute")%nat)
      by (simpl; lia).
    destruct (H L) as [_ E]. rewrite E. reflexivity.
  - apply H'. simpl. lia.
Defined.

(** *** The three mappings of the aggregation *)

Lemma keys_setitem_same {V W : Type} (d1 : dict V) (d2 : dict W) k v1 v2 :
  keys d1 = keys d2 -> keys (setitem d1 k v1) = keys (setitem d2 k v2).
Proof.
  revert d2. induction d1 as [|[k1 x1] d1 IH]; intros [|[k2 x2] d2] H;
    simpl in *; try discriminate; [reflexivity|].
  injection H as -> H. destruct (String.eqb k2 k); simpl.
  - f_equal. exact H.
  - f_equal. apply IH. exact H.
Qed.

Lemma costs_keys groups agg :
  keys (costs agg) = keys (account_totals agg) ->
  keys (costs (add_groups agg groups))
  = keys (account_totals (add_groups agg groups)).
Proof.
  unfold add_groups. revert agg.
  induction groups as [|g gs IH]; intros agg H; simpl; [exact H|].
  apply IH. unfold add_group. destruct (0 <? Amount g); simpl; [|exact H].
  unfold iadd2, iadd. apply keys_setitem_same. exact H.
Qed.

Lemma stored_iff (xs : list float) : sum_or_absent xs <> None <-> xs <> [].
Proof. destruct xs; simpl; split; congruence. Qed.

Lemma selected_nonempty {A B : Type} (f : A -> B) (p : A -> bool) l :
  map f (filter p l) <> [] <-> exists x, In x l /\ p x = true.
Proof.
  induction l as [|x l IH]; simpl.
  - split; [congruence|]. intros (x & [] & _).
  - destruct (p x) eqn:E; simpl.
    + split; [eauto|discriminate].
    + rewrite IH. split.
      * intros (y & Hy & Py). eauto.
      * intros (y & [->|Hy] & Py); [congruence|eauto].
Qed.

Lemma key_present {V : Type} (d : dict V) k :
  In k (keys d) <-> get d k <> None.
Proof.
  pose proof (get_None_keys d k) as H. destruct (get d k).
  - split; [discriminate|]. intros _.
    destruct (in_dec string_dec k (keys d)) as [I|N]; [exact I|].
    apply H in N. discriminate.
  - split; [|congruence]. intros I. apply H in I; [contradiction|reflexivity].
Qed.

(** X13: after any sequence of groups the three mappings of
    [get_account_service_costs] describe the same data: the breakdown and
    the account totals have the same accounts in the same order, no
    account or service occurs twice, an amount is stored for an account
    and a service exactly when a group of that pair has a strictly positive
    amount, and then the account has a total and the service has a total;
    an account or a service has a total only if it has such an amount. *)
Theorem aggregation_is_consistent
    (groups : list (group (string * string))) :
  keys (costs (add_groups empty_aggregation groups))
  = keys (account_totals (add_groups empty_aggregation groups)) /\
  NoDup (keys (account_totals (add_groups empty_aggregation groups))) /\
  NoDup (keys (service_totals (add_groups empty_aggregation groups))) /\
  (forall a s,
      lookup2 (costs (add_groups empty_aggregation groups)) a s <> None <->
      exists g, In g groups /\ Keys g = (a, s) /\ (0 <? Amount g) = true) /\
  (forall a,
      In a (keys (account_totals (add_groups empty_aggregation groups))) <->
      exists s,
        lookup2 (costs (add_groups empty_aggregation groups)) a s <> None) /\
  (forall s,
      In s (keys (service_totals (add_groups empty_aggregation groups))) <->
      exists a,
        lookup2 (costs (add_groups empty_aggregation groups)) a s <> None).
Proof.
  assert (P : forall a s,
             lookup2 (costs (add_groups empty_aggregation groups)) a s
             <> None <->
             exists g, In g groups /\ Keys g = (a, s)
                       /\ (0 <? Amount g) = true).
  { intros a s. rewrite costs_after, accumulate_from_nothing, stored_iff.
    unfold pair_contributions. rewrite selected_nonempty. split.
    - intros (g & Hg & Hp). exists g.
      rewrite !andb_true_iff, !String.eqb_eq in Hp.
      destruct Hp as [[E1 E2] Hp]. destruct (Keys g) as [a' s'].
      simpl in *. subst. auto.
    - intros (g & Hg & E & Hp). exists g. rewrite E. simpl.
      rewrite !String.eqb_refl. auto. }
  split; [apply costs_keys; reflexivity|].
  split; [apply (totals_NoDup groups empty_aggregation); constructor|].
  split; [apply (totals_NoDup groups empty_aggregation); constructor|].
  split; [exact P|]. split.
  - intros a. rewrite key_present, account_totals_after,
      accumulate_from_nothing, stored_iff.
    unfold account_contributions. rewrite selected_nonempty. split.
    + intros (g & Hg & Hp). rewrite andb_true_iff, String.eqb_eq in Hp.
      destruct Hp as [E Hp]. exists (snd (Keys g)). apply P. exists g.
      destruct (Keys g). simpl in *. subst. auto.
    + intros (s & Hs). apply P in Hs. destruct Hs as (g & Hg & E & Hp).
      exists g. rewrite E. simpl. rewrite String.eqb_refl. auto.
  - intros s. rewrite key_present, service_totals_after,
      accumulate_from_nothing, stored_iff.
    unfold service_contributions. rewrite selected_nonempty. split.
    + intros (g & Hg & Hp). rewrite andb_true_iff, String.eqb_eq in Hp.
      destruct Hp as [E Hp]. exists (fst (Keys g)). apply P. exists g.
      destruct (Keys g). simpl in *. subst. auto.
    + intros (a & Ha). apply P in Ha. destruct Ha as (g & Hg & E & Hp).
      exists g. rewrite E. simpl. rewrite String.eqb_refl. auto.
Qed.

(** *** The order of the report *)

Lemma contributions_positive (c : group (string * string) -> bool) groups :
  Forall (fun x => (0 <? x) = true)
         (map (@Amount _) (filter (fun g => c g && (0 <? Amount g)) groups)).
Proof.
  apply Forall_forall. intros x Hx. apply in_map_iff in Hx.
  destruct Hx as (g & <- & Hg). apply filter_In in Hg.
  destruct Hg as [_ Hg]. apply andb_true_iff in Hg. tauto.
Qed.

Lemma account_total_plus groups aid total :
  In (aid, total) (account_totals (add_groups empty_aggregation groups)) ->
  sf_plus (Prim2SF total) = true.
Proof.
  intros H. apply get_In in H.
  - rewrite account_totals_after, accumulate_from_nothing in H.
    apply stored_total in H. subst total.
    apply sum_of_positives_plus; [|reflexivity].
    apply (contributions_positive
             (fun g => String.eqb (fst (Keys g)) aid)).
  - apply (totals_NoDup groups empty_aggregation); constructor.
Qed.

Lemma service_total_plus groups svc total :
  In (svc, total) (service_totals (add_groups empty_aggregation groups)) ->
  sf_plus (Prim2SF total) = true.
Proof.
  intros H. apply get_In in H.
  - rewrite service_totals_after, accumulate_from_nothing in H.
    apply stored_total in H. subst total.
    apply sum_of_positives_plus; [|reflexivity].
    apply (contributions_positive
             (fun g => String.eqb (snd (Keys g)) svc)).
  - apply (totals_NoDup groups empty_aggregation); constructor.
Qed.

Lemma plus_nonneg x : sf_plus (Prim2SF x) = true -> (0 <=? x) = true.
Proof.
  rewrite leb_spec. change (Prim2SF 0) with (S754_zero false).
  destruct (Prim2SF x) as [s|s| |s m e]; try destruct s;
    cbv [sf_plus SFleb SFcompare]; congruence.
Qed.

Lemma StronglySorted_map {A B : Type} (R : B -> B -> Prop) (f : A -> B) l :
  StronglySorted (fun a b => R (f a) (f b)) l -> StronglySorted R (map f l).
Proof.
  induction 1 as [|x l Hl IH Hx]; simpl; constructor; auto.
  apply Forall_forall. intros y Hy. apply in_map_iff in Hy.
  destruct Hy as (z & <- & Hz). rewrite Forall_forall in Hx. auto.
Qed.

Lemma filter_keys_NoDup {V : Type} (p : string * V -> bool) (d : dict V) :
  NoDup (keys d) -> NoDup (keys (filter p d)).
Proof.
  unfold keys. induction d as [|x d IH]; simpl; intros H; [constructor|].
  inversion H as [|? ? Hx Hd]; subst. destruct (p x); simpl; auto.
  constructor; auto. intros Hin. apply Hx.
  apply in_map_iff in Hin. destruct Hin as (y & E & Hy).
  apply filter_In in Hy. apply in_map_iff. exists y. tauto.
Qed.

(** X14: the accounts of the report are those whose total reaches
    [--min-cost], each once, in descending order of total, and no total is
    negative or NaN; the service columns are the first N (or all) of the
    services in descending order of their total.  When the report is
    skipped, no account reaches the minimum. *)
Theorem report_is_sorted
    (groups : list (group (string * string)))
    (names : dict (option string)) (args : arguments) :
  match build_report args (add_groups empty_aggregation groups) names with
  | Some r =>
      StronglySorted (fun a b => (row_total b <=? row_total a) = true)
                     (body (printed r)) /\
      NoDup (map row_id (body (printed r))) /\
      Forall (fun row => (0 <=? row_total row) = true) (body (printed r)) /\
      (forall aid total,
          (exists row, In row (body (printed r)) /\
                       row_id row = aid /\ row_total row = total) <->
          get (account_totals (add_groups empty_aggregation groups)) aid
          = Some total /\
          (min_cost args <=? total) = true) /\
      (exists sorted,
          Permutation sorted
            (service_totals (add_groups empty_aggregation groups)) /\
          StronglySorted (fun a b => (snd b <=? snd a) = true) sorted /\
          header_services (printed r) = map fst (top_n args sorted))
  | None =>
      forall aid total,
        get (account_totals (add_groups empty_aggregation groups)) aid
        = Some total ->
        (min_cost args <=? total) = false
  end.
Proof.
  unfold build_report.
  set (agg := add_groups empty_aggregation groups).
  assert (ND : NoDup (keys (account_totals agg))).
  { apply (totals_NoDup groups empty_aggregation); constructor. }
  assert (Hin : forall at_,
             In at_ (retained_accounts args agg) <->
             In at_ (account_totals agg) /\
             (min_cost args <=? snd at_) = true).
  { intros at_. unfold retained_accounts.
    rewrite sort_desc_In, filter_In. tauto. }
  assert (Hsorted : StronglySorted (desc snd) (retained_accounts args agg)).
  { apply sort_desc_sorted. apply Forall_forall. intros [aid total] H.
    apply filter_In in H. destruct H as [H _].
    apply plus_not_nan, (account_total_plus groups aid). exact H. }
  assert (Hnodup : NoDup (map fst (retained_accounts args agg))).
  { unfold retained_accounts.
    eapply Permutation_NoDup.
    - apply Permutation_sym, Permutation_map, sort_desc_perm.
    - apply (filter_keys_NoDup _ (account_totals agg)). exact ND. }
  destruct (retained_accounts args agg) as [|at_ rest] eqn:Hacc.
  - intros aid total G. apply get_Some_In in G.
    destruct (min_cost args <=? total) eqn:E; [|reflexivity].
    exfalso. apply (proj2 (Hin (aid, total))). auto.
  - cbn [printed body header_services]. rewrite <- Hacc in *.
    split; [|split; [|split; [|split]]].
    + apply StronglySorted_map. exact Hsorted.
    + rewrite map_map. exact Hnodup.
    + apply Forall_forall. intros row Hrow. apply in_map_iff in Hrow.
      destruct Hrow as ([aid total] & <- & H). simpl.
      apply Hin in H. destruct H as [H _].
      apply plus_nonneg, (account_total_plus groups aid). exact H.
    + intros aid total. split.
      * intros (row & Hrow & <- & <-). apply in_map_iff in Hrow.
        destruct Hrow as ([aid total] & <- & H). simpl.
        apply Hin in H. destruct H as [H L]. split; [|exact L].
        apply get_In; assumption.
      * intros [G L]. apply get_Some_In in G.
        exists (printed_row_of agg names (service_names args agg)
                               (aid, total)).
        split; [|split; reflexivity]. apply in_map. apply Hin. auto.
    + exists (sort_desc snd (service_totals agg)).
      split; [apply sort_desc_perm|]. split; [|reflexivity].
      apply (sort_desc_sorted snd). apply Forall_forall.
      intros [svc total] H.
      apply plus_not_nan, (service_total_plus groups svc). exact H.
Qed.

(** X15: the CSV file of a report is rectangular: the header, every
    account row and the TOTAL row have three cells and one cell for each
    service column; so have the lines of the printed table; and the number
    of service columns is the number of services with a total, capped at
    [--top-services] when that is positive. *)
Theorem report_is_rectangular
    (agg : aggregation) (names : dict (option string)) (args : arguments) :
  match build_report args agg names with
  | Some r =>
      List.length (csv_header r)
      = (3 + List.length (header_services (printed r)))%nat /\
      Forall (fun line => List.length line = List.length (csv_header r))
             (csv_rows r) /\
      List.length (csv_total r) = List.length (csv_header r) /\
      Forall (fun row =>
                List.length (row_cells row)
                = List.length (header_services (printed r)))
             (body (printed r)) /\
      List.length (footer_cells (printed r))
      = List.length (header_services (printed r)) /\
      List.length (csv_rows r) = List.length (body (printed r)) /\
      List.length (header_services (printed r))
      = (if (0 <? top_services args)%Z
         then Nat.min (Z.to_nat (top_services args))
                      (List.length (service_totals agg))
         else List.length (service_totals agg))
  | None => True
  end.
Proof.
  unfold build_report.
  destruct (retained_accounts args agg) as [|at_ rest]; [exact I|].
  cbn [printed body header_services csv_header csv_rows csv_total
       footer_cells].
  split; [reflexivity|]. split.
  { apply Forall_forall. intros line Hline. apply in_map_iff in Hline.
    destruct Hline as (x & <- & _). unfold csv_row_of.
    rewrite !length_app, length_map. reflexivity. }
  split; [rewrite !length_app, length_map; reflexivity|]. split.
  { apply Forall_forall. intros row Hrow. apply in_map_iff in Hrow.
    destruct Hrow as (x & <- & _). simpl. apply length_map. }
  split; [apply length_map|]. split; [rewrite !length_map; reflexivity|].
  unfold service_names. rewrite length_map.
  assert (L : List.length (sort_desc snd (service_totals agg))
              = List.length (service_totals agg)).
  { apply Permutation_length, sort_desc_perm. }
  destruct (0 <? top_services args)%Z.
  - rewrite length_firstn, L. reflexivity.
  - exact L.
Qed.

End AggregatorExtras.

(** * aws_cost.py: whole-dollar totals *)

Module AwsCostExtras.

Import FloatFacts FloatFacts2 DictFacts AwsCost.
Open Scope string_scope.
Open Scope list_scope.
Open Scope Z_scope.

Lemma digits2_pos_bound m : Zpos m < 2 ^ Zpos (digits2_pos m).
Proof.
  induction m as [m IH|m IH|]; simpl digits2_pos.
  - rewrite Pos2Z.inj_succ, Z.pow_succ_r by lia. lia.
  - rewrite Pos2Z.inj_succ, Z.pow_succ_r by lia. lia.
  - reflexivity.
Qed.

Lemma valid_mantissa_bound m e s :
  valid_binary (S754_finite s m e) = true -> Zpos m < 2 ^ 53 /\ -1074 <= e.
Proof.
  unfold valid_binary, bounded, canonical_mantissa, fexp.
  intros H. apply andb_true_iff in H. destruct H as [H _].
  apply Z.eqb_eq in H.
  change (emin) with (-1074) in H. change (prec) with 53 in H.
  pose proof (digits2_pos_bound m) as B.
  assert (D : Zpos (digits2_pos m) <= 53) by lia.
  split; [|lia].
  eapply Z.lt_le_trans; [exact B|].
  apply Z.pow_le_mono_r; lia.
Qed.

Lemma below_one_cases m e :
  SFltb (S754_finite false m e) (S754_finite false 4503599627370496 (-52))
  = true ->
  e < -52 \/ (e = -52 /\ Zpos m < 4503599627370496).
Proof.
  unfold SFltb, SFcompare.
  destruct (Z.compare_spec e (-52)) as [E|E|E]; try discriminate.
  - subst e. intros H. right. split; [reflexivity|].
    pose proof (Pos.compare_spec m 4503599627370496) as C.
    unfold Pos.compare in C.
    destruct C as [M|M|M]; try discriminate. exact M.
  - intros _. left. exact E.
Qed.

Lemma one_spec : Prim2SF 1 = S754_finite false 4503599627370496 (-52).
Proof. reflexivity. Qed.

Lemma truncated_to_zero s m e :
  Zpos m < 2 ^ 53 ->
  e < -52 \/ (e = -52 /\ Zpos m < 4503599627370496) ->
  cond_Zopp s
    match e with
    | Zneg p => Zpos m / Z.pow_pos 2 p
    | _ => Zpos m * 2 ^ e
    end = 0.
Proof.
  intros B [E|[E M]].
  - destruct e as [|p|p]; try lia.
    rewrite Z.pow_pos_fold, Z.div_small; [destruct s; reflexivity|].
    split; [apply Pos2Z.is_nonneg|].
    eapply Z.lt_le_trans; [exact B|]. clear B.
    apply Z.pow_le_mono_r; lia.
  - subst e. rewrite Z.pow_pos_fold, Z.div_small; [destruct s; reflexivity|].
    split; [apply Pos2Z.is_nonneg|].
    replace (2 ^ Z.pos 52) with 4503599627370496 by reflexivity.
    exact M.
Qed.

(** An amount under one dollar, of either sign, has no whole dollars. *)
Lemma int_of_float_small x :
  (abs x <? 1)%float = true -> int_of_float x = Ok 0.
Proof.
  rewrite ltb_spec, abs_spec, one_spec. unfold int_of_float.
  pose proof (Prim2SF_valid x) as V.
  destruct (Prim2SF x) as [s|s| |s m e];
    [reflexivity | discriminate | discriminate |].
  apply valid_mantissa_bound in V. destruct V as [B _].
  intros H. apply below_one_cases in H.
  rewrite (truncated_to_zero s m e B H). reflexivity.
Qed.

Lemma int_of_float_finite x :
  is_finite x = true -> int_of_float x = Ok (whole_dollars x).
Proof.
  rewrite is_finite_spec. unfold whole_dollars, int_of_float.
  destruct (Prim2SF x); simpl; congruence.
Qed.

Lemma int_of_float_not_finite x :
  is_finite x = false -> exists e, int_of_float x = Raise e.
Proof.
  rewrite is_finite_spec. unfold int_of_float.
  destruct (Prim2SF x); simpl; try congruence; eexists; reflexivity.
Qed.

Lemma days_fold {A B : Type} (f : A -> B -> A) (days : list (list B)) a :
  fold_left (fun acc day => fold_left f day acc) days a
  = fold_left f (List.concat days) a.
Proof.
  revert a. induction days as [|d ds IH]; intros a; simpl.
  - reflexivity.
  - rewrite fold_left_app. apply IH.
Qed.

Lemma add_group_raise groups e :
  fold_left add_group groups (Raise e) = Raise e.
Proof. induction groups; simpl; auto. Qed.

Lemma add_groups_finite groups :
  Forall (fun g => is_finite (Amount g) = true) groups ->
  forall t0, NoDup (keys t0) ->
  exists t,
    fold_left add_group groups (Ok t0) = Ok t /\
    NoDup (keys t) /\
    (forall svc, In svc (keys t) <->
                 In svc (keys t0) \/ In svc (map (@Keys _) groups)) /\
    forall svc,
      get_default t svc 0
      = get_default t0 svc 0 + whole_dollars_of svc groups.
Proof.
  induction 1 as [|g gs Hg Hgs IH]; intros t0 N0.
  - exists t0. simpl. repeat split; auto; try tauto.
    intros svc. unfold whole_dollars_of. simpl. lia.
  - simpl. rewrite (int_of_float_finite _ Hg). simpl.
    destruct (IH (iadd_int t0 (Keys g) (whole_dollars (Amount g))))
      as (t & E & N & K & G).
    { apply keys_setitem_NoDup. exact N0. }
    exists t. split; [exact E|]. split; [exact N|]. split.
    + intros svc. rewrite K. unfold iadd_int.
      rewrite keys_setitem_In. intuition.
    + intros svc. rewrite G. unfold iadd_int.
      rewrite get_default_setitem. unfold whole_dollars_of. simpl.
      destruct (String.eqb (Keys g) svc) eqn:E1.
      * apply String.eqb_eq in E1. subst svc. simpl. lia.
      * lia.
Qed.

Lemma finite_amounts_total (response : cost_and_usage_response string) :
  Forall (fun g => is_finite (Amount g) = true)
         (List.concat (ResultsByTime response)) ->
  exists totals, service_totals_of response = Ok totals.
Proof.
  intros H. unfold service_totals_of. rewrite days_fold.
  destruct (add_groups_finite _ H [] (NoDup_nil _)) as (t & E & _).
  exists t. exact E.
Qed.

(** X16: when every amount of the response is a finite number, the total
    of a service is the sum of the whole dollars of its daily amounts:
    each amount is cut to an integer before it is added.  The result has
    one entry for each service of the response. *)
Theorem service_totals_add_whole_dollars
    (response : cost_and_usage_response string) :
  Forall (fun g => is_finite (Amount g) = true)
         (List.concat (ResultsByTime response)) ->
  exists totals,
    service_totals_of response = Ok totals /\
    NoDup (keys totals) /\
    (forall svc,
        In svc (keys totals) <->
        In svc (map (@Keys _) (List.concat (ResultsByTime response)))) /\
    forall svc,
      get_default totals svc 0
      = whole_dollars_of svc (List.concat (ResultsByTime response)).
Proof.
  intros H. unfold service_totals_of. rewrite days_fold.
  destruct (add_groups_finite _ H [] (NoDup_nil _)) as (t & E & N & K & G).
  exists t. split; [exact E|]. split; [exact N|]. split.
  - intros svc. rewrite K. simpl. tauto.
  - intros svc. rewrite G. reflexivity.
Qed.

Lemma service_totals_witness :
  service_totals_of sample_response = Ok [("EC2", 3); ("S3", 0)] /\
  exists totals,
    service_totals_of sample_response = Ok totals /\
    NoDup (keys totals) /\
    (forall svc,
        In svc (keys totals) <->
        In svc (map (@Keys _)
                    (List.concat (ResultsByTime sample_response)))) /\
    forall svc,
      get_default totals svc 0
      = whole_dollars_of svc (List.concat (ResultsByTime sample_response)).
Proof.
  split; [reflexivity|].
  apply (service_totals_add_whole_dollars sample_response).
  repeat constructor.
Defined.

Lemma whole_dollars_small groups svc :
  Forall (fun g => (abs (Amount g) <? 1)%float = true) groups ->
  whole_dollars_of svc groups = 0.
Proof.
  unfold whole_dollars_of. induction 1 as [|g gs Hg Hgs IH]; simpl.
  - reflexivity.
  - destruct (String.eqb (Keys g) svc); [|exact IH]. simpl.
    unfold whole_dollars at 1. rewrite (int_of_float_small _ Hg).
    exact IH.
Qed.

Lemma small_is_finite x : (abs x <? 1)%float = true -> is_finite x = true.
Proof.
  rewrite ltb_spec, abs_spec, is_finite_spec.
  destruct (Prim2SF x) as [s|s| |s m e]; try reflexivity; discriminate.
Qed.

Lemma small_amounts_zero (response : cost_and_usage_response string) :
  Forall (fun g => (abs (Amount g) <? 1)%float = true)
         (List.concat (ResultsByTime response)) ->
  exists totals,
    service_totals_of response = Ok totals /\
    Forall (fun kv => snd kv = 0) totals.
Proof.
  intros H. unfold service_totals_of. rewrite days_fold.
  destruct (add_groups_finite (List.concat (ResultsByTime response)))
    with (t0 := @nil (string * Z)) as (t & E & N & K & G).
  { eapply Forall_impl; [|exact H]. intros g. apply small_is_finite. }
  { constructor. }
  exists t. split; [exact E|].
  apply Forall_forall. intros [svc v] Hin. simpl.
  apply get_In in Hin; [|exact N].
  specialize (G svc). unfold get_default in G. rewrite Hin in G.
  rewrite G. simpl. apply whole_dollars_small. exact H.
Qed.

(** X17: a service whose amount is under one dollar on every day has the
    total 0, however many days there are and whatever the amounts add up
    to. *)
Theorem sub_dollar_amounts_total_zero
    (response : cost_and_usage_response string) :
  Forall (fun g => (abs (Amount g) <? 1)%float = true)
         (List.concat (ResultsByTime response)) ->
  exists totals,
    service_totals_of response = Ok totals /\
    Forall (fun kv => snd kv = 0) totals.
Proof. apply small_amounts_zero. Qed.

Lemma sub_dollar_amounts_witness :
  service_totals_of cents_every_day = Ok [("S3", 0)] /\
  exists totals,
    service_totals_of cents_every_day = Ok totals /\
    Forall (fun kv => snd kv = 0) totals.
Proof.
  split; [reflexivity|].
  apply (sub_dollar_amounts_total_zero cents_every_day).
  repeat constructor.
Defined.

End AwsCostExtras.

(** * aws_cost.py: roles, regions and the loop over the accounts *)

Module AwsCostMainExtras.

Import DictFacts PaginationFacts AwsCost AwsCostMain AwsCostExtras.
Open Scope string_scope.
Open Scope list_scope.
Open Scope Z_scope.

(** *** Runs *)

Lemma and_then_fst {A B : Type} (m : run A) (k : A -> run B) :
  fst (and_then m k)
  = fst m ++ match snd m with
             | Ok a => fst (k a)
             | Raise _ => []
             end.
Proof.
  destruct m as [t [a|e]]; simpl.
  - destruct (k a); reflexivity.
  - rewrite app_nil_r. reflexivity.
Qed.

Lemma and_then_snd {A B : Type} (m : run A) (k : A -> run B) :
  snd (and_then m k)
  = match snd m with
    | Ok a => snd (k a)
    | Raise e => Raise e
    end.
Proof.
  destruct m as [t [a|e]]; simpl; [destruct (k a)|]; reflexivity.
Qed.

Lemma for_each_print {A : Type} (f : A -> line) (l : list A) :
  for_each l (fun x => print (f x)) = (map (fun x => Stdout (f x)) l, Ok tt).
Proof.
  induction l as [|x xs IH]; simpl; [reflexivity|].
  rewrite IH. reflexivity.
Qed.

(** A loop runs its body on the elements in order, up to and including the
    first one that raises. *)
Lemma for_each_prefix {A : Type} (body : A -> run unit) (l : list A) :
  exists done rest,
    l = done ++ rest /\
    fst (for_each l body) = flat_map (fun x => fst (body x)) done /\
    (snd (for_each l body) = Ok tt -> rest = []) /\
    (Forall (fun x => snd (body x) = Ok tt) l ->
     snd (for_each l body) = Ok tt).
Proof.
  induction l as [|x xs IH].
  - exists [], []. simpl. repeat split; auto.
  - destruct IH as (done & rest & E & T & R & C).
    cbn [for_each]. rewrite and_then_fst, and_then_snd.
    destruct (snd (body x)) as [[]|e] eqn:B.
    + exists (x :: done), rest. subst xs. simpl. rewrite T.
      repeat split; auto.
      intros H. inversion H; subst. auto.
    + exists [x], xs. simpl. rewrite !app_nil_r.
      repeat split; try discriminate.
      intros H. inversion H; subst. congruence.
Qed.

(** *** [assume_role] *)

Lemma assume_role_outcome
    (sts : string -> result credentials) (account_id : string)
    (role_names : list string) :
  match assume_role sts account_id role_names with
  | (calls, Ok (Some creds)) =>
      exists before rn after,
        role_names = before ++ rn :: after /\
        Forall (refused sts account_id) before /\
        sts (role_arn account_id rn) = Ok creds /\
        calls = assume_role_calls account_id (before ++ [rn])
  | (calls, Ok None) =>
      Forall (refused sts account_id) role_names /\
      calls = assume_role_calls account_id role_names
  | (calls, Raise e) =>
      e <> ClientError /\
      exists before rn after,
        role_names = before ++ rn :: after /\
        Forall (refused sts account_id) before /\
        sts (role_arn account_id rn) = Raise e /\
        calls = assume_role_calls account_id (before ++ [rn])
  end.
Proof.
  induction role_names as [|rn rest IH].
  - simpl. split; [constructor|reflexivity].
  - cbn [assume_role]. unfold emit, and_then.
    destruct (sts (role_arn account_id rn)) as [creds|e] eqn:S.
    + simpl. exists [], rn, rest. repeat split; auto.
    + assert (R : e = ClientError -> refused sts account_id rn).
      { intros ->. exact S. }
      destruct e;
        try (simpl; split; [discriminate|];
             exists [], rn, rest; repeat split; auto; fail).
      specialize (R eq_refl).
      destruct (assume_role sts account_id rest) as [calls [[creds|]|e]].
      * destruct IH as (before & rn' & after & E & F & A & C).
        exists (rn :: before), rn', after. subst. simpl.
        repeat split; auto.
      * destruct IH as [F C]. subst. simpl. split; auto.
      * destruct IH as (N & before & rn' & after & E & F & A & C).
        split; [exact N|].
        exists (rn :: before), rn', after. subst. simpl.
        repeat split; auto.
Qed.

(** X18: [assume_role] asks STS for the role names in their order and
    stops at the first one that is accepted, whose credentials it returns;
    it returns [None] when STS refuses every role with a [ClientError];
    any other exception of STS ends the attempts and is passed on. *)
Theorem assume_role_takes_first_accepted
    (sts : string -> result credentials) (account_id : string)
    (role_names : list string) :
  match assume_role sts account_id role_names with
  | (calls, Ok (Some creds)) =>
      exists before rn after,
        role_names = before ++ rn :: after /\
        Forall (refused sts account_id) before /\
        sts (role_arn account_id rn) = Ok creds /\
        calls = assume_role_calls account_id (before ++ [rn])
  | (calls, Ok None) =>
      Forall (refused sts account_id) role_names /\
      calls = assume_role_calls account_id role_names
  | (calls, Raise e) =>
      e <> ClientError /\
      exists before rn after,
        role_names = before ++ rn :: after /\
        Forall (refused sts account_id) before /\
        sts (role_arn account_id rn) = Raise e /\
        calls = assume_role_calls account_id (before ++ [rn])
  end.
Proof. apply assume_role_outcome. Qed.

(** *** The order of strings *)

Lemma ascii_compare_refl a : Ascii.compare a a = Eq.
Proof. apply N.compare_refl. Qed.

Lemma ascii_compare_lt_trans a b c :
  Ascii.compare a b = Lt -> Ascii.compare b c = Lt ->
  Ascii.compare a c = Lt.
Proof.
  unfold Ascii.compare. rewrite !N.compare_lt_iff. apply N.lt_trans.
Qed.

Lemma string_compare_lt_trans a :
  forall b c,
    String.compare a b = Lt -> String.compare b c = Lt ->
    String.compare a c = Lt.
Proof.
  induction a as [|x a IH]; intros [|y b] [|z c]; simpl;
    try discriminate; auto.
  destruct (Ascii.compare x y) eqn:C1; try discriminate;
    destruct (Ascii.compare y z) eqn:C2; try discriminate.
  - apply Ascii.compare_eq_iff in C1, C2. subst.
    rewrite ascii_compare_refl. apply IH.
  - apply Ascii.compare_eq_iff in C1. subst. rewrite C2. reflexivity.
  - apply Ascii.compare_eq_iff in C2. subst. rewrite C1. reflexivity.
  - rewrite (ascii_compare_lt_trans _ _ _ C1 C2). reflexivity.
Qed.

Lemma string_leb_trans a b c :
  (a <=? b)%string = true -> (b <=? c)%string = true ->
  (a <=? c)%string = true.
Proof.
  unfold String.leb.
  destruct (String.compare a b) eqn:C1; try discriminate;
    destruct (String.compare b c) eqn:C2; try discriminate; intros _ _.
  - apply String.compare_eq_iff in C1. subst. rewrite C2. reflexivity.
  - apply String.compare_eq_iff in C1. subst. rewrite C2. reflexivity.
  - apply String.compare_eq_iff in C2. subst. rewrite C1. reflexivity.
  - rewrite (string_compare_lt_trans _ _ _ C1 C2). reflexivity.
Qed.

Lemma string_not_ltb_leb a b :
  (b <? a)%string = false -> (a <=? b)%string = true.
Proof.
  unfold String.ltb, String.leb. rewrite (String.compare_antisym a b).
  destruct (String.compare b a); simpl; congruence.
Qed.

Lemma string_ltb_leb a b :
  (a <? b)%string = true -> (a <=? b)%string = true.
Proof.
  unfold String.ltb, String.leb.
  destruct (String.compare a b); congruence.
Qed.

Lemma insert_sorted_perm x l : Permutation (insert_sorted x l) (x :: l).
Proof.
  induction l as [|y ys IH]; simpl; [reflexivity|].
  destruct (y <? x)%string; [|reflexivity].
  rewrite IH. apply perm_swap.
Qed.

Lemma sorted_perm l : Permutation (sorted l) l.
Proof.
  induction l as [|x xs IH]; simpl; [reflexivity|].
  rewrite insert_sorted_perm. constructor. exact IH.
Qed.

Lemma insert_sorted_sorted x l :
  StronglySorted (fun a b => (a <=? b)%string = true) l ->
  StronglySorted (fun a b => (a <=? b)%string = true) (insert_sorted x l).
Proof.
  induction 1 as [|y ys Hys IH Hy]; simpl.
  - repeat constructor.
  - destruct (y <? x)%string eqn:E.
    + constructor; [exact IH|].
      apply Forall_forall. intros z Hz.
      apply (Permutation_in _ (insert_sorted_perm x ys)) in Hz.
      destruct Hz as [<-|Hz]; [apply string_ltb_leb; exact E|].
      rewrite Forall_forall in Hy. auto.
    + apply string_not_ltb_leb in E.
      constructor; [constructor; assumption|].
      constructor; [exact E|].
      eapply Forall_impl; [|exact Hy]. intros z Hz. simpl in Hz.
      eapply string_leb_trans; eassumption.
Qed.

Lemma sorted_sorted l :
  StronglySorted (fun a b => (a <=? b)%string = true) (sorted l).
Proof.
  induction l as [|x xs IH]; simpl; [constructor|].
  apply insert_sorted_sorted. exact IH.
Qed.

Lemma enabled_spec r :
  enabled r = true <->
  OptInStatus r = None \/ OptInStatus r = Some "opt-in-not-required" \/
  OptInStatus r = Some "opted-in".
Proof.
  unfold enabled. destruct (OptInStatus r) as [status|].
  - rewrite orb_true_iff, !String.eqb_eq. split.
    + intros [->| ->]; auto.
    + intros [H|[H|H]]; inversion H; auto.
  - split; auto.
Qed.

(** X19: [list_enabled_regions] returns, in ascending order and as often
    as they are listed, the names of the regions whose opt-in status is
    missing, "opt-in-not-required" or "opted-in"; a failure of the listing
    is passed on. *)
Theorem enabled_regions_are_sorted
    (env : environment) (sess : credentials) :
  match describe_regions env sess with
  | Ok regions =>
      exists names,
        list_enabled_regions env sess = Ok names /\
        StronglySorted (fun a b => (a <=? b)%string = true) names /\
        Permutation names (map RegionName (filter enabled regions)) /\
        forall name,
          In name names <->
          exists r, In r regions /\ RegionName r = name /\
                    (OptInStatus r = None \/
                     OptInStatus r = Some "opt-in-not-required" \/
                     OptInStatus r = Some "opted-in")
  | Raise e => list_enabled_regions env sess = Raise e
  end.
Proof.
  unfold list_enabled_regions.
  destruct (describe_regions env sess) as [regions|e]; [|reflexivity].
  simpl. eexists. split; [reflexivity|].
  split; [apply sorted_sorted|]. split; [apply sorted_perm|].
  intros name. split.
  - intros H. apply (Permutation_in _ (sorted_perm _)) in H.
    apply in_map_iff in H. destruct H as (r & <- & H).
    apply filter_In in H. destruct H as [H E].
    exists r. rewrite <- enabled_spec. auto.
  - intros (r & H & <- & E).
    apply (Permutation_in _ (Permutation_sym (sorted_perm _))).
    apply in_map. apply filter_In. rewrite enabled_spec. auto.
Qed.

(** The first name of the sorted list is the least. *)
Lemma sorted_head first others l :
  sorted l = first :: others ->
  In first l /\ forall name, In name l -> (first <=? name)%string = true.
Proof.
  intros E. pose proof (sorted_sorted l) as S. pose proof (sorted_perm l) as P.
  rewrite E in S, P. split.
  - apply (Permutation_in _ P). left. reflexivity.
  - intros name H.
    apply (Permutation_in _ (Permutation_sym P)) in H.
    inversion S as [|? ? _ F]; subst.
    destruct H as [<-|H'].
    + apply string_not_ltb_leb. unfold String.ltb.
      destruct (String.compare first first) eqn:C; try reflexivity.
      pose proof (String.compare_antisym first first) as A.
      rewrite C in A. discriminate.
    + rewrite Forall_forall in F. auto.
Qed.

(** *** The summary in descending order *)

Lemma insert_by_value_perm x l :
  Permutation (insert_by_value x l) (x :: l).
Proof.
  induction l as [|y ys IH]; simpl; [reflexivity|].
  destruct (snd x <? snd y); [|reflexivity].
  rewrite IH. apply perm_swap.
Qed.

Lemma sorted_by_value_perm l : Permutation (sorted_by_value l) l.
Proof.
  induction l as [|x xs IH]; simpl; [reflexivity|].
  rewrite insert_by_value_perm. constructor. exact IH.
Qed.

Lemma insert_by_value_sorted x l :
  StronglySorted (fun a b : string * Z => snd b <= snd a) l ->
  StronglySorted (fun a b : string * Z => snd b <= snd a)
                 (insert_by_value x l).
Proof.
  induction 1 as [|y ys Hys IH Hy]; simpl.
  - repeat constructor.
  - destruct (snd x <? snd y) eqn:E.
    + apply Z.ltb_lt in E. constructor; [exact IH|].
      apply Forall_forall. intros z Hz.
      apply (Permutation_in _ (insert_by_value_perm x ys)) in Hz.
      destruct Hz as [<-|Hz]; [lia|].
      rewrite Forall_forall in Hy. auto.
    + apply Z.ltb_ge in E.
      constructor; [constructor; assumption|].
      constructor; [exact E|].
      eapply Forall_impl; [|exact Hy]. intros z Hz. simpl in Hz. lia.
Qed.

Lemma sorted_by_value_sorted l :
  StronglySorted (fun a b : string * Z => snd b <= snd a)
                 (sorted_by_value l).
Proof.
  induction l as [|x xs IH]; simpl; [constructor|].
  apply insert_by_value_sorted. exact IH.
Qed.

(** *** One account *)

Lemma processed_app t1 t2 : processed (t1 ++ t2) = processed t1 ++ processed t2.
Proof. apply flat_map_app. Qed.

Lemma cost_queries_app t1 t2 :
  cost_queries (t1 ++ t2) = cost_queries t1 ++ cost_queries t2.
Proof. apply flat_map_app. Qed.

Lemma assume_role_calls_quiet account_id rns :
  processed (assume_role_calls account_id rns) = [] /\
  cost_queries (assume_role_calls account_id rns) = [].
Proof. induction rns; simpl; auto. Qed.

Lemma assume_role_quiet sts account_id rns :
  processed (fst (assume_role sts account_id rns)) = [] /\
  cost_queries (fst (assume_role sts account_id rns)) = [].
Proof.
  pose proof (assume_role_outcome sts account_id rns) as H.
  destruct (assume_role sts account_id rns) as [calls [[creds|]|e]]; simpl.
  - destruct H as (b & rn & a & _ & _ & _ & ->).
    apply assume_role_calls_quiet.
  - destruct H as [_ ->]. apply assume_role_calls_quiet.
  - destruct H as (_ & b & rn & a & _ & _ & _ & ->).
    apply assume_role_calls_quiet.
Qed.

Lemma cost_lines_quiet (l : list (string * Z)) :
  processed (map (fun kv => Stdout (CostLine (fst kv) (snd kv))) l) = [] /\
  cost_queries (map (fun kv => Stdout (CostLine (fst kv) (snd kv))) l) = [].
Proof. induction l; simpl; auto. Qed.

(** What [report_region] does once the cost query is answered. *)
Lemma report_region_answered env sess name region_name summary :
  fst (get_aws_service_totals_last_30_days
         (cost_explorer env sess region_name)) = Ok summary ->
  report_region env sess name region_name
  = (GetCostAndUsageIn sess region_name
       :: (if existsb (fun kv => 0 <? snd kv) (sorted_by_value summary)
           then Stdout (FoundCostsLine name region_name)
                  :: map (fun kv => Stdout (CostLine (fst kv) (snd kv)))
                         (sorted_by_value summary)
           else []),
     Ok tt).
Proof.
  intros E. unfold report_region, emit. cbn [and_then]. rewrite E.
  destruct (existsb _ _).
  - rewrite for_each_print. reflexivity.
  - reflexivity.
Qed.

Lemma report_region_trace env sess name region_name :
  exists lines,
    fst (report_region env sess name region_name)
    = GetCostAndUsageIn sess region_name :: lines /\
    processed lines = [] /\ cost_queries lines = [].
Proof.
  destruct (fst (get_aws_service_totals_last_30_days
                   (cost_explorer env sess region_name)))
    as [summary|e] eqn:E.
  - rewrite (report_region_answered _ _ _ _ _ E). simpl.
    eexists. split; [reflexivity|].
    destruct (existsb _ _); [|auto]. simpl. apply cost_lines_quiet.
  - unfold report_region, emit. cbn [and_then]. rewrite E. simpl.
    exists []. auto.
Qed.

Lemma process_account_trace env rns aid name :
  exists t,
    fst (process_account env rns (aid, name))
    = Stdout (ProcessingLine aid name) :: t /\
    processed t = [] /\
    (cost_queries t = [] \/
     exists query,
       cost_queries t = [query] /\ least_enabled_region env query).
Proof.
  unfold process_account, print, emit.
  rewrite and_then_fst. cbn [fst snd app].
  rewrite and_then_fst.
  destruct (assume_role_quiet (sts_assume_role env) aid rns) as [P Q].
  eexists. split; [reflexivity|].
  rewrite processed_app, cost_queries_app, P, Q. cbn [app].
  destruct (snd (assume_role (sts_assume_role env) aid rns))
    as [[sess|]|e]; [|simpl; auto|simpl; auto].
  rewrite and_then_fst. cbn [fst snd app].
  change (processed (DescribeRegions sess :: ?t)) with (processed t).
  change (cost_queries (DescribeRegions sess :: ?t)) with (cost_queries t).
  unfold list_enabled_regions.
  destruct (describe_regions env sess) as [regions|e] eqn:D.
  - cbn [bind].
    destruct (sorted (map RegionName (filter enabled regions)))
      as [|first others] eqn:S; [simpl; auto|].
    destruct (report_region_trace env sess name first)
      as (lines & -> & PL & QL).
    split; [exact PL|]. right. exists (sess, first).
    cbn [cost_queries flat_map app]. fold (cost_queries lines).
    rewrite QL. split; [reflexivity|].
    exists regions. split; [exact D|].
    apply (sorted_head _ _ _ S).
  - cbn [bind]. destruct e; simpl; auto.
Qed.

(** *** The loop over the accounts *)

Lemma discover_run env :
  exists t,
    discover env = (t, Ok (discovered env)) /\
    processed t = [] /\ cost_queries t = [].
Proof.
  unfold discover, discovered.
  destruct (fst (get_linked_accounts_ce (management_ce env)));
    eexists; (split; [reflexivity|]); simpl; auto.
Qed.

Lemma bodies_trace env rns (done : list (string * option string)) :
  processed (flat_map (fun x => fst (process_account env rns x)) done)
  = done /\
  (List.length
     (cost_queries
        (flat_map (fun x => fst (process_account env rns x)) done))
   <= List.length done)%nat /\
  Forall (least_enabled_region env)
         (cost_queries
            (flat_map (fun x => fst (process_account env rns x)) done)).
Proof.
  induction done as [|[aid name] rest (IH1 & IH2 & IH3)].
  - simpl. repeat split; auto.
  - cbn [flat_map].
    destruct (process_account_trace env rns aid name) as (t & -> & P & Q).
    rewrite processed_app, cost_queries_app.
    change (processed (Stdout (ProcessingLine aid name) :: t))
      with ((aid, name) :: processed t).
    change (cost_queries (Stdout (ProcessingLine aid name) :: t))
      with (cost_queries t).
    rewrite P, IH1. split; [reflexivity|].
    destruct Q as [->|(query & -> & L)]; cbn [app List.length].
    + split; [lia|exact IH3].
    + split; [lia|]. constructor; assumption.
Qed.

(** The run of [main]: the accounts selected are gone through in order,
    up to the end or to the first one that raises. *)
Lemma main_trace lower args env :
  exists done rest,
    selected_accounts lower args env (discovered env) = done ++ rest /\
    processed (fst (main lower args env)) = done /\
    (snd (main lower args env) = Ok tt -> rest = []) /\
    (List.length (cost_queries (fst (main lower args env)))
     <= List.length done)%nat /\
    Forall (least_enabled_region env)
           (cost_queries (fst (main lower args env))) /\
    (Forall (fun x =>
               snd (process_account
                      env (comma_separated (role_names args)) x)
               = Ok tt)
            (selected_accounts lower args env (discovered env)) ->
     snd (main lower args env) = Ok tt).
Proof.
  unfold main. destruct (discover_run env) as (t & -> & P & Q).
  rewrite and_then_fst, and_then_snd. cbn [fst snd].
  destruct (for_each_prefix
              (process_account env (comma_separated (role_names args)))
              (selected_accounts lower args env (discovered env)))
    as (done & rest & E & T & R & C).
  exists done, rest. rewrite processed_app, cost_queries_app, P, Q, T.
  cbn [app].
  destruct (bodies_trace env (comma_separated (role_names args)) done)
    as (B1 & B2 & B3).
  repeat split; auto.
Qed.

Lemma profiles_fold env profs accounts :
  fold_left (add_profile env) profs accounts
  = accounts ++ flat_map (profile_entry env) profs.
Proof.
  revert accounts. induction profs as [|p ps IH]; intros accounts; simpl.
  - rewrite app_nil_r. reflexivity.
  - rewrite IH. unfold add_profile, profile_entry.
    destruct (caller_identity env p); simpl.
    + rewrite <- app_assoc. reflexivity.
    + reflexivity.
Qed.

Lemma filters_are_filters lower args :
  exists p,
    forall l,
      filter_account_name lower args (filter_account_id args l)
      = filter p l.
Proof.
  unfold filter_account_name, filter_account_id.
  assert (T : forall l : list (string * option string),
             l = filter (fun _ => true) l).
  { induction l; simpl; congruence. }
  assert (F : forall (p q : string * option string -> bool) l,
             filter q (filter p l) = filter (fun x => p x && q x) l).
  { intros p q. induction l as [|x l IH]; simpl; [reflexivity|].
    destruct (p x); simpl; [destruct (q x)|]; congruence. }
  destruct (account_id args) as [i|], (account_name args) as [n|];
    try destruct (truthy_str i); try destruct (truthy_str n);
    eexists; intros l;
    first [ apply F | reflexivity | apply T ].
Qed.

Lemma filter_ids_NoDup {V : Type} (p : string * V -> bool)
    (l : list (string * V)) :
  NoDup (map fst l) -> NoDup (map fst (filter p l)).
Proof.
  induction l as [|x l IH]; simpl; intros H; [constructor|].
  inversion H as [|? ? Hx Hl]; subst. destruct (p x); simpl; auto.
  constructor; auto. intros Hin. apply Hx.
  apply in_map_iff in Hin. destruct Hin as (y & E & Hy).
  apply filter_In in Hy. apply in_map_iff. exists y. tauto.
Qed.

Lemma app_ids_NoDup {V : Type} (l1 l2 : list (string * V)) :
  NoDup (map fst (l1 ++ l2)) -> NoDup (map fst l1).
Proof. rewrite map_app. apply NoDup_app_remove_r. Qed.

Lemma discovered_NoDup env : NoDup (map fst (discovered env)).
Proof.
  unfold discovered, get_linked_accounts_ce, linked_accounts.
  destruct (paginate _ _ _ _ _) as [[r unread] sent]. simpl.
  destruct r as [accounts|e]; simpl.
  - apply dedup_seen_NoDup.
  - constructor.
Qed.

Lemma get_app {V : Type} (l1 l2 : dict V) k :
  get (l1 ++ l2) k
  = match get l1 k with
    | Some v => Some v
    | None => get l2 k
    end.
Proof.
  induction l1 as [|[k' v] l1 IH]; simpl; [reflexivity|].
  destruct (String.eqb k' k); auto.
Qed.

Lemma selected_spec lower args env aid name :
  In (aid, name) (selected_accounts lower args env (discovered env)) ->
  get (discovered env ++
       flat_map (profile_entry env) (comma_separated (profiles args))) aid
  = Some name.
Proof.
  unfold selected_accounts.
  destruct (filters_are_filters lower args) as [p ->].
  rewrite profiles_fold. intros H. apply filter_In in H.
  destruct H as [H _].
  apply get_In in H; [|apply dedup_seen_NoDup].
  unfold dedup in H. rewrite dedup_seen_get in H. exact H.
Qed.

Lemma selected_NoDup lower args env :
  NoDup (map fst (selected_accounts lower args env (discovered env))).
Proof.
  unfold selected_accounts.
  destruct (filters_are_filters lower args) as [p ->].
  apply filter_ids_NoDup, dedup_seen_NoDup.
Qed.

Lemma profile_entries_spec env profs aid name :
  In (aid, name) (flat_map (profile_entry env) profs) ->
  exists prof,
    In prof profs /\ caller_identity env prof = Ok aid /\
    name = Some ("profile:" ++ prof)%string.
Proof.
  intros H. apply in_flat_map in H. destruct H as (prof & Hp & H).
  exists prof. split; [exact Hp|]. unfold profile_entry in H.
  destruct (caller_identity env prof) as [a|e]; [|destruct H].
  destruct H as [H|[]]. inversion H; subst. auto.
Qed.

(** X20: [main] announces no account twice, and every account it
    announces is either an account of the catalog, under the name the
    catalog gives it, or the account of one of the [--profiles], which the
    catalog does not list (or could not be read), under the name
    [profile:<name>]. *)
Theorem accounts_are_processed_once
    (lower : string -> string) (args : arguments) (env : environment) :
  NoDup (map fst (processed (fst (main lower args env)))) /\
  forall aid name,
    In (aid, name) (processed (fst (main lower args env))) ->
    In (aid, name) (discovered env) \/
    (~ In aid (map fst (discovered env)) /\
     exists prof,
       In prof (comma_separated (profiles args)) /\
       caller_identity env prof = Ok aid /\
       name = Some ("profile:" ++ prof)%string).
Proof.
  destruct (main_trace lower args env) as (done & rest & E & -> & _).
  pose proof (selected_NoDup lower args env) as N. rewrite E in N.
  split; [apply (app_ids_NoDup _ _ N)|].
  intros aid name H.
  assert (S : In (aid, name)
                 (selected_accounts lower args env (discovered env))).
  { rewrite E. apply in_or_app. auto. }
  apply selected_spec in S. rewrite get_app in S.
  destruct (get (discovered env) aid) as [n|] eqn:G.
  - left. inversion S; subst. apply get_Some_In. exact G.
  - right. split; [apply get_None_keys; exact G|].
    apply get_Some_In in S.
    apply (profile_entries_spec _ _ _ _ S).
Qed.

(** X21: for each account [main] sends at most one cost query, and every
    cost query goes to the region that comes first, in the order of
    strings, among the usable regions of the account. *)
Theorem one_cost_query_per_account
    (lower : string -> string) (args : arguments) (env : environment) :
  (List.length (cost_queries (fst (main lower args env)))
   <= List.length (processed (fst (main lower args env))))%nat /\
  Forall (least_enabled_region env)
         (cost_queries (fst (main lower args env))).
Proof.
  destruct (main_trace lower args env)
    as (done & rest & _ & -> & _ & L & F & _).
  split; assumption.
Qed.

Lemma process_account_completes env rns account :
  (forall arn e, sts_assume_role env arn = Raise e -> e = ClientError) ->
  (forall sess e, describe_regions env sess = Raise e -> e = ClientError) ->
  (forall sess region_name,
      answers_cost_query (cost_explorer env sess region_name)) ->
  snd (process_account env rns account) = Ok tt.
Proof.
  intros H1 H2 H3. destruct account as [aid name].
  unfold process_account, print, emit.
  rewrite !and_then_snd. cbn [snd].
  pose proof (assume_role_outcome (sts_assume_role env) aid rns) as A.
  destruct (assume_role (sts_assume_role env) aid rns)
    as [calls [[sess|]|e]]; cbn [snd].
  - rewrite and_then_snd. cbn [snd]. unfold list_enabled_regions.
    destruct (describe_regions env sess) as [regions|e] eqn:D.
    + cbn [bind].
      destruct (sorted (map RegionName (filter enabled regions)))
        as [|first others]; [reflexivity|].
      specialize (H3 sess first). unfold answers_cost_query in H3.
      destruct (service_pages (cost_explorer env sess first))
        as [|response more] eqn:S; [destruct H3|].
      destruct (finite_amounts_total response H3) as [totals T].
      rewrite (report_region_answered env sess name first totals).
      * reflexivity.
      * unfold get_aws_service_totals_last_30_days. rewrite S. exact T.
    + rewrite (H2 _ _ D). reflexivity.
  - reflexivity.
  - destruct A as (N & b & rn & a & _ & _ & S & _).
    elim N. apply (H1 _ _ S).
Qed.

(** X22: a run of [main] completes when every cost query is answered with
    amounts that are numbers and STS and EC2 fail with [ClientError]
    only: neither a catalog that cannot be read, nor a profile that cannot
    be resolved, nor a role that cannot be assumed, nor a refused listing
    of the regions stops it; every selected account is announced. *)
Theorem aws_cost_main_completes
    (lower : string -> string) (args : arguments) (env : environment) :
  (forall arn e, sts_assume_role env arn = Raise e -> e = ClientError) ->
  (forall sess e, describe_regions env sess = Raise e -> e = ClientError) ->
  (forall sess region_name,
      answers_cost_query (cost_explorer env sess region_name)) ->
  snd (main lower args env) = Ok tt /\
  processed (fst (main lower args env))
  = selected_accounts lower args env (discovered env).
Proof.
  intros H1 H2 H3.
  destruct (main_trace lower args env)
    as (done & rest & E & P & R & _ & _ & C).
  assert (O : snd (main lower args env) = Ok tt).
  { apply C. apply Forall_forall. intros x _.
    apply process_account_completes; assumption. }
  split; [exact O|]. rewrite P, E, (R O), app_nil_r. reflexivity.
Qed.

Lemma aws_cost_main_witness :
  main (fun s => s) sample_arguments (sample_environment sample_response)
  = ([ Stdout StartingDiscoveryLine;
       Stdout (FoundAccountsLine 1);
       Stdout (ProcessingLine "111" (Some "Prod"));
       AssumeRole "arn:aws:iam::111:role/Audit";
       AssumeRole "arn:aws:iam::111:role/OrganizationAccountAccessRole";
       DescribeRegions member_credentials;
       GetCostAndUsageIn member_credentials "eu-west-1";
       Stdout (FoundCostsLine (Some "Prod") "eu-west-1");
       Stdout (CostLine "EC2" 3);
       Stdout (CostLine "S3" 0);
       Stdout (ProcessingLine "222" (Some "profile:dev"));
       AssumeRole "arn:aws:iam::222:role/Audit";
       AssumeRole "arn:aws:iam::222:role/OrganizationAccountAccessRole" ],
     Ok tt) /\
  snd (main (fun s => s) sample_arguments
            (sample_environment sample_response)) = Ok tt /\
  processed (fst (main (fun s => s) sample_arguments
                       (sample_environment sample_response)))
  = selected_accounts (fun s => s) sample_arguments
                      (sample_environment sample_response)
                      (discovered (sample_environment sample_response)).
Proof.
  split; [reflexivity|].
  apply (aws_cost_main_completes
           (fun s => s) sample_arguments
           (sample_environment sample_response)).
  - intros arn e. simpl. destruct (String.eqb arn _); congruence.
  - intros sess e. simpl. discriminate.
  - intros sess region_name. simpl. repeat constructor.
Defined.

(** X23: without [--account-id] and [--account-name], a run of [main]
    that completes has announced every account of the catalog, under the
    name the catalog gives it. *)
Theorem catalog_accounts_are_all_processed
    (lower : string -> string) (args : arguments) (env : environment) :
  account_id args = None ->
  account_name args = None ->
  snd (main lower args env) = Ok tt ->
  forall account,
    In account (discovered env) ->
    In account (processed (fst (main lower args env))).
Proof.
  intros F1 F2 O [aid name] H.
  destruct (main_trace lower args env) as (done & rest & E & -> & R & _).
  rewrite (R O), app_nil_r in E. rewrite <- E.
  unfold selected_accounts, filter_account_name, filter_account_id.
  rewrite F1, F2, profiles_fold.
  apply get_Some_In. unfold dedup. rewrite dedup_seen_get. simpl.
  rewrite get_app.
  rewrite (get_In _ _ _ (discovered_NoDup env) H). reflexivity.
Qed.

Lemma catalog_accounts_witness :
  account_id sample_arguments = None /\
  account_name sample_arguments = None /\
  snd (main (fun s => s) sample_arguments
            (sample_environment sample_response)) = Ok tt /\
  discovered (sample_environment sample_response)
  = [("111", Some "Prod")] /\
  forall account,
    In account (discovered (sample_environment sample_response)) ->
    In account
       (processed (fst (main (fun s => s) sample_arguments
                             (sample_environment sample_response)))).
Proof.
  repeat (split; [reflexivity|]).
  apply (catalog_accounts_are_all_processed
           (fun s => s) sample_arguments
           (sample_environment sample_response)); reflexivity.
Defined.

Lemma filter_account_name_In lower args l x :
  In x (filter_account_name lower args l) -> In x l.
Proof.
  unfold filter_account_name.
  destruct (account_name args) as [n|]; auto.
  destruct (truthy_str n); auto.
  intros H. apply filter_In in H. tauto.
Qed.

Lemma same_id_once {V : Type} (l : list (string * V)) wanted :
  NoDup (map fst l) ->
  (forall x, In x l -> fst x = wanted) ->
  (List.length l <= 1)%nat.
Proof.
  destruct l as [|x [|y l]]; simpl; intros N H; try lia.
  inversion N as [|? ? Hx _]; subst. elim Hx. left.
  rewrite (H x), (H y); auto.
Qed.

(** X24: with [--account-id], [main] announces no account but the one
    with that identifier, and announces it at most once. *)
Theorem account_id_selects_one_account
    (lower : string -> string) (args : arguments) (env : environment)
    (wanted : string) :
  account_id args = Some wanted ->
  wanted <> "" ->
  (forall aid name,
      In (aid, name) (processed (fst (main lower args env))) ->
      aid = wanted) /\
  (List.length (processed (fst (main lower args env))) <= 1)%nat.
Proof.
  intros F W.
  destruct (main_trace lower args env) as (done & rest & E & -> & _).
  assert (A : forall x, In x done -> fst x = wanted).
  { intros x H.
    assert (S : In x (selected_accounts lower args env (discovered env))).
    { rewrite E. apply in_or_app. auto. }
    unfold selected_accounts in S. apply filter_account_name_In in S.
    unfold filter_account_id in S. rewrite F in S.
    assert (T : truthy_str wanted = true).
    { unfold truthy_str. apply negb_true_iff, String.eqb_neq. exact W. }
    rewrite T in S. apply filter_In in S. destruct S as [_ S].
    apply String.eqb_eq. exact S. }
  split.
  - intros aid name H. apply (A _ H).
  - apply (same_id_once done wanted); [|exact A].
    pose proof (selected_NoDup lower args env) as N. rewrite E in N.
    apply (app_ids_NoDup _ _ N).
Qed.

Lemma account_id_witness :
  processed (fst (main (fun s => s) only_account_222
                       (sample_environment sample_response)))
  = [("222", Some "profile:dev")] /\
  (forall aid name,
      In (aid, name)
         (processed (fst (main (fun s => s) only_account_222
                               (sample_environment sample_response)))) ->
      aid = "222") /\
  (List.length
     (processed (fst (main (fun s => s) only_account_222
                           (sample_environment sample_response))))
   <= 1)%nat.
Proof.
  split; [reflexivity|].
  apply (account_id_selects_one_account
           (fun s => s) only_account_222
           (sample_environment sample_response) "222");
    [reflexivity|discriminate].
Defined.

(** *** What is printed for an account *)

Lemma existsb_perm {A : Type} (p : A -> bool) l1 l2 :
  Permutation l1 l2 -> existsb p l1 = existsb p l2.
Proof.
  induction 1; simpl; try congruence.
  - destruct (p x), (p y); reflexivity.
Qed.

(** X25: once the cost query is answered, [main] prints nothing for an
    account none of whose totals is positive; otherwise it prints the
    line that costs were found and then one line for each service of the
    summary, zero totals included, in descending order of the totals. *)
Theorem cost_lines_are_in_descending_order
    (env : environment) (sess : credentials) (name : option string)
    (region_name : string) (summary : dict Z) :
  fst (get_aws_service_totals_last_30_days
         (cost_explorer env sess region_name)) = Ok summary ->
  exists lines,
    report_region env sess name region_name
    = (GetCostAndUsageIn sess region_name :: lines, Ok tt) /\
    (Forall (fun kv => snd kv <= 0) summary -> lines = []) /\
    (Exists (fun kv => 0 < snd kv) summary ->
     exists sorted_summary,
       lines = Stdout (FoundCostsLine name region_name)
                 :: map (fun kv => Stdout (CostLine (fst kv) (snd kv)))
                        sorted_summary /\
       Permutation sorted_summary summary /\
       StronglySorted (fun a b : string * Z => snd b <= snd a)
                      sorted_summary).
Proof.
  intros E. rewrite (report_region_answered _ _ _ _ _ E).
  rewrite (existsb_perm _ _ _ (sorted_by_value_perm summary)).
  eexists. split; [reflexivity|]. split.
  - intros H.
    destruct (existsb (fun kv => 0 <? snd kv) summary) eqn:X;
      [|reflexivity].
    apply existsb_exists in X. destruct X as (kv & Hk & P).
    rewrite Forall_forall in H. specialize (H kv Hk).
    apply Z.ltb_lt in P. lia.
  - intros H.
    assert (X : existsb (fun kv => 0 <? snd kv) summary = true).
    { apply existsb_exists. apply Exists_exists in H.
      destruct H as (kv & Hk & P). exists kv. split; [exact Hk|].
      apply Z.ltb_lt. exact P. }
    rewrite X. exists (sorted_by_value summary).
    split; [reflexivity|].
    split; [apply sorted_by_value_perm|apply sorted_by_value_sorted].
Qed.

Lemma cost_lines_witness :
  fst (get_aws_service_totals_last_30_days
         (cost_explorer (sample_environment sample_response)
                        member_credentials "eu-west-1"))
  = Ok [("EC2", 3); ("S3", 0)] /\
  exists lines,
    report_region (sample_environment sample_response) member_credentials
                  (Some "Prod") "eu-west-1"
    = (GetCostAndUsageIn member_credentials "eu-west-1" :: lines, Ok tt) /\
    (Forall (fun kv => snd kv <= 0) [("EC2", 3); ("S3", 0)] ->
     lines = []) /\
    (Exists (fun kv => 0 < snd kv) [("EC2", 3); ("S3", 0)] ->
     exists sorted_summary,
       lines = Stdout (FoundCostsLine (Some "Prod") "eu-west-1")
                 :: map (fun kv => Stdout (CostLine (fst kv) (snd kv)))
                        sorted_summary /\
       Permutation sorted_summary [("EC2", 3); ("S3", 0)] /\
       StronglySorted (fun a b : string * Z => snd b <= snd a)
                      sorted_summary).
Proof.
  split; [reflexivity|].
  apply (cost_lines_are_in_descending_order
           (sample_environment sample_response) member_credentials
           (Some "Prod") "eu-west-1" [("EC2", 3); ("S3", 0)]).
  reflexivity.
Defined.

(** X26: an account whose every daily amount is under one dollar gets no
    line after its announcement, whatever the amounts add up to: every
    amount is cut to whole dollars before the totals are formed. *)
Theorem sub_dollar_account_prints_nothing
    (env : environment) (sess : credentials) (name : option string)
    (region_name : string) (response : cost_and_usage_response string)
    (rest : list (cost_and_usage_response string)) :
  service_pages (cost_explorer env sess region_name) = response :: rest ->
  Forall (fun g => (abs (Amount g) <? 1)%float = true)
         (List.concat (ResultsByTime response)) ->
  report_region env sess name region_name
  = ([GetCostAndUsageIn sess region_name], Ok tt).
Proof.
  intros S H. destruct (small_amounts_zero response H) as (totals & T & Z).
  rewrite (report_region_answered env sess name region_name totals).
  - rewrite (existsb_perm _ _ _ (sorted_by_value_perm totals)).
    replace (existsb (fun kv => 0 <? snd kv) totals) with false;
      [reflexivity|].
    symmetry. apply not_true_is_false. intros X.
    apply existsb_exists in X. destruct X as (kv & Hk & P).
    rewrite Forall_forall in Z. rewrite (Z kv Hk) in P. discriminate.
  - unfold get_aws_service_totals_last_30_days. rewrite S. exact T.
Qed.

Lemma sub_dollar_account_witness :
  service_pages (cost_explorer (sample_environment cents_every_day)
                               member_credentials "eu-west-1")
  = cents_every_day :: [] /\
  Forall (fun g => (abs (Amount g) <? 1)%float = true)
         (List.concat (ResultsByTime cents_every_day)) /\
  report_region (sample_environment cents_every_day) member_credentials
                (Some "Prod") "eu-west-1"
  = ([GetCostAndUsageIn member_credentials "eu-west-1"], Ok tt).
Proof.
  split; [reflexivity|]. split; [repeat constructor|].
  apply (sub_dollar_account_prints_nothing
           (sample_environment cents_every_day) member_credentials
           (Some "Prod") "eu-west-1" cents_every_day []).
  - reflexivity.
  - repeat constructor.
Defined.

End AwsCostMainExtras.

